(** * MoBI-AV: synchronized audio/video recorder

    A shallow embedding of [lsl_utils.py], [audio_recorder.py],
    [video_recorder.py] and [recorder_core.py].

    Python objects become records, methods become programs in a small
    state-and-exception monad whose state survives a raised exception (as
    attribute writes made before a [raise] do in Python).  Everything the
    operating system, PortAudio, OpenCV or the clock decides is read from an
    explicit environment record handed to each call, so every method is an
    executable function.  The externally observable effects (marker samples
    pushed to LSL, log records, thread starts and joins, device calls) are
    appended, in program order, to one trace. *)

From Stdlib Require Import ZArith QArith Qround List String Ascii Bool Lia.
From Stdlib Require Import DecimalString.
Import ListNotations.

Local Open Scope string_scope.
Local Open Scope Z_scope.

(** ** Python values as the code formats and tests them *)

Module Py.

(** [str(n)] / [f"{n}"] for an [int]. *)
Definition str_int (n : Z) : string := NilZero.string_of_int (Z.to_int n).

(** [f"{x}"] for a value that is a string or [None]. *)
Definition str_opt (x : option string) : string :=
  match x with
  | Some s => s
  | None => "None"
  end.

(** Truth value of a string-or-None: [None] and [""] are falsy. *)
Definition truthy (x : option string) : bool :=
  match x with
  | Some EmptyString => false
  | Some _ => true
  | None => false
  end.

(** A number read from JSON or from a driver: an [int], or a [float]
    carried as its exact rational value together with its [repr].  Float
    rounding is not modelled. *)
Inductive num : Type :=
| Int (n : Z)
| Float (q : Q) (repr : string).

Definition num_val (x : num) : Q :=
  match x with
  | Int n => inject_Z n
  | Float q _ => q
  end.

Definition str_num (x : num) : string :=
  match x with
  | Int n => str_int n
  | Float _ r => r
  end.

(** [f"{n}"] for an [int] or [None]. *)
Definition str_int_opt (x : option Z) : string :=
  match x with
  | Some n => str_int n
  | None => "None"
  end.

Definition str_num_opt (x : option num) : string :=
  match x with
  | Some n => str_num n
  | None => "None"
  end.

(** [a < b] on numbers. *)
Definition num_ltb (a b : num) : bool := negb (Qle_bool (num_val b) (num_val a)).

(** [int(x)]: truncation toward zero. *)
Definition int_of (x : num) : Z :=
  Z.quot (Qnum (num_val x)) (Zpos (Qden (num_val x))).

Definition num_mul (a b : num) : num :=
  match a, b with
  | Int x, Int y => Int (x * y)
  | _, _ => Float (num_val a * num_val b) ""
  end.

(** [min(a, b)] on ints. *)
Definition min_int (a b : Z) : Z := if b <? a then b else a.

Definition starts_with_slash (s : string) : bool :=
  match s with
  | String c _ => Ascii.eqb c "/"
  | EmptyString => false
  end.

Fixpoint ends_with_slash (s : string) : bool :=
  match s with
  | EmptyString => false
  | String c EmptyString => Ascii.eqb c "/"
  | String _ rest => ends_with_slash rest
  end.

(** [os.path.join(a, p)] (posixpath, two components). *)
Definition path_join (a p : string) : string :=
  if starts_with_slash p then p
  else match a with
       | EmptyString => p
       | _ => if ends_with_slash a then a ++ p else a ++ "/" ++ p
       end.

(** [s.split(c)]. *)
Fixpoint split (c : ascii) (s : string) : list string :=
  match s with
  | EmptyString => [EmptyString]
  | String a rest =>
      if Ascii.eqb a c then EmptyString :: split c rest
      else match split c rest with
           | [] => [String a EmptyString]
           | h :: t => String a h :: t
           end
  end.

(** [c not in s]. *)
Fixpoint lacks (c : ascii) (s : string) : bool :=
  match s with
  | EmptyString => true
  | String a rest => negb (Ascii.eqb a c) && lacks c rest
  end.

(** [sub in s] for strings. *)
Fixpoint contains (sub s : string) : bool :=
  if String.prefix sub s then true
  else match s with
       | EmptyString => false
       | String _ rest => contains sub rest
       end.

(** [repr(s)] for a [str].  A [str] is carried as its code points, all
    below 256.  CPython quotes with an apostrophe unless the text has an
    apostrophe and no double quote; it escapes the quote in use, the
    backslash, tab, newline and carriage return, and writes the other code
    points that are not printable (controls, U+007F to U+00A0, U+00AD) as
    [\xhh] with lower-case digits. *)
Definition double_quote : ascii := "034"%char.

Definition hex_digit (n : nat) : ascii :=
  nth n (list_ascii_of_string "0123456789abcdef") "0"%char.

Definition hex2 (n : nat) : string :=
  String (hex_digit (n / 16)) (String (hex_digit (n mod 16)) EmptyString).

Definition repr_quote (s : string) : ascii :=
  if negb (lacks "'" s) && lacks double_quote s then double_quote
  else "'"%char.

Definition repr_char (quote c : ascii) : string :=
  let n := nat_of_ascii c in
  if Ascii.eqb c quote || Ascii.eqb c "\" then String "\" (String c EmptyString)
  else if (n =? 9)%nat then "\t"
  else if (n =? 10)%nat then "\n"
  else if (n =? 13)%nat then "\r"
  else if (n <? 32)%nat || (n =? 127)%nat then "\x" ++ hex2 n
  else if (n <? 127)%nat then String c EmptyString
  else if (n <=? 160)%nat || (n =? 173)%nat then "\x" ++ hex2 n
  else String c EmptyString.

Fixpoint repr_chars (quote : ascii) (s : string) : string :=
  match s with
  | EmptyString => EmptyString
  | String c rest => repr_char quote c ++ repr_chars quote rest
  end.

Definition repr (s : string) : string :=
  let quote := repr_quote s in
  String quote (repr_chars quote s ++ String quote EmptyString).

(** [str(l)] / [f"{l}"] for a list of strings. *)
Definition str_list (l : list string) : string :=
  "[" ++ String.concat ", " (map repr l) ++ "]".

End Py.

(** ** Exceptions, effects and the method monad *)

(** A raised Python exception: class name and message. *)
Record exn : Type := Exn { exn_class : string; exn_msg : string }.

(** [traceback.format_exc()], reduced to its last line. *)
Definition traceback (e : exn) : string := exn_class e ++ ": " ++ exn_msg e.

Inductive outlet : Type := AudioOutlet | VideoOutlet.

Inductive level : Type := INFO | WARNING | ERROR.

(** Observable effects, in the order the program performs them. *)
Inductive event : Type :=
| EPush (o : outlet) (sample : string)      (* outlet.push_sample([sample]) *)
| ELog (l : level) (text : string)          (* logging.info/warning/error *)
| EMakedirs (dir : string)                  (* os.makedirs(dir, exist_ok=True) *)
| EStreamOpen (dev : Z) (channels rate : option Z) (frames_per_buffer : Z)
    (started : bool)                        (* PyAudio.open(..., start=...) *)
| EStreamStart                              (* stream.start_stream() *)
| EStreamStop                               (* stream.stop_stream() *)
| EStreamClose                              (* stream.close() *)
| EPaTerminate                              (* PyAudio.terminate() *)
| EWaveWrite (path : string) (channels width rate : Z) (nbuffers : nat)
| ECameraOpen (dev : Z)                     (* cv2.VideoCapture(dev) *)
| ECameraRelease                            (* video_capture.release() *)
| EWriterOpen (path : string)               (* cv2.VideoWriter(path, ...) *)
| EWriterRelease                            (* video_writer.release() *)
| EFrameWrite                               (* video_writer.write(frame) *)
| ESleep (seconds : Q)                      (* time.sleep *)
| EThreadStart (tid : nat)                  (* Thread.start() *)
| EThreadJoin (tid : nat) (timeout waited : Q).   (* Thread.join(timeout) *)

Inductive result (A : Type) : Type :=
| Val (a : A)
| Raised (e : exn).
Arguments Val {A} a.
Arguments Raised {A} e.

Section Monad.
Context {St : Type}.

(** A method body over object state [S]: it returns or raises, and in both
    cases leaves a state. *)
Definition M (A : Type) : Type := St -> result A * St.

Definition ret {A} (a : A) : M A := fun s => (Val a, s).

Definition raise {A} (e : exn) : M A := fun s => (Raised e, s).

Definition bind {A B} (m : M A) (k : A -> M B) : M B :=
  fun s =>
    match m s with
    | (Val a, s') => k a s'
    | (Raised e, s') => (Raised e, s')
    end.

(** [try: body  except Exception as e: handler(e)]. *)
Definition try_except {A} (body : M A) (handler : exn -> M A) : M A :=
  fun s =>
    match body s with
    | (Val a, s') => (Val a, s')
    | (Raised e, s') => handler e s'
    end.

Definition get : M St := fun s => (Val s, s).

Definition modify (f : St -> St) : M unit := fun s => (Val tt, f s).

(** An external call that raises when the environment says so. *)
Definition may_raise (e : option exn) : M unit :=
  match e with
  | Some x => raise x
  | None => ret tt
  end.

Definition when (b : bool) (m : M unit) : M unit := if b then m else ret tt.
End Monad.

(** An object of class [T] as a method sees it: its attributes, and the
    effect trace of the process (which holds the shared [MarkerStreams]
    outlets). *)
Record obj (T : Type) : Type := Obj { self : T; trace : list event }.
Arguments Obj {T} self trace.
Arguments self {T} o.
Arguments trace {T} o.

Section Object.
Context {T : Type}.

Definition attrs : M (St := obj T) T := fun o => (Val (self o), o).

Definition set_attrs (f : T -> T) : M (St := obj T) unit :=
  fun o => (Val tt, Obj (f (self o)) (trace o)).

Definition emit (e : event) : M (St := obj T) unit :=
  fun o => (Val tt, Obj (self o) (trace o ++ [e])).

Definition log (l : level) (text : string) : M (St := obj T) unit :=
  emit (ELog l text).

(** A call through the shared [marker_streams] object. *)
Definition markers (send : list event -> list event) : M (St := obj T) unit :=
  fun o => (Val tt, Obj (self o) (send (trace o))).

(** [os.makedirs(dir, exist_ok=True)]. *)
Definition makedirs (dir : string) (err : option exn) : M (St := obj T) unit :=
  bind (may_raise err) (fun _ => emit (EMakedirs dir)).
End Object.

(** Samples pushed so far on one outlet, oldest first. *)
Fixpoint pushed (o : outlet) (tr : list event) : list string :=
  match tr with
  | [] => []
  | EPush o' s :: rest =>
      match o, o' with
      | AudioOutlet, AudioOutlet | VideoOutlet, VideoOutlet => s :: pushed o rest
      | _, _ => pushed o rest
      end
  | _ :: rest => pushed o rest
  end.

Declare Scope py_scope.
Delimit Scope py_scope with py.
Notation "x <- m ;; k" := (bind m (fun x => k))
(at level 61, m at next level, right associativity) : py_scope.
Notation "m ;; k" := (bind m (fun _ => k))
(at level 61, right associativity) : py_scope.
Local Open Scope py_scope.

(** ** lsl_utils.py *)

Module MarkerStreams.

(** [send_audio_start_marker]: the marker text. *)
Definition audio_start_marker (subject_id : string) (filename : option string)
    (timestamp : string) (channels sample_rate : option Z)
    (iso_timestamp : option string) : string :=
  if Py.truthy iso_timestamp then
    "AUDIO_START," ++ subject_id ++ "," ++ Py.str_opt filename ++ "," ++ timestamp
      ++ "," ++ Py.str_int_opt channels ++ "," ++ Py.str_int_opt sample_rate
      ++ "," ++ Py.str_opt iso_timestamp
  else
    "AUDIO_START," ++ subject_id ++ "," ++ Py.str_opt filename ++ "," ++ timestamp
      ++ "," ++ Py.str_int_opt channels ++ "," ++ Py.str_int_opt sample_rate.

Definition audio_stop_marker (filename : option string) (timestamp : string)
    : string :=
  "AUDIO_STOP," ++ Py.str_opt filename ++ "," ++ timestamp.

Definition video_start_marker (subject_id : string) (filename : option string)
    (timestamp iso_timestamp : string) (fps : option Py.num) : string :=
  "VIDEO_START," ++ subject_id ++ "," ++ Py.str_opt filename ++ "," ++ timestamp
    ++ "," ++ iso_timestamp ++ "," ++ Py.str_num_opt fps.

Definition video_stop_marker (filename : option string) (timestamp : string)
    : string :=
  "VIDEO_STOP," ++ Py.str_opt filename ++ "," ++ timestamp.

(** The four senders push one sample on their outlet. *)
Definition send_audio_start_marker subject_id filename timestamp channels
    sample_rate iso_timestamp (trace : list event) : list event :=
  trace ++ [EPush AudioOutlet
              (audio_start_marker subject_id filename timestamp channels
                 sample_rate iso_timestamp)].

Definition send_audio_stop_marker filename timestamp (trace : list event)
    : list event :=
  trace ++ [EPush AudioOutlet (audio_stop_marker filename timestamp)].

Definition send_video_start_marker subject_id filename timestamp iso_timestamp
    fps (trace : list event) : list event :=
  trace ++ [EPush VideoOutlet
              (video_start_marker subject_id filename timestamp iso_timestamp
                 fps)].

Definition send_video_stop_marker filename timestamp (trace : list event)
    : list event :=
  trace ++ [EPush VideoOutlet (video_stop_marker filename timestamp)].

End MarkerStreams.

(** ** audio_recorder.py *)

Module AudioRecorder.

(** [pyaudio]'s sample-format constants (PortAudio's [PaSampleFormat]
    bits); [format_map] is keyed by them. *)
Definition paFloat32 : Z := 1.
Definition paInt32 : Z := 2.
Definition paInt24 : Z := 4.
Definition paInt16 : Z := 8.
Definition paInt8 : Z := 16.
Definition paUInt8 : Z := 32.
Definition paCustomFormat : Z := 65536.

(** What [getattr(pyaudio, name)] can give: an [int] (the format constants,
    and the module's other constants such as [paComplete], which share
    their values), another hashable object (a class, a function, a string)
    or an unhashable one (a dict such as [__builtins__]). *)
Inductive attribute : Type :=
| Constant (value : Z)
| Object (type_name : string)
| Unhashable (type_name : string).

(** A [pyaudio.Stream]. *)
Record stream : Type := Stream { active : bool; closed : bool }.

(** A [pyaudio.PyAudio] instance. *)
Record pyaudio : Type := PyAudio { terminated : bool }.

(** One entry of PortAudio's device table. *)
Record device_info : Type := DeviceInfo {
  name : string;
  hostApi : Z;
  maxInputChannels : Z;
  defaultSampleRate : Py.num
}.

(** [config["fallback_settings"]]; an absent key is [None]. *)
Record fallback_settings : Type := Fallback {
  fb_channels : option Z;
  fb_sample_rate : option Z;
  fb_chunk_duration : option Py.num;
  fb_format : option string
}.

(** The [audio_settings] dictionary; an absent key is [None]. *)
Record config : Type := Config {
  device_name : option string;
  host_api : option (list Z);
  use_device_defaults : option bool;
  channels : option Z;
  sample_rate : option Z;
  chunk_duration : option Py.num;
  format : option string;
  filename_suffix : option string;
  fallback : option fallback_settings
}.

(** The attributes of an [AudioRecorder]. *)
Record t : Type := Make {
  recording : bool;
  audio_stream : option stream;
  audio_p : option pyaudio;
  audio_frames : list string;
  audio_filename : option string;
  actual_channels : option Z;
  actual_sample_rate : option Z;
  actual_sample_width : option Z
}.

(** [__init__]. *)
Definition init : t :=
  Make false None None [] None None None None.

Definition set_recording (b : bool) (a : t) : t :=
  Make b (audio_stream a) (audio_p a) (audio_frames a) (audio_filename a)
    (actual_channels a) (actual_sample_rate a) (actual_sample_width a).

Definition set_audio_stream (x : option stream) (a : t) : t :=
  Make (recording a) x (audio_p a) (audio_frames a) (audio_filename a)
    (actual_channels a) (actual_sample_rate a) (actual_sample_width a).

Definition set_audio_p (x : option pyaudio) (a : t) : t :=
  Make (recording a) (audio_stream a) x (audio_frames a) (audio_filename a)
    (actual_channels a) (actual_sample_rate a) (actual_sample_width a).

Definition set_audio_frames (x : list string) (a : t) : t :=
  Make (recording a) (audio_stream a) (audio_p a) x (audio_filename a)
    (actual_channels a) (actual_sample_rate a) (actual_sample_width a).

Definition set_audio_filename (x : option string) (a : t) : t :=
  Make (recording a) (audio_stream a) (audio_p a) (audio_frames a) x
    (actual_channels a) (actual_sample_rate a) (actual_sample_width a).

Definition set_actual_channels (x : option Z) (a : t) : t :=
  Make (recording a) (audio_stream a) (audio_p a) (audio_frames a)
    (audio_filename a) x (actual_sample_rate a) (actual_sample_width a).

Definition set_actual_sample_rate (x : option Z) (a : t) : t :=
  Make (recording a) (audio_stream a) (audio_p a) (audio_frames a)
    (audio_filename a) (actual_channels a) x (actual_sample_width a).

Definition set_actual_sample_width (x : option Z) (a : t) : t :=
  Make (recording a) (audio_stream a) (audio_p a) (audio_frames a)
    (audio_filename a) (actual_channels a) (actual_sample_rate a) x.

(** What the outside world answers during one [start_recording] call. *)
Record start_env : Type := StartEnv {
  devices : list device_info;        (* PortAudio's device table *)
  module_attrs : list (string * attribute);
                                     (* the other attributes of [pyaudio] *)
  open_error : option exn;           (* [PyAudio.open] raises *)
  makedirs_error : option exn;       (* [os.makedirs] raises *)
  now_filename : string;             (* strftime of the clock, filename *)
  now_marker : string                (* strftime of the clock, marker *)
}.

Record begin_env : Type := BeginEnv {
  start_stream_error : option exn;   (* [Stream.start_stream] raises *)
  begin_now : string;                (* start_time.strftime(...) *)
  begin_iso : string                 (* start_time.isoformat() *)
}.

Record stop_env : Type := StopEnv {
  stop_stream_error : option exn;
  close_error : option exn;
  wave_open_error : option exn;      (* [wave.open(path, "wb")] raises *)
  wave_write_error : option exn;     (* [writeframes]/[close] raise *)
  stop_now : string
}.

(** [PyAudio.get_device_info_by_index]: raises on an index outside the
    table. *)
Definition get_device_info_by_index (devs : list device_info) (i : Z)
    : M (St := obj t) device_info :=
  if i <? 0 then raise (Exn "OSError" "Invalid device info")
  else match nth_error devs (Z.to_nat i) with
       | Some d => ret d
       | None => raise (Exn "OSError" "Invalid device info")
       end.

Definition mem_Z (x : Z) (l : list Z) : bool := existsb (Z.eqb x) l.

(** The loop of [find_device]: first index whose device matches. *)
Fixpoint first_match (device_name : string) (host_api : list Z)
    (devs : list device_info) (i : Z) : option Z :=
  match devs with
  | [] => None
  | d :: rest =>
      if Py.contains device_name (name d)
         && mem_Z (hostApi d) host_api
         && (0 <? maxInputChannels d)
      then Some i
      else first_match device_name host_api rest (i + 1)
  end.

(** [f"{available_devices}"]: the list of names, each as its [repr]. *)
Definition repr_names (names : list string) : string := Py.str_list names.

(** [find_device]: returns [(p, device_index)] or [(None, None)]. *)
Definition find_device (devs : list device_info) (device_name : string)
    (host_api : list Z) : M (St := obj t) (option pyaudio * option Z) :=
  match first_match device_name host_api devs 0 with
  | None =>
      log ERROR ("Device '" ++ device_name ++ "' not found. Available devices: "
                 ++ repr_names (map name devs)) ;;
      emit EPaTerminate ;;
      ret (None, None)
  | Some i => ret (Some (PyAudio false), Some i)
  end.

(** [audio_callback]. *)
Definition audio_callback (in_data : string) : M (St := obj t) unit :=
  a <- attrs ;;
  when (recording a) (set_attrs (set_audio_frames (audio_frames a ++ [in_data]))).

(** Lookup of a name among the module's other attributes. *)
Fixpoint lookup (format_name : string) (attrs : list (string * attribute))
    : option attribute :=
  match attrs with
  | [] => None
  | (n, v) :: rest =>
      if String.eqb format_name n then Some v else lookup format_name rest
  end.

(** The attribute of the [pyaudio] module with a given name, if any. *)
Definition pyaudio_attribute (module_attrs : list (string * attribute))
    (format_name : string) : option attribute :=
  if String.eqb format_name "paFloat32" then Some (Constant paFloat32)
  else if String.eqb format_name "paInt32" then Some (Constant paInt32)
  else if String.eqb format_name "paInt24" then Some (Constant paInt24)
  else if String.eqb format_name "paInt16" then Some (Constant paInt16)
  else if String.eqb format_name "paInt8" then Some (Constant paInt8)
  else if String.eqb format_name "paUInt8" then Some (Constant paUInt8)
  else if String.eqb format_name "paCustomFormat"
       then Some (Constant paCustomFormat)
  else lookup format_name module_attrs.

(** [getattr(pyaudio, format_name)]. *)
Definition getattr_pyaudio (module_attrs : list (string * attribute))
    (format_name : string) : M (St := obj t) attribute :=
  match pyaudio_attribute module_attrs format_name with
  | Some v => ret v
  | None => raise (Exn "AttributeError"
                     ("module 'pyaudio' has no attribute '" ++ format_name ++ "'"))
  end.

(** The dictionary [format_map]: keys and values in the order of the
    source. *)
Definition format_map : list (Z * Z) :=
  [(paInt16, 2); (paInt24, 3); (paInt32, 4); (paFloat32, 4)].

Fixpoint dict_get (key : Z) (d : list (Z * Z)) (otherwise : Z) : Z :=
  match d with
  | [] => otherwise
  | (k, v) :: rest => if key =? k then v else dict_get key rest otherwise
  end.

(** [format_map.get(format_value, 2)]: an int is looked up by value, any
    other hashable object is no key of the dictionary, an unhashable one
    makes [dict.get] raise. *)
Definition format_map_get (format_value : attribute) : M (St := obj t) Z :=
  match format_value with
  | Constant v => ret (dict_get v format_map 2)
  | Object _ => ret 2
  | Unhashable type_name =>
      raise (Exn "TypeError" ("unhashable type: '" ++ type_name ++ "'"))
  end.

Definition default (A : Type) (x : option A) (d : A) : A :=
  match x with Some v => v | None => d end.
Arguments default {A} x d.

Definition fb_get {A} (fb : option fallback_settings)
    (field : fallback_settings -> option A) (d : A) : A :=
  match fb with
  | Some f => default (field f) d
  | None => d
  end.

(** The sample format that [start_recording] hands to [PyAudio.open]:
    [paInt16] with device defaults, else the configured name looked up in
    the [pyaudio] module. *)
Definition negotiated_format (cfg : config) (env : start_env)
    : option attribute :=
  if default (use_device_defaults cfg) false then Some (Constant paInt16)
  else pyaudio_attribute (module_attrs env)
         (default (format cfg) (fb_get (fallback cfg) fb_format "paInt16")).

(** [self.audio_p.terminate()] in the handler of [start_recording]. *)
Definition terminate_if_any : M (St := obj t) unit :=
  a <- attrs ;;
  match audio_p a with
  | Some _ => emit EPaTerminate ;; set_attrs (set_audio_p (Some (PyAudio true)))
  | None => ret tt
  end.

(** [start_recording]. *)
Definition start_recording (cfg : config) (env : start_env)
    (subject_id destination : string) (device_index : option Z)
    (pre_initialize : bool) (filename : option string) : M (St := obj t) bool :=
  a <- attrs ;;
  if recording a then
    log WARNING "Audio recording already in progress" ;; ret false
  else
    device_idx <-
      match device_index with
      | Some i => set_attrs (set_audio_p (Some (PyAudio false))) ;; ret (Some i)
      | None =>
          found <- find_device (devices env)
                     (default (device_name cfg) "Default")
                     (default (host_api cfg) [0; 1; 2; 3]) ;;
          set_attrs (set_audio_p (fst found)) ;;
          ret (snd found)
      end ;;
    a <- attrs ;;
    match audio_p a, device_idx with
    | Some _, Some device_idx =>
        let use_defaults := default (use_device_defaults cfg) false in
        device_info <- get_device_info_by_index (devices env) device_idx ;;
        params <-
          (if use_defaults then
             set_attrs (set_actual_channels
                          (Some (Py.min_int (maxInputChannels device_info) 2))) ;;
             set_attrs (set_actual_sample_rate
                          (Some (Py.int_of (defaultSampleRate device_info)))) ;;
             ret (fb_get (fallback cfg) fb_chunk_duration
                    (Py.Float (1 # 10) "0.1"),
                  Constant paInt16)
           else
             let fb := fallback cfg in
             let requested_channels :=
               default (channels cfg) (fb_get fb fb_channels 1) in
             set_attrs (set_actual_channels
                          (Some (Py.min_int requested_channels
                                   (maxInputChannels device_info)))) ;;
             set_attrs (set_actual_sample_rate
                          (Some (default (sample_rate cfg)
                                   (fb_get fb fb_sample_rate 44100)))) ;;
             let chunk_duration :=
               default (chunk_duration cfg)
                 (fb_get fb fb_chunk_duration (Py.Float (1 # 10) "0.1")) in
             let format_name :=
               default (format cfg) (fb_get fb fb_format "paInt16") in
             format_value <- getattr_pyaudio (module_attrs env) format_name ;;
             ret (chunk_duration, format_value)) ;;
        let chunk_duration := fst params in
        let format_value := snd params in
        a <- attrs ;;
        let chunk :=
          Py.int_of (Py.num_mul (Py.Int (default (actual_sample_rate a) 0))
                       chunk_duration) in
        sample_width <- format_map_get format_value ;;
        set_attrs (set_actual_sample_width (Some sample_width)) ;;
        try_except
          (may_raise (open_error env) ;;
           emit (EStreamOpen device_idx (actual_channels a) (actual_sample_rate a)
                   chunk (negb pre_initialize)) ;;
           set_attrs (set_audio_stream
                        (Some (Stream (negb pre_initialize) false))) ;;
           set_attrs (set_audio_frames []) ;;
           makedirs destination (makedirs_error env) ;;
           (if Py.truthy filename then
              set_attrs (set_audio_filename filename)
            else
              let timestamp := now_filename env in
              let suffix := default (filename_suffix cfg) "_audio" in
              set_attrs (set_audio_filename
                           (Some (Py.path_join destination
                                    (subject_id ++ suffix ++ "_" ++ timestamp
                                       ++ ".wav"))))) ;;
           a <- attrs ;;
           (if negb pre_initialize then
              set_attrs (set_recording true) ;;
              let timestamp := now_marker env in
              markers (MarkerStreams.send_audio_start_marker subject_id
                         (audio_filename a) timestamp (actual_channels a)
                         (actual_sample_rate a) None) ;;
              log INFO ("Started audio recording: "
                        ++ Py.str_opt (audio_filename a) ++ " with "
                        ++ Py.str_int_opt (actual_channels a)
                        ++ " channels at "
                        ++ Py.str_int_opt (actual_sample_rate a) ++ " Hz")
            else
              log INFO ("Pre-initialized audio recording setup for: "
                        ++ Py.str_opt (audio_filename a))) ;;
           ret true)
          (fun e =>
             log ERROR ("Failed to start audio recording: " ++ exn_msg e) ;;
             terminate_if_any ;;
             ret false)
    | _, _ => ret false
    end.

(** [start_pre_initialized]. *)
Definition start_pre_initialized (env : begin_env) (subject_id : string)
    : M (St := obj t) bool :=
  a <- attrs ;;
  match audio_stream a with
  | None => log ERROR "No pre-initialized audio recording to start" ;; ret false
  | Some st =>
      may_raise (start_stream_error env) ;;
      emit EStreamStart ;;
      set_attrs (set_audio_stream (Some (Stream true (closed st)))) ;;
      set_attrs (set_recording true) ;;
      let timestamp := begin_now env in
      let iso_timestamp := begin_iso env in
      a <- attrs ;;
      markers (MarkerStreams.send_audio_start_marker subject_id
                 (audio_filename a) timestamp (actual_channels a)
                 (actual_sample_rate a) (Some iso_timestamp)) ;;
      log INFO ("Started pre-initialized audio recording at " ++ iso_timestamp) ;;
      ret true
  end.

(** [wave.open(path, "wb")] ... [wf.close()]: the checks of the [wave]
    module on the header fields, then the write. *)
Definition write_wav (env : stop_env) (a : t) : M (St := obj t) unit :=
  match audio_filename a, actual_channels a, actual_sample_width a,
        actual_sample_rate a with
  | Some path, Some ch, Some width, Some rate =>
      may_raise (wave_open_error env) ;;
      if ch <? 1 then raise (Exn "Error" "bad # of channels")
      else if (width <? 1) || (4 <? width) then raise (Exn "Error" "bad sample width")
      else if rate <=? 0 then raise (Exn "Error" "bad frame rate")
      else
        may_raise (wave_write_error env) ;;
        emit (EWaveWrite path ch width rate (List.length (audio_frames a)))
  | _, _, _, _ => raise (Exn "TypeError" "NoneType")
  end.

(** [stop_recording]. *)
Definition stop_recording (env : stop_env) : M (St := obj t) bool :=
  a <- attrs ;;
  if negb (recording a) then
    log WARNING "No audio recording in progress" ;; ret false
  else
    try_except
      (match audio_stream a with
       | None => raise (Exn "AttributeError" "'NoneType' object has no attribute 'stop_stream'")
       | Some st =>
           may_raise (stop_stream_error env) ;;
           emit EStreamStop ;;
           set_attrs (set_audio_stream (Some (Stream false (closed st)))) ;;
           may_raise (close_error env) ;;
           emit EStreamClose ;;
           set_attrs (set_audio_stream (Some (Stream false true))) ;;
           match audio_p a with
           | None => raise (Exn "AttributeError" "'NoneType' object has no attribute 'terminate'")
           | Some _ =>
               emit EPaTerminate ;;
               set_attrs (set_audio_p (Some (PyAudio true))) ;;
               write_wav env a ;;
               let timestamp := stop_now env in
               markers (MarkerStreams.send_audio_stop_marker (audio_filename a)
                          timestamp) ;;
               set_attrs (set_recording false) ;;
               log INFO ("Stopped audio recording: "
                         ++ Py.str_opt (audio_filename a)) ;;
               ret true
           end
       end)
      (fun e =>
         log ERROR ("Failed to stop audio recording: " ++ exn_msg e) ;;
         set_attrs (set_recording false) ;;
         ret false).

End AudioRecorder.

(** ** video_recorder.py *)

Module VideoRecorder.

(** A [cv2.VideoCapture]. *)
Record capture : Type := Capture { isOpened : bool }.

(** A [cv2.VideoWriter]. *)
Record writer : Type := Writer { path : option string }.

(** The [video_settings] dictionary; an absent key is [None]. *)
Record config : Type := Config {
  width : option Z;
  height : option Z;
  fps : option Py.num;
  codec : option string;
  filename_suffix : option string;
  show_timestamp : option bool
}.

(** The attributes of a [VideoRecorder].  [video_thread] and
    [preview_device_index] are [None] while the attribute does not exist;
    the capture loop itself runs on its own thread and is represented by its
    thread id only. *)
Record t : Type := Make {
  recording : bool;
  thread_active : bool;
  video_capture : option capture;
  video_writer : option writer;
  video_filename : option string;
  actual_fps : option Py.num;
  show_preview : bool;
  preview_thread : option nat;
  preview_active : bool;
  video_thread : option nat;
  video_start_time : option string;
  exact_video_start : option string;
  preview_device_index : option (option Z)
}.

(** [__init__]. *)
Definition init : t :=
  Make false false None None None None false None false None None None None.

Definition set_recording (b : bool) (v : t) : t :=
  Make b (thread_active v) (video_capture v) (video_writer v) (video_filename v)
    (actual_fps v) (show_preview v) (preview_thread v) (preview_active v)
    (video_thread v) (video_start_time v) (exact_video_start v)
    (preview_device_index v).

Definition set_thread_active (b : bool) (v : t) : t :=
  Make (recording v) b (video_capture v) (video_writer v) (video_filename v)
    (actual_fps v) (show_preview v) (preview_thread v) (preview_active v)
    (video_thread v) (video_start_time v) (exact_video_start v)
    (preview_device_index v).

Definition set_video_capture (x : option capture) (v : t) : t :=
  Make (recording v) (thread_active v) x (video_writer v) (video_filename v)
    (actual_fps v) (show_preview v) (preview_thread v) (preview_active v)
    (video_thread v) (video_start_time v) (exact_video_start v)
    (preview_device_index v).

Definition set_video_writer (x : option writer) (v : t) : t :=
  Make (recording v) (thread_active v) (video_capture v) x (video_filename v)
    (actual_fps v) (show_preview v) (preview_thread v) (preview_active v)
    (video_thread v) (video_start_time v) (exact_video_start v)
    (preview_device_index v).

Definition set_video_filename (x : option string) (v : t) : t :=
  Make (recording v) (thread_active v) (video_capture v) (video_writer v) x
    (actual_fps v) (show_preview v) (preview_thread v) (preview_active v)
    (video_thread v) (video_start_time v) (exact_video_start v)
    (preview_device_index v).

Definition set_actual_fps (x : option Py.num) (v : t) : t :=
  Make (recording v) (thread_active v) (video_capture v) (video_writer v)
    (video_filename v) x (show_preview v) (preview_thread v) (preview_active v)
    (video_thread v) (video_start_time v) (exact_video_start v)
    (preview_device_index v).

Definition set_show_preview (b : bool) (v : t) : t :=
  Make (recording v) (thread_active v) (video_capture v) (video_writer v)
    (video_filename v) (actual_fps v) b (preview_thread v) (preview_active v)
    (video_thread v) (video_start_time v) (exact_video_start v)
    (preview_device_index v).

Definition set_preview_thread (x : option nat) (v : t) : t :=
  Make (recording v) (thread_active v) (video_capture v) (video_writer v)
    (video_filename v) (actual_fps v) (show_preview v) x (preview_active v)
    (video_thread v) (video_start_time v) (exact_video_start v)
    (preview_device_index v).

Definition set_preview_active (b : bool) (v : t) : t :=
  Make (recording v) (thread_active v) (video_capture v) (video_writer v)
    (video_filename v) (actual_fps v) (show_preview v) (preview_thread v) b
    (video_thread v) (video_start_time v) (exact_video_start v)
    (preview_device_index v).

Definition set_video_thread (x : option nat) (v : t) : t :=
  Make (recording v) (thread_active v) (video_capture v) (video_writer v)
    (video_filename v) (actual_fps v) (show_preview v) (preview_thread v)
    (preview_active v) x (video_start_time v) (exact_video_start v)
    (preview_device_index v).

Definition set_video_start_time (x : option string) (v : t) : t :=
  Make (recording v) (thread_active v) (video_capture v) (video_writer v)
    (video_filename v) (actual_fps v) (show_preview v) (preview_thread v)
    (preview_active v) (video_thread v) x (exact_video_start v)
    (preview_device_index v).

Definition set_exact_video_start (x : option string) (v : t) : t :=
  Make (recording v) (thread_active v) (video_capture v) (video_writer v)
    (video_filename v) (actual_fps v) (show_preview v) (preview_thread v)
    (preview_active v) (video_thread v) (video_start_time v) x
    (preview_device_index v).

(** What the outside world answers during one [start_recording] call. *)
Record start_env : Type := StartEnv {
  makedirs_error : option exn;       (* [os.makedirs] raises *)
  camera_opens : bool;               (* a new [VideoCapture] is opened *)
  reported_fps : Py.num;             (* [get(CAP_PROP_FPS)] *)
  writer_error : option exn;         (* fourcc / [VideoWriter] raise *)
  warmup_reads : list bool;          (* [ret] of the successive [read()] *)
  now_filename : string;             (* strftime of the clock, filename *)
  now_start_time : string;           (* [video_start_time] *)
  now_exact : string;                (* [exact_video_start.isoformat()] *)
  now_marker : string                (* strftime of the clock, marker *)
}.

Record begin_env : Type := BeginEnv {
  begin_now : string;                (* start_time.strftime(...) *)
  begin_iso : string                 (* start_time.isoformat() *)
}.

(** [loop_exit]: how many seconds after the stop signal the capture loop
    returns ([None]: it does not return). *)
Record stop_env : Type := StopEnv {
  loop_exit : option Q;
  release_error : option exn;        (* a [release()] raises *)
  stop_now : string
}.

Record preview_env : Type := PreviewEnv {
  probe_opens : bool;                (* the probe of [get_available_devices] *)
  preview_camera_opens : bool;
  preview_exit : option Q
}.

(** A mandatory key: [config[key]] raises [KeyError] when absent. *)
Definition key {A} (key_name : string) (x : option A) : M (St := obj t) A :=
  match x with
  | Some v => ret v
  | None => raise (Exn "KeyError" ("'" ++ key_name ++ "'"))
  end.

(** An identifier for the next thread object. *)
Fixpoint next_tid (tr : list event) : nat :=
  match tr with
  | [] => O
  | EThreadStart _ :: rest => S (next_tid rest)
  | _ :: rest => next_tid rest
  end.

(** [threading.Thread(target=...)], [daemon = True], [start()]. *)
Definition spawn (store : option nat -> t -> t) : M (St := obj t) unit :=
  o <- get ;;
  let tid := next_tid (trace o) in
  set_attrs (store (Some tid)) ;;
  emit (EThreadStart tid).

(** [Thread.join(timeout)] followed by [is_alive()]: the caller waits until
    the thread returns or the timeout elapses. *)
Definition join (tid : nat) (timeout : Q) (exit_after : option Q)
    : M (St := obj t) bool :=
  match exit_after with
  | Some d =>
      if Qle_bool d timeout
      then emit (EThreadJoin tid timeout (if Qle_bool d 0 then 0%Q else d)) ;;
           ret false
      else emit (EThreadJoin tid timeout timeout) ;; ret true
  | None => emit (EThreadJoin tid timeout timeout) ;; ret true
  end.

(** The timeout of [join(timeout=5.0)] in [stop_recording]. *)
Definition stop_timeout : Q := 5.

(** The warm-up loop of [start_recording]: up to [n] reads, the first frame
    is written unless pre-initializing; returns [warm_up_success]. *)
Fixpoint warm_up (n : nat) (reads : list bool) (pre_initialize : bool)
    : M (St := obj t) bool :=
  match n with
  | O => ret false
  | S n' =>
      match reads with
      | true :: _ =>
          when (negb pre_initialize) (emit EFrameWrite) ;;
          ret true
      | false :: rest => emit (ESleep (1 # 10)) ;; warm_up n' rest pre_initialize
      | [] => emit (ESleep (1 # 10)) ;; warm_up n' [] pre_initialize
      end
  end.

(** What the warm-up loop returns and what it does, as functions of the
    frames the camera delivers. *)
Fixpoint warm_up_success (n : nat) (reads : list bool) : bool :=
  match n with
  | O => false
  | S n' =>
      match reads with
      | true :: _ => true
      | false :: rest => warm_up_success n' rest
      | [] => warm_up_success n' []
      end
  end.

Fixpoint warm_up_events (n : nat) (reads : list bool) (pre_initialize : bool)
    : list event :=
  match n with
  | O => []
  | S n' =>
      match reads with
      | true :: _ => if pre_initialize then [] else [EFrameWrite]
      | false :: rest => ESleep (1 # 10) :: warm_up_events n' rest pre_initialize
      | [] => ESleep (1 # 10) :: warm_up_events n' [] pre_initialize
      end
  end.

(** [self.video_capture.release()] in the handler of [start_recording]. *)
Definition release_if_any : M (St := obj t) unit :=
  v <- attrs ;;
  match video_capture v with
  | Some _ =>
      emit ECameraRelease ;; set_attrs (set_video_capture (Some (Capture false)))
  | None => ret tt
  end.

Definition capture_open (c : option capture) : bool :=
  match c with
  | Some x => isOpened x
  | None => false
  end.

(** [start_recording]. *)
Definition start_recording (cfg : config) (env : start_env)
    (subject_id destination : string) (device_index : option Z)
    (pre_initialize : bool) (filename : option string) : M (St := obj t) bool :=
  v <- attrs ;;
  if recording v && negb pre_initialize then
    log WARNING "Video recording already in progress" ;; ret false
  else
    try_except
      (makedirs destination (makedirs_error env) ;;
       let camera_index := match device_index with None => 0 | Some i => i end in
       when (negb (capture_open (video_capture v)))
         (emit (ECameraOpen camera_index) ;;
          set_attrs (set_video_capture (Some (Capture (camera_opens env))))) ;;
       _ <- key "width" (width cfg) ;;
       _ <- key "height" (height cfg) ;;
       v <- attrs ;;
       if negb (capture_open (video_capture v)) then
         log ERROR ("Could not open video device at index "
                    ++ Py.str_int camera_index) ;;
         ret false
       else
         let camera_fps := reported_fps env in
         requested <- key "fps" (fps cfg) ;;
         (if Py.num_ltb (Py.Int 0) camera_fps && Py.num_ltb camera_fps requested
          then
            log INFO ("Camera reports actual FPS of " ++ Py.str_num camera_fps
                      ++ ", adjusting from requested " ++ Py.str_num requested) ;;
            set_attrs (set_actual_fps (Some camera_fps))
          else
            set_attrs (set_actual_fps (Some requested))) ;;
         (if Py.truthy filename then
            set_attrs (set_video_filename filename)
          else
            let timestamp := now_filename env in
            let suffix := AudioRecorder.default (filename_suffix cfg) "_video" in
            set_attrs (set_video_filename
                         (Some (Py.path_join destination
                                  (subject_id ++ suffix ++ "_" ++ timestamp
                                     ++ ".mp4"))))) ;;
         set_attrs (set_video_start_time (Some (now_start_time env))) ;;
         _ <- key "codec" (codec cfg) ;;
         may_raise (writer_error env) ;;
         v <- attrs ;;
         emit (EWriterOpen (Py.str_opt (video_filename v))) ;;
         set_attrs (set_video_writer (Some (Writer (video_filename v)))) ;;
         warm_up_success <- warm_up 10 (warmup_reads env) pre_initialize ;;
         when (negb warm_up_success)
           (log WARNING
              "Camera couldn't provide first frame, recording may be delayed") ;;
         (if negb pre_initialize then
            set_attrs (set_recording true) ;;
            set_attrs (set_thread_active true) ;;
            spawn set_video_thread ;;
            set_attrs (set_exact_video_start (Some (now_exact env))) ;;
            let timestamp := now_marker env in
            v <- attrs ;;
            markers (MarkerStreams.send_video_start_marker subject_id
                       (video_filename v) timestamp (now_exact env)
                       (actual_fps v)) ;;
            log INFO ("Started video recording: "
                      ++ Py.str_opt (video_filename v) ++ " at " ++ now_exact env
                      ++ " with " ++ Py.str_num_opt (actual_fps v) ++ " fps")
          else
            v <- attrs ;;
            log INFO ("Pre-initialized video recording for: "
                      ++ Py.str_opt (video_filename v))) ;;
         ret true)
      (fun e =>
         log ERROR ("Failed to start video recording: " ++ exn_msg e) ;;
         release_if_any ;;
         ret false).

(** [start_pre_initialized]. *)
Definition start_pre_initialized (env : begin_env) (subject_id : string)
    : M (St := obj t) bool :=
  v <- attrs ;;
  match video_capture v with
  | None => log ERROR "No pre-initialized video recording to start" ;; ret false
  | Some _ =>
      set_attrs (set_recording true) ;;
      set_attrs (set_thread_active true) ;;
      spawn set_video_thread ;;
      let timestamp := begin_now env in
      let iso_timestamp := begin_iso env in
      markers (MarkerStreams.send_video_start_marker subject_id
                 (video_filename v) timestamp iso_timestamp (actual_fps v)) ;;
      log INFO ("Started pre-initialized video recording at " ++ iso_timestamp) ;;
      ret true
  end.

(** [stop_recording]. *)
Definition stop_recording (env : stop_env) : M (St := obj t) bool :=
  v <- attrs ;;
  if negb (recording v) then
    log WARNING "No video recording in progress" ;; ret false
  else
    try_except
      (set_attrs (set_thread_active false) ;;
       set_attrs (set_recording false) ;;
       match video_thread v with
       | Some tid =>
           log INFO "Waiting for video thread to complete..." ;;
           alive <- join tid stop_timeout (loop_exit env) ;;
           when alive
             (log WARNING
                ("Video thread did not terminate gracefully, "
                 ++ "forcing resources to close"))
       | None => ret tt
       end ;;
       match video_writer v with
       | Some _ =>
           may_raise (release_error env) ;;
           emit EWriterRelease ;;
           set_attrs (set_video_writer None)
       | None => ret tt
       end ;;
       match video_capture v with
       | Some _ =>
           when (negb (show_preview v))
             (emit ECameraRelease ;; set_attrs (set_video_capture None))
       | None => ret tt
       end ;;
       let timestamp := stop_now env in
       markers (MarkerStreams.send_video_stop_marker (video_filename v)
                  timestamp) ;;
       log INFO ("Stopped video recording: " ++ Py.str_opt (video_filename v)) ;;
       ret true)
      (fun e =>
         log ERROR ("Error stopping video recording: " ++ exn_msg e) ;;
         log ERROR (traceback e) ;;
         set_attrs (set_recording false) ;;
         ret false).

(** What the caller of [stop_recording] may do while the capture loop winds
    down: log, and join the loop's thread for at most [stop_timeout]. *)
Definition bounded_wait (e : event) : Prop :=
  match e with
  | ELog _ _ => True
  | EThreadJoin _ timeout waited =>
      timeout = stop_timeout /\ (0 <= waited)%Q /\ (waited <= stop_timeout)%Q
  | _ => False
  end.

(** The handles that [stop_recording] releases, in order: the encoder, then
    the camera unless the preview keeps it. *)
Definition releases (v : t) : list event :=
  (match video_writer v with Some _ => [EWriterRelease] | None => [] end)
  ++ (match video_capture v with
      | Some _ => if show_preview v then [] else [ECameraRelease]
      | None => []
      end).

(** [start_preview]. *)
Definition start_preview (cfg : config) (env : preview_env)
    : M (St := obj t) bool :=
  v <- attrs ;;
  if preview_active v then ret true
  else
    opened <-
      match video_capture v with
      | Some _ => ret true
      | None =>
          device_index <-
            match preview_device_index v with
            | None => ret 0
            | Some (Some i) => ret i
            | Some None =>
                (* get_available_devices(): probes camera 0; both of its
                   answers list index 0 *)
                emit (ECameraOpen 0) ;;
                when (probe_opens env) (emit ECameraRelease) ;;
                ret 0
            end ;;
          emit (ECameraOpen device_index) ;;
          set_attrs (set_video_capture
                       (Some (Capture (preview_camera_opens env)))) ;;
          if negb (preview_camera_opens env) then
            log ERROR ("Could not open video device "
                       ++ Py.str_int device_index ++ " for preview") ;;
            ret false
          else
            _ <- key "width" (width cfg) ;;
            _ <- key "height" (height cfg) ;;
            ret true
      end ;;
    if negb opened then ret false
    else
      set_attrs (set_show_preview true) ;;
      set_attrs (set_preview_active true) ;;
      spawn set_preview_thread ;;
      log INFO "Started video preview" ;;
      ret true.

(** [stop_preview]. *)
Definition stop_preview (env : preview_env) : M (St := obj t) bool :=
  v <- attrs ;;
  if negb (preview_active v) then ret true
  else
    set_attrs (set_show_preview false) ;;
    set_attrs (set_preview_active false) ;;
    match preview_thread v with
    | Some tid =>
        match preview_exit env with
        | Some d =>
            if Qle_bool d 0 then ret tt         (* not is_alive() *)
            else _ <- join tid 2 (Some d) ;; ret tt
        | None => _ <- join tid 2 None ;; ret tt
        end
    | None => ret tt
    end ;;
    match video_capture v with
    | Some _ =>
        when (negb (recording v))
          (emit ECameraRelease ;; set_attrs (set_video_capture None))
    | None => ret tt
    end ;;
    log INFO "Stopped video preview" ;;
    ret true.

(** [toggle_preview]. *)
Definition toggle_preview (cfg : config) (env : preview_env)
    : M (St := obj t) bool :=
  v <- attrs ;;
  (if show_preview v then stop_preview env else start_preview cfg env) ;;
  v <- attrs ;;
  ret (show_preview v).

End VideoRecorder.

(** ** recorder_core.py *)

Module RecorderCore.

(** The keys of [config.json] that the coordinator reads. *)
Record config : Type := Config {
  audio_filename_suffix : option string;
  video_filename_suffix : option string;
  audio_settings : AudioRecorder.config;
  video_settings : VideoRecorder.config
}.

(** A [RecorderCore]: the two recorders.  The shared [marker_streams]
    outlets live in the trace of the enclosing [obj]. *)
Record t : Type := Make {
  audio_recorder : AudioRecorder.t;
  video_recorder : VideoRecorder.t
}.

(** [__init__]. *)
Definition init : t := Make AudioRecorder.init VideoRecorder.init.

(** A method call on [self.audio_recorder]. *)
Definition on_audio {A} (m : M (St := obj AudioRecorder.t) A)
    : M (St := obj t) A :=
  fun o =>
    let r := m (Obj (audio_recorder (self o)) (trace o)) in
    (fst r, Obj (Make (self (snd r)) (video_recorder (self o))) (trace (snd r))).

(** A method call on [self.video_recorder]. *)
Definition on_video {A} (m : M (St := obj VideoRecorder.t) A)
    : M (St := obj t) A :=
  fun o =>
    let r := m (Obj (video_recorder (self o)) (trace o)) in
    (fst r, Obj (Make (audio_recorder (self o)) (self (snd r))) (trace (snd r))).

(** The [recording_audio] and [recording_video] properties. *)
Definition recording_audio (c : t) : bool :=
  AudioRecorder.recording (audio_recorder c).

Definition recording_video (c : t) : bool :=
  VideoRecorder.recording (video_recorder c).

Definition key {A} (key_name : string) (x : option A) : M (St := obj t) A :=
  match x with
  | Some v => ret v
  | None => raise (Exn "KeyError" ("'" ++ key_name ++ "'"))
  end.

(** [start_audio_recording], [stop_audio_recording], [start_video_recording],
    [stop_video_recording], [start_pre_initialized_audio],
    [start_pre_initialized_video]: pass-throughs. *)
Definition start_audio_recording (cfg : config) (env : AudioRecorder.start_env)
    (subject_id destination : string) (device_index : option Z)
    (pre_initialize : bool) : M (St := obj t) bool :=
  on_audio (AudioRecorder.start_recording (audio_settings cfg) env subject_id
              destination device_index pre_initialize None).

Definition stop_audio_recording (env : AudioRecorder.stop_env)
    : M (St := obj t) bool :=
  on_audio (AudioRecorder.stop_recording env).

Definition start_video_recording (cfg : config) (env : VideoRecorder.start_env)
    (subject_id destination : string) (device_index : option Z)
    (pre_initialize : bool) : M (St := obj t) bool :=
  on_video (VideoRecorder.start_recording (video_settings cfg) env subject_id
              destination device_index pre_initialize None).

Definition stop_video_recording (env : VideoRecorder.stop_env)
    : M (St := obj t) bool :=
  on_video (VideoRecorder.stop_recording env).

Definition start_pre_initialized_audio (env : AudioRecorder.begin_env)
    (subject_id : string) : M (St := obj t) bool :=
  on_audio (AudioRecorder.start_pre_initialized env subject_id).

Definition start_pre_initialized_video (env : VideoRecorder.begin_env)
    (subject_id : string) : M (St := obj t) bool :=
  on_video (VideoRecorder.start_pre_initialized env subject_id).

(** What the outside world answers during one [start_both_recordings]. *)
Record both_env : Type := BothEnv {
  common_now : string;               (* strftime of the clock *)
  makedirs_error : option exn;
  audio_arm : AudioRecorder.start_env;
  video_arm : VideoRecorder.start_env;
  audio_begin : AudioRecorder.begin_env;
  video_begin : VideoRecorder.begin_env
}.

(** The synchronized filenames of [start_both_recordings]. *)
Definition audio_filename_for (destination subject_id audio_suffix
    common_timestamp : string) : string :=
  Py.path_join destination
    (subject_id ++ audio_suffix ++ "_" ++ common_timestamp ++ ".wav").

Definition video_filename_for (destination subject_id video_suffix
    common_timestamp : string) : string :=
  Py.path_join destination
    (subject_id ++ video_suffix ++ "_" ++ common_timestamp ++ ".mp4").

(** [start_both_recordings], up to and including the two pre-initialize
    calls.  The code discards what the two calls return; the pair is handed
    back here only so that statements can refer to it. *)
Definition pre_initialize_both (cfg : config) (env : both_env)
    (subject_id destination : string) (audio_device_index
    video_device_index : option Z) : M (St := obj t) (bool * bool) :=
  let common_timestamp := common_now env in
  makedirs destination (makedirs_error env) ;;
  audio_suffix <- key "audio_filename_suffix" (audio_filename_suffix cfg) ;;
  video_suffix <- key "video_filename_suffix" (video_filename_suffix cfg) ;;
  let audio_filename :=
    audio_filename_for destination subject_id audio_suffix common_timestamp in
  let video_filename :=
    video_filename_for destination subject_id video_suffix common_timestamp in
  log INFO ("Using synchronized filenames with timestamp " ++ common_timestamp) ;;
  audio_armed <- on_audio (AudioRecorder.start_recording (audio_settings cfg)
                             (audio_arm env) subject_id destination
                             audio_device_index true (Some audio_filename)) ;;
  video_armed <- on_video (VideoRecorder.start_recording (video_settings cfg)
                             (video_arm env) subject_id destination
                             video_device_index true (Some video_filename)) ;;
  ret (audio_armed, video_armed).

(** [start_both_recordings]. *)
Definition start_both_recordings (cfg : config) (env : both_env)
    (subject_id destination : string) (audio_device_index
    video_device_index : option Z) : M (St := obj t) bool :=
  c <- attrs ;;
  if recording_audio c || recording_video c then
    log WARNING "Recording already in progress" ;; ret false
  else
    try_except
      (_ <- pre_initialize_both cfg env subject_id destination
              audio_device_index video_device_index ;;
       audio_success <- start_pre_initialized_audio (audio_begin env) subject_id ;;
       video_success <- start_pre_initialized_video (video_begin env) subject_id ;;
       if audio_success && video_success then
         log INFO ("Started synchronized audio and video recordings at "
                   ++ common_now env) ;;
         ret true
       else
         log ERROR "Failed to start synchronized recordings" ;;
         ret false)
      (fun e =>
         log ERROR ("Error in synchronized recording start: " ++ exn_msg e) ;;
         log ERROR (traceback e) ;;
         ret false).

(** [stop_both_recordings]. *)
Definition stop_both_recordings (aenv : AudioRecorder.stop_env)
    (venv : VideoRecorder.stop_env) : M (St := obj t) bool :=
  let success := true in
  c <- attrs ;;
  success <-
    (if recording_audio c then
       audio_success <- stop_audio_recording aenv ;;
       ret (if negb audio_success then false else success)
     else ret success) ;;
  c <- attrs ;;
  success <-
    (if recording_video c then
       video_success <- stop_video_recording venv ;;
       ret (if negb video_success then false else success)
     else ret success) ;;
  ret success.

End RecorderCore.

(** ** The session states of the design document *)

Module Session.

Inductive state : Type := Idle | Armed | Recording.

(** Armed: the stream is open and no recording is in progress. *)
Definition of_audio (a : AudioRecorder.t) : state :=
  if AudioRecorder.recording a then Recording
  else match AudioRecorder.audio_stream a with
       | Some st => if AudioRecorder.closed st then Idle else Armed
       | None => Idle
       end.

(** Armed: the camera is open, the file sink is allocated and no recording is
    in progress. *)
Definition of_video (v : VideoRecorder.t) : state :=
  if VideoRecorder.recording v then Recording
  else match VideoRecorder.video_writer v with
       | Some _ =>
           if VideoRecorder.capture_open (VideoRecorder.video_capture v)
           then Armed else Idle
       | None => Idle
       end.

End Session.

(** ** The stop calls of a run

    After a joint start the two sessions may be stopped one by one or
    together, in any order and any number of times. *)

Module Run.

Inductive stop_call : Type :=
| StopAudio (env : AudioRecorder.stop_env)
| StopVideo (env : VideoRecorder.stop_env)
| StopBoth (aenv : AudioRecorder.stop_env) (venv : VideoRecorder.stop_env).

Definition stop (c : stop_call) : M (St := obj RecorderCore.t) bool :=
  match c with
  | StopAudio env => RecorderCore.stop_audio_recording env
  | StopVideo env => RecorderCore.stop_video_recording env
  | StopBoth aenv venv => RecorderCore.stop_both_recordings aenv venv
  end.

(** The coordinator after a sequence of stop calls. *)
Fixpoint stops (calls : list stop_call) (o : obj RecorderCore.t)
    : obj RecorderCore.t :=
  match calls with
  | [] => o
  | c :: rest => stops rest (snd (stop c o))
  end.

End Run.

(** ** The marker payloads of the design document

    The four payload shapes as lists of fields, in the documented order; a
    payload is its fields joined by commas. *)

Module MarkerFormat.

Definition audio_start (subject_id filename coarse_timestamp channels
    sample_rate : string) (iso_timestamp : option string) : list string :=
  ["AUDIO_START"; subject_id; filename; coarse_timestamp; channels; sample_rate]
  ++ match iso_timestamp with
     | Some iso => [iso]
     | None => []
     end.

Definition audio_stop (filename coarse_timestamp : string) : list string :=
  ["AUDIO_STOP"; filename; coarse_timestamp].

Definition video_start (subject_id filename coarse_timestamp iso_timestamp
    fps : string) : list string :=
  ["VIDEO_START"; subject_id; filename; coarse_timestamp; iso_timestamp; fps].

Definition video_stop (filename coarse_timestamp : string) : list string :=
  ["VIDEO_STOP"; filename; coarse_timestamp].

Definition payload (fields : list string) : string := String.concat "," fields.

End MarkerFormat.

(** ** A concrete laboratory setup

    Subject [S1], destination [out], one microphone negotiated at 44100 Hz
    and one channel, a camera that reports 30 fps for a requested 24. *)

Module Lab.

Definition audio_settings : AudioRecorder.config :=
  AudioRecorder.Config (Some "Default") (Some [0; 1; 2; 3]) (Some true)
    None None None None (Some "_audio")
    (Some (AudioRecorder.Fallback (Some 1) (Some 44100)
             (Some (Py.Float (1 # 10) "0.1")) (Some "paInt16"))).

Definition video_settings : VideoRecorder.config :=
  VideoRecorder.Config (Some 640) (Some 480) (Some (Py.Int 24)) (Some "mp4v")
    (Some "_video") (Some false).

Definition config : RecorderCore.config :=
  RecorderCore.Config (Some "_audio") (Some "_video") audio_settings
    video_settings.

Definition microphone : AudioRecorder.device_info :=
  AudioRecorder.DeviceInfo "Default Mic" 0 1 (Py.Float 44100 "44100.0").

(** Some of the other attributes of the [pyaudio] module: callback return
    codes, the [PyAudio] class, the module's builtins. *)
Definition pyaudio_module : list (string * AudioRecorder.attribute) :=
  [("paContinue", AudioRecorder.Constant 0);
   ("paComplete", AudioRecorder.Constant 1);
   ("paAbort", AudioRecorder.Constant 2);
   ("PyAudio", AudioRecorder.Object "type");
   ("__builtins__", AudioRecorder.Unhashable "dict")].

(** Settings that name a sample format instead of taking the device's
    defaults. *)
Definition audio_settings_with (format_name : string) : AudioRecorder.config :=
  AudioRecorder.Config (Some "Default") (Some [0; 1; 2; 3]) (Some false)
    (Some 1) (Some 44100) None (Some format_name) (Some "_audio") None.

(** A device table with the microphone, and one without any input device. *)
Definition audio_ok : AudioRecorder.start_env :=
  AudioRecorder.StartEnv [microphone] pyaudio_module None None
    "20240101_120000" "20240101_120000".

Definition audio_missing : AudioRecorder.start_env :=
  AudioRecorder.StartEnv [] [] None None "20240101_120000" "20240101_120000".

Definition audio_begin : AudioRecorder.begin_env :=
  AudioRecorder.BeginEnv None "20240101_120001" "2024-01-01T12:00:01.123456".

(** The driver refuses to start the stream. *)
Definition audio_begin_refused : AudioRecorder.begin_env :=
  AudioRecorder.BeginEnv (Some (Exn "OSError" "Unanticipated host error"))
    "20240101_120001" "2024-01-01T12:00:01.123456".

Definition audio_stop : AudioRecorder.stop_env :=
  AudioRecorder.StopEnv None None None None "20240101_120500".

Definition camera_ok : VideoRecorder.start_env :=
  VideoRecorder.StartEnv None true (Py.Float 30 "30.0") None [false; true]
    "20240101_120000" "2024-01-01T12:00:00.250000"
    "2024-01-01T12:00:00.500000" "20240101_120000".

(** The camera cannot be opened. *)
Definition camera_closed : VideoRecorder.start_env :=
  VideoRecorder.StartEnv None false (Py.Float 0 "0.0") None []
    "20240101_120000" "2024-01-01T12:00:00.250000"
    "2024-01-01T12:00:00.500000" "20240101_120000".

Definition video_begin : VideoRecorder.begin_env :=
  VideoRecorder.BeginEnv "20240101_120001" "2024-01-01T12:00:01.123999".

Definition video_begin_again : VideoRecorder.begin_env :=
  VideoRecorder.BeginEnv "20240101_120002" "2024-01-01T12:00:02.000500".

Definition video_stop : VideoRecorder.stop_env :=
  VideoRecorder.StopEnv (Some (1 # 10)) None "20240101_120501".

(** The capture loop does not return within the timeout. *)
Definition video_stop_stuck : VideoRecorder.stop_env :=
  VideoRecorder.StopEnv None None "20240101_120501".

Definition both_ok : RecorderCore.both_env :=
  RecorderCore.BothEnv "20240101_120000" None audio_ok camera_ok audio_begin
    video_begin.

(** A joint start with a camera that cannot be opened. *)
Definition both_no_camera : RecorderCore.both_env :=
  RecorderCore.BothEnv "20240101_120000" None audio_ok camera_closed
    audio_begin video_begin.

(** The same a day later, after a first run. *)
Definition audio_begin_later : AudioRecorder.begin_env :=
  AudioRecorder.BeginEnv None "20240102_090001" "2024-01-02T09:00:01.100000".

Definition video_begin_later : VideoRecorder.begin_env :=
  VideoRecorder.BeginEnv "20240102_090001" "2024-01-02T09:00:01.100500".

Definition both_no_camera_later : RecorderCore.both_env :=
  RecorderCore.BothEnv "20240102_090000" None audio_ok camera_closed
    audio_begin_later video_begin_later.

(** A joint start with no matching microphone. *)
Definition both_no_microphone : RecorderCore.both_env :=
  RecorderCore.BothEnv "20240101_120000" None audio_missing camera_ok
    audio_begin video_begin.

Definition fresh_audio : obj AudioRecorder.t := Obj AudioRecorder.init [].
Definition fresh_video : obj VideoRecorder.t := Obj VideoRecorder.init [].
Definition fresh_core : obj RecorderCore.t := Obj RecorderCore.init [].

End Lab.

(** ** audio_recorder.py: device enumeration and call sequences *)

Module AudioDevices.

(** One dictionary of the list [get_available_devices] returns. *)
Record entry : Type := Entry {
  index : Z;
  name : string;
  channels : Z;
  sample_rate : Z;
  host_api : Z
}.

(** The loop of [get_available_devices], from device index [i] on. *)
Fixpoint listing (devs : list AudioRecorder.device_info) (i : Z) : list entry :=
  match devs with
  | [] => []
  | dev :: rest =>
      if 0 <? AudioRecorder.maxInputChannels dev then
        Entry i (AudioRecorder.name dev) (AudioRecorder.maxInputChannels dev)
          (Py.int_of (AudioRecorder.defaultSampleRate dev))
          (AudioRecorder.hostApi dev)
        :: listing rest (i + 1)
      else listing rest (i + 1)
  end.

(** [AudioRecorder.get_available_devices]: opens PortAudio, lists the input
    devices, terminates PortAudio. *)
Definition get_available_devices (devs : list AudioRecorder.device_info)
    : M (St := obj AudioRecorder.t) (list entry) :=
  let devices := listing devs 0 in
  emit EPaTerminate ;;
  ret devices.

(** The test of [find_device] on one device. *)
Definition matches (device_name : string) (host_api : list Z)
    (dev : AudioRecorder.device_info) : bool :=
  Py.contains device_name (AudioRecorder.name dev)
  && AudioRecorder.mem_Z (AudioRecorder.hostApi dev) host_api
  && (0 <? AudioRecorder.maxInputChannels dev).

End AudioDevices.

Module AudioCalls.

(** One call on an [AudioRecorder] from outside: a public method, or the
    stream callback invoked by the driver. *)
Inductive call : Type :=
| Start (cfg : AudioRecorder.config) (env : AudioRecorder.start_env)
    (subject_id destination : string) (device_index : option Z)
    (pre_initialize : bool) (filename : option string)
| Begin (env : AudioRecorder.begin_env) (subject_id : string)
| Stop (env : AudioRecorder.stop_env)
| Callback (in_data : string).

(** The recorder after one call (a raised exception is the caller's). *)
Definition after (c : call) (o : obj AudioRecorder.t) : obj AudioRecorder.t :=
  match c with
  | Start cfg env subject_id destination device_index pre_initialize filename =>
      snd (AudioRecorder.start_recording cfg env subject_id destination
             device_index pre_initialize filename o)
  | Begin env subject_id =>
      snd (AudioRecorder.start_pre_initialized env subject_id o)
  | Stop env => snd (AudioRecorder.stop_recording env o)
  | Callback in_data => snd (AudioRecorder.audio_callback in_data o)
  end.

Fixpoint run (calls : list call) (o : obj AudioRecorder.t) : obj AudioRecorder.t :=
  match calls with
  | [] => o
  | c :: rest => run rest (after c o)
  end.

(** The samples of the audio outlet are well ordered when every AUDIO_STOP
    directly follows an AUDIO_START for the same file. *)
Inductive well_ordered : list string -> Prop :=
| ordered_nil : well_ordered []
| ordered_start : forall samples subject_id filename timestamp channels
                         sample_rate iso_timestamp,
    well_ordered samples ->
    well_ordered
      (samples ++ [MarkerStreams.audio_start_marker subject_id filename
                     timestamp channels sample_rate iso_timestamp])
| ordered_stop : forall samples subject_id filename timestamp channels
                        sample_rate iso_timestamp stop_timestamp,
    well_ordered
      (samples ++ [MarkerStreams.audio_start_marker subject_id filename
                     timestamp channels sample_rate iso_timestamp]) ->
    well_ordered
      ((samples ++ [MarkerStreams.audio_start_marker subject_id filename
                      timestamp channels sample_rate iso_timestamp])
       ++ [MarkerStreams.audio_stop_marker filename stop_timestamp]).

End AudioCalls.

(** All samples pushed so far, on either outlet, oldest first. *)
Fixpoint all_pushed (tr : list event) : list (outlet * string) :=
  match tr with
  | [] => []
  | EPush o s :: rest => (o, s) :: all_pushed rest
  | _ :: rest => all_pushed rest
  end.

(** What holds of an audio recorder between two calls: its outlet is well
    ordered, and while it records the last sample pushed is the AUDIO_START
    for its current file. *)
Definition audio_invariant (o : obj AudioRecorder.t) : Prop :=
  AudioCalls.well_ordered (pushed AudioOutlet (trace o)) /\
  (AudioRecorder.recording (self o) = true ->
   exists samples subject_id timestamp channels sample_rate iso_timestamp,
     pushed AudioOutlet (trace o)
     = (samples
          ++ [MarkerStreams.audio_start_marker subject_id
                (AudioRecorder.audio_filename (self o)) timestamp channels
                sample_rate iso_timestamp])%list).

(** How often a stretch of the trace opens and releases the camera. *)
Fixpoint camera_opens (evs : list event) : nat :=
  match evs with
  | [] => O
  | ECameraOpen _ :: rest => S (camera_opens rest)
  | _ :: rest => camera_opens rest
  end.

Fixpoint camera_releases (evs : list event) : nat :=
  match evs with
  | [] => O
  | ECameraRelease :: rest => S (camera_releases rest)
  | _ :: rest => camera_releases rest
  end.

(** Whether a stop call returned [True]. *)
Definition succeeded (r : result bool) : bool :=
  match r with
  | Val true => true
  | _ => false
  end.

(** ** video_recorder.py: the capture loop

    [_recording_thread] runs on its own thread.  What it observes from
    outside is given as the list of its successive [read()] calls; the stop
    flags ([thread_active], [recording]) are seen cleared when that list is
    used up.  Frames are not modelled: a write is recorded with the number
    of the frame.  The statistics that the method logs after the loop are
    not part of this definition. *)

Module CaptureLoop.

(** One [self.video_capture.read()]: a frame, with the time the iteration
    takes from [frame_start] to [frame_end] in milliseconds, the seconds
    elapsed since [start_time] and the value of [self.show_preview] at that
    moment; no frame; or an exception. *)
Inductive read : Type :=
| Frame (process_ms elapsed_s : Q) (show_preview : bool)
| Miss
| Fault (e : exn).

Inductive message : Type :=
| Progress (frame_count : Z) (fps : Q)   (* "Video recording: ... frames, ... fps" *)
| Recovering                             (* "Failed to capture video frame, ..." *)
| RecoveryFailed                         (* "Failed to recover video recording ..." *)
| ThreadError (e : exn)                  (* "Error in video recording thread: ..." *)
| Traceback (e : exn).

(** The effects of the loop, in order. *)
Inductive event : Type :=
| Overlay (frame_count : Z) (recovered : bool)   (* cv2.putText *)
| Write (frame : Z)                              (* video_writer.write(frame) *)
| Preview                                        (* latest_preview_frame = ... *)
| Sleep (seconds : Q)                            (* time.sleep *)
| Log (l : level) (m : message).

Inductive exit : Type :=
| Stopped             (* the stop flags were seen cleared *)
| RecoveryExhausted   (* [recover_attempts >= max_attempts] *)
| Faulted.            (* the handler of the loop body *)

(** Where the loop stands between two reads: at the top of the outer loop,
    or inside the recovery loop with some attempts left. *)
Inductive mode : Type :=
| Normal
| Recovery (attempts_left : nat).

Definition max_attempts : nat := 30.

(** [max(0, frame_time_ms - process_time)], then [time.sleep] when it is
    positive. *)
Definition pace (frame_time_ms process_ms : Q) : list event :=
  let sleep_time :=
    if Qle_bool (frame_time_ms - process_ms) 0 then 0%Q
    else (frame_time_ms - process_ms)%Q in
  if Qle_bool sleep_time 0 then [] else [Sleep (sleep_time / 1000)].

(** The progress log, every 100 frames. *)
Definition progress (frame_count : Z) (elapsed_s : Q) : list event :=
  if frame_count mod 100 =? 0 then
    [Log INFO
       (Progress frame_count
          (if Qle_bool elapsed_s 0 then 0%Q
           else (inject_Z frame_count / elapsed_s)%Q))]
  else [].

(** The [while] loop of [_recording_thread]; returns [frame_count], why the
    loop ended, and its effects. *)
Fixpoint loop (show_timestamp : bool) (frame_time_ms : Q) (m : mode)
    (frame_count : Z) (reads : list read) : Z * exit * list event :=
  match m, reads with
  | Recovery O, _ => (frame_count, RecoveryExhausted, [Log ERROR RecoveryFailed])
  | _, [] => (frame_count, Stopped, [])
  | _, Fault e :: _ =>
      (frame_count, Faulted, [Log ERROR (ThreadError e); Log ERROR (Traceback e)])
  | Normal, Frame process_ms elapsed_s show_preview :: rest =>
      let '(n, why, evs) :=
        loop show_timestamp frame_time_ms Normal (frame_count + 1) rest in
      (n, why,
       ((if show_timestamp then [Overlay frame_count false] else [])
        ++ [Write frame_count]
        ++ (if show_preview then [Preview] else [])
        ++ progress (frame_count + 1) elapsed_s
        ++ pace frame_time_ms process_ms
        ++ evs)%list)
  | Normal, Miss :: rest =>
      let '(n, why, evs) :=
        loop show_timestamp frame_time_ms (Recovery max_attempts) frame_count
          rest in
      (n, why, Log WARNING Recovering :: Sleep (1 # 100) :: evs)
  | Recovery (S k), Frame _ _ _ :: rest =>
      let '(n, why, evs) :=
        loop show_timestamp frame_time_ms Normal (frame_count + 1) rest in
      (n, why,
       ((if show_timestamp then [Overlay frame_count true] else [])
        ++ [Write frame_count] ++ evs)%list)
  | Recovery (S k), Miss :: rest =>
      let '(n, why, evs) :=
        loop show_timestamp frame_time_ms (Recovery k) frame_count rest in
      (n, why, Sleep (1 # 100) :: evs)
  end.

(** [_recording_thread] up to the end of its loop: [1000.0 / target_fps]
    raises for a missing or zero frame rate before the first read. *)
Definition recording_thread (show_timestamp : bool) (actual_fps : option Py.num)
    (reads : list read) : result (Z * exit * list event) :=
  match actual_fps with
  | None => Raised (Exn "TypeError" "unsupported operand type(s) for /")
  | Some target_fps =>
      if Qeq_bool (Py.num_val target_fps) 0
      then Raised (Exn "ZeroDivisionError" "float division by zero")
      else Val (loop show_timestamp (1000 / Py.num_val target_fps) Normal 0
                  reads)
  end.





(** The durations handed to [time.sleep], in order. *)
Fixpoint slept (evs : list event) : list Q :=
  match evs with
  | [] => []
  | Sleep s :: rest => s :: slept rest
  | _ :: rest => slept rest
  end.



(** What the loop may hand to [time.sleep]: the recovery pause, or the rest
    of the frame interval after a frame that took [p] milliseconds. *)
Definition nap (ft : Q) (reads : list read) (s : Q) : Prop :=
  (0 < s)%Q /\
  (s = (1 # 100)%Q \/
   exists p e sp, In (Frame p e sp) reads /\ s = ((ft - p) / 1000)%Q).

End CaptureLoop.

(** * Properties *)

(** Unfolds the monad and the object helpers in a goal. *)
Ltac run :=
  cbv [bind ret raise try_except get modify may_raise when attrs set_attrs emit
       log markers makedirs];
  cbn [fst snd self trace negb andb orb
       AudioRecorder.recording AudioRecorder.audio_stream AudioRecorder.audio_p
       AudioRecorder.audio_frames AudioRecorder.audio_filename
       AudioRecorder.actual_channels AudioRecorder.actual_sample_rate
       AudioRecorder.actual_sample_width
       AudioRecorder.set_recording AudioRecorder.set_audio_stream
       AudioRecorder.set_audio_p AudioRecorder.set_audio_frames
       AudioRecorder.set_audio_filename AudioRecorder.set_actual_channels
       AudioRecorder.set_actual_sample_rate
       AudioRecorder.set_actual_sample_width
       VideoRecorder.recording VideoRecorder.thread_active
       VideoRecorder.video_capture VideoRecorder.video_writer
       VideoRecorder.video_filename VideoRecorder.actual_fps
       VideoRecorder.show_preview VideoRecorder.preview_thread
       VideoRecorder.preview_active VideoRecorder.video_thread
       VideoRecorder.video_start_time VideoRecorder.exact_video_start
       VideoRecorder.preview_device_index
       VideoRecorder.set_recording VideoRecorder.set_thread_active
       VideoRecorder.set_video_capture VideoRecorder.set_video_writer
       VideoRecorder.set_video_filename VideoRecorder.set_actual_fps
       VideoRecorder.set_show_preview VideoRecorder.set_preview_thread
       VideoRecorder.set_preview_active VideoRecorder.set_video_thread
       VideoRecorder.set_video_start_time VideoRecorder.set_exact_video_start
       VideoRecorder.capture_open VideoRecorder.isOpened
       AudioRecorder.closed AudioRecorder.active
       RecorderCore.audio_recorder RecorderCore.video_recorder].

(** ** AudioRecorder *)

(** C10: a [start_recording] call on an audio session that is already
    recording returns [False], whatever [pre_initialize] is, and changes no
    attribute of the session (stream, buffered frames, filename, negotiated
    channels, rate and width); it only logs a warning. *)
Theorem audio_start_while_recording_is_rejected :
  forall cfg env subject_id destination device_index pre_initialize filename
         (o : obj AudioRecorder.t),
    AudioRecorder.recording (self o) = true ->
    AudioRecorder.start_recording cfg env subject_id destination device_index
      pre_initialize filename o
    = (Val false,
       Obj (self o)
         (trace o ++ [ELog WARNING "Audio recording already in progress"])).
Proof.
  intros cfg env subject_id destination device_index pre_initialize filename o H.
  unfold AudioRecorder.start_recording. run.
  rewrite H. reflexivity.
Qed.

Lemma audio_start_while_recording_is_rejected_witness :
  let o := snd (AudioRecorder.start_recording Lab.audio_settings Lab.audio_ok
                  "S1" "out" None false None Lab.fresh_audio) in
  AudioRecorder.recording (self o) = true /\
  AudioRecorder.start_recording Lab.audio_settings Lab.audio_ok "S2" "elsewhere"
    (Some 0) true (Some "other.wav") o
  = (Val false,
     Obj (self o)
       (trace o ++ [ELog WARNING "Audio recording already in progress"])).
Proof.
  split.
  - reflexivity.
  - apply (audio_start_while_recording_is_rejected Lab.audio_settings
             Lab.audio_ok "S2" "elsewhere" (Some 0) true (Some "other.wav")).
    reflexivity.
Defined.

(** Case analysis on an innermost test that blocks evaluation of the goal. *)
Ltac inner_case :=
  match goal with
  | |- context [match ?x with _ => _ end] =>
      lazymatch x with
      | context [match _ with _ => _ end] => fail
      | _ => destruct x eqn:?
      end
  end.

(** C9: the sample width recorded by a successful audio arm is a fixed
    function of the negotiated sample format, the value that the configured
    format name resolves to in the [pyaudio] module ([paInt16] with device
    defaults): 2 bytes for 16-bit int, 3 for 24-bit int, 4 for 32-bit int
    and for 32-bit float, and 2 for every other format. *)
Theorem sample_width_follows_format :
  forall cfg env subject_id destination device_index pre_initialize filename
         (o o' : obj AudioRecorder.t),
    AudioRecorder.start_recording cfg env subject_id destination device_index
      pre_initialize filename o = (Val true, o') ->
    exists format_value,
      AudioRecorder.negotiated_format cfg env = Some format_value /\
      (format_value = AudioRecorder.Constant AudioRecorder.paInt16 ->
       AudioRecorder.actual_sample_width (self o') = Some 2) /\
      (format_value = AudioRecorder.Constant AudioRecorder.paInt24 ->
       AudioRecorder.actual_sample_width (self o') = Some 3) /\
      (format_value = AudioRecorder.Constant AudioRecorder.paInt32 ->
       AudioRecorder.actual_sample_width (self o') = Some 4) /\
      (format_value = AudioRecorder.Constant AudioRecorder.paFloat32 ->
       AudioRecorder.actual_sample_width (self o') = Some 4) /\
      (format_value <> AudioRecorder.Constant AudioRecorder.paInt16 ->
       format_value <> AudioRecorder.Constant AudioRecorder.paInt24 ->
       format_value <> AudioRecorder.Constant AudioRecorder.paInt32 ->
       format_value <> AudioRecorder.Constant AudioRecorder.paFloat32 ->
       AudioRecorder.actual_sample_width (self o') = Some 2).
Proof.
  intros cfg env subject_id destination device_index pre_initialize filename
         o o' H.
  unfold AudioRecorder.start_recording, AudioRecorder.find_device,
    AudioRecorder.get_device_info_by_index, AudioRecorder.getattr_pyaudio,
    AudioRecorder.format_map_get, AudioRecorder.terminate_if_any in H.
  unfold AudioRecorder.negotiated_format.
  revert H. run.
  repeat (inner_case; run); intros H; inversion H; subst; clear H;
    eexists; (split; [reflexivity |]); run;
    repeat match goal with |- _ /\ _ => split end; intros;
    first
      [ reflexivity
      | discriminate
      | match goal with
        | H : AudioRecorder.Constant _ = AudioRecorder.Constant _ |- _ =>
            inversion H; subst; reflexivity
        end
      | repeat match goal with
               | |- context [?a =? ?b] => destruct (Z.eqb_spec a b)
               end;
        first [reflexivity | congruence] ].
Qed.

Lemma sample_width_follows_format_witness :
  let armed :=
    AudioRecorder.start_recording (Lab.audio_settings_with "paInt24")
      Lab.audio_ok "S1" "out" None true
      (Some "out/S1_audio_20240101_120000.wav") Lab.fresh_audio in
  let armed_float :=
    AudioRecorder.start_recording (Lab.audio_settings_with "paComplete")
      Lab.audio_ok "S1" "out" None true
      (Some "out/S1_audio_20240101_120000.wav") Lab.fresh_audio in
  armed = (Val true, snd armed) /\
  AudioRecorder.actual_sample_width (self (snd armed)) = Some 3 /\
  armed_float = (Val true, snd armed_float) /\
  AudioRecorder.actual_sample_width (self (snd armed_float)) = Some 4.
Proof.
  intros armed armed_float.
  assert (H : armed = (Val true, snd armed)) by (vm_compute; reflexivity).
  assert (H' : armed_float = (Val true, snd armed_float))
    by (vm_compute; reflexivity).
  split; [exact H |]. unfold armed in H.
  destruct (sample_width_follows_format _ _ _ _ _ _ _ _ _ H)
    as [f [Hf [_ [H24 _]]]].
  split; [apply H24; vm_compute in Hf; inversion Hf; reflexivity |].
  split; [exact H' |]. unfold armed_float in H'.
  destruct (sample_width_follows_format _ _ _ _ _ _ _ _ _ H')
    as [f' [Hf' [_ [_ [_ [Hfloat _]]]]]].
  apply Hfloat; vm_compute in Hf'; inversion Hf'; reflexivity.
Defined.

(** Arming (a [start_recording] with [pre_initialize=True]) never changes the
    [recording] flag of an audio session, whatever it returns. *)
Lemma audio_arm_keeps_recording :
  forall cfg env subject_id destination device_index filename
         (o : obj AudioRecorder.t),
    AudioRecorder.recording
      (self (snd (AudioRecorder.start_recording cfg env subject_id destination
                    device_index true filename o)))
    = AudioRecorder.recording (self o).
Proof.
  intros.
  unfold AudioRecorder.start_recording, AudioRecorder.find_device,
    AudioRecorder.get_device_info_by_index, AudioRecorder.getattr_pyaudio,
    AudioRecorder.format_map_get,
    AudioRecorder.terminate_if_any.
  run.
  destruct (AudioRecorder.recording (self o)) eqn:Hrec; run;
    [exact Hrec |].
  repeat (inner_case; run); exact Hrec.
Qed.

(** [stop_recording] on an audio session that is not recording. *)
Lemma audio_stop_not_recording :
  forall env (o : obj AudioRecorder.t),
    AudioRecorder.recording (self o) = false ->
    AudioRecorder.stop_recording env o
    = (Val false,
       Obj (self o) (trace o ++ [ELog WARNING "No audio recording in progress"])).
Proof.
  intros env o H. unfold AudioRecorder.stop_recording. run.
  rewrite H. reflexivity.
Qed.

(** A successful audio arm leaves an open, stopped stream, the requested (or
    generated) filename, and a session that is not recording. *)
Lemma audio_arm_success :
  forall cfg env subject_id destination device_index filename
         (o o1 : obj AudioRecorder.t),
    AudioRecorder.start_recording cfg env subject_id destination device_index
      true filename o = (Val true, o1) ->
    AudioRecorder.recording (self o1) = false /\
    AudioRecorder.audio_stream (self o1)
    = Some (AudioRecorder.Stream false false) /\
    AudioRecorder.audio_filename (self o1)
    = (if Py.truthy filename then filename
       else Some (Py.path_join destination
                    (subject_id
                       ++ AudioRecorder.default
                            (AudioRecorder.filename_suffix cfg) "_audio"
                       ++ "_" ++ AudioRecorder.now_filename env ++ ".wav"))).
Proof.
  intros cfg env subject_id destination device_index filename o o1.
  unfold AudioRecorder.start_recording, AudioRecorder.find_device,
    AudioRecorder.get_device_info_by_index, AudioRecorder.getattr_pyaudio,
    AudioRecorder.format_map_get,
    AudioRecorder.terminate_if_any.
  run.
  destruct (AudioRecorder.recording (self o)) eqn:Hrec; run;
    [discriminate |].
  repeat (inner_case; run); intros H; inversion H; subst; clear H; run;
    auto.
Qed.

(** ** VideoRecorder *)

Lemma warm_up_run :
  forall n reads pre_initialize (o : obj VideoRecorder.t),
    VideoRecorder.warm_up n reads pre_initialize o
    = (Val (VideoRecorder.warm_up_success n reads),
       Obj (self o)
         (trace o ++ VideoRecorder.warm_up_events n reads pre_initialize)).
Proof.
  induction n as [| n IH]; intros reads pre_initialize o.
  - simpl. run. rewrite app_nil_r. destruct o; reflexivity.
  - destruct reads as [| [|] rest]; simpl; run.
    + rewrite IH. cbn [self trace]. rewrite <- app_assoc. reflexivity.
    + destruct pre_initialize; run.
      * rewrite app_nil_r. destruct o; reflexivity.
      * reflexivity.
    + rewrite IH. cbn [self trace]. rewrite <- app_assoc. reflexivity.
Qed.

Ltac video_unfold :=
  unfold VideoRecorder.start_recording, VideoRecorder.start_pre_initialized,
    VideoRecorder.stop_recording, VideoRecorder.release_if_any,
    VideoRecorder.key, VideoRecorder.spawn, VideoRecorder.join.

(** Arming never changes the [recording] flag of a video session. *)
Lemma video_arm_keeps_recording :
  forall cfg env subject_id destination device_index filename
         (o : obj VideoRecorder.t),
    VideoRecorder.recording
      (self (snd (VideoRecorder.start_recording cfg env subject_id destination
                    device_index true filename o)))
    = VideoRecorder.recording (self o).
Proof.
  intros. video_unfold. run.
  rewrite andb_false_r.
  repeat (first [rewrite warm_up_run | inner_case]; run); reflexivity.
Qed.

(** A successful video arm leaves an open camera, an allocated file sink and
    the requested (or generated) filename. *)
Lemma video_arm_success :
  forall cfg env subject_id destination device_index filename
         (o o1 : obj VideoRecorder.t),
    VideoRecorder.start_recording cfg env subject_id destination device_index
      true filename o = (Val true, o1) ->
    VideoRecorder.recording (self o1) = VideoRecorder.recording (self o) /\
    VideoRecorder.capture_open (VideoRecorder.video_capture (self o1)) = true /\
    VideoRecorder.video_writer (self o1)
    = Some (VideoRecorder.Writer (VideoRecorder.video_filename (self o1))) /\
    VideoRecorder.video_filename (self o1)
    = (if Py.truthy filename then filename
       else Some (Py.path_join destination
                    (subject_id
                       ++ AudioRecorder.default
                            (VideoRecorder.filename_suffix cfg) "_video"
                       ++ "_" ++ VideoRecorder.now_filename env ++ ".mp4"))).
Proof.
  intros cfg env subject_id destination device_index filename o o1.
  video_unfold. run.
  rewrite andb_false_r.
  repeat (first [rewrite warm_up_run | inner_case]; run);
    intros H; inversion H; subst; clear H; run;
    repeat split; auto; apply negb_false_iff; assumption.
Qed.

(** [stop_recording] on a video session that is not recording. *)
Lemma video_stop_not_recording :
  forall env (o : obj VideoRecorder.t),
    VideoRecorder.recording (self o) = false ->
    VideoRecorder.stop_recording env o
    = (Val false,
       Obj (self o) (trace o ++ [ELog WARNING "No video recording in progress"])).
Proof.
  intros env o H. unfold VideoRecorder.stop_recording. run.
  rewrite H. reflexivity.
Qed.

(** C5: finalizing a session that has been armed but never set streaming
    fails as "not recording" (the call returns [False], logs the warning,
    publishes nothing and changes nothing), for every device selector and
    for both modalities. *)
Theorem finalize_of_armed_session_fails :
  (forall cfg env subject_id destination device_index filename senv
          (o o1 : obj AudioRecorder.t),
      AudioRecorder.recording (self o) = false ->
      AudioRecorder.start_recording cfg env subject_id destination
        device_index true filename o = (Val true, o1) ->
      Session.of_audio (self o1) = Session.Armed /\
      AudioRecorder.stop_recording senv o1
      = (Val false,
         Obj (self o1)
           (trace o1 ++ [ELog WARNING "No audio recording in progress"])))
  /\
  (forall cfg env subject_id destination device_index filename senv
          (o o1 : obj VideoRecorder.t),
      VideoRecorder.recording (self o) = false ->
      VideoRecorder.start_recording cfg env subject_id destination
        device_index true filename o = (Val true, o1) ->
      Session.of_video (self o1) = Session.Armed /\
      VideoRecorder.stop_recording senv o1
      = (Val false,
         Obj (self o1)
           (trace o1 ++ [ELog WARNING "No video recording in progress"]))).
Proof.
  split.
  - intros cfg env subject_id destination device_index filename senv o o1 _ H.
    destruct (audio_arm_success _ _ _ _ _ _ _ _ H) as [Hrec [Hst _]].
    split.
    + unfold Session.of_audio. rewrite Hrec, Hst. reflexivity.
    + apply audio_stop_not_recording. exact Hrec.
  - intros cfg env subject_id destination device_index filename senv o o1 Hidle H.
    destruct (video_arm_success _ _ _ _ _ _ _ _ H) as [Hrec [Hcap [Hw _]]].
    rewrite Hidle in Hrec.
    split.
    + unfold Session.of_video. rewrite Hrec, Hw, Hcap. reflexivity.
    + apply video_stop_not_recording. exact Hrec.
Qed.

Lemma finalize_of_armed_session_fails_witness :
  let a1 := snd (AudioRecorder.start_recording Lab.audio_settings Lab.audio_ok
                   "S1" "out" None true None Lab.fresh_audio) in
  let v1 := snd (VideoRecorder.start_recording Lab.video_settings Lab.camera_ok
                   "S1" "out" (Some 0) true None Lab.fresh_video) in
  (Session.of_audio (self a1) = Session.Armed /\
   fst (AudioRecorder.stop_recording Lab.audio_stop a1) = Val false /\
   pushed AudioOutlet (trace (snd (AudioRecorder.stop_recording Lab.audio_stop a1)))
   = []) /\
  (Session.of_video (self v1) = Session.Armed /\
   fst (VideoRecorder.stop_recording Lab.video_stop v1) = Val false /\
   pushed VideoOutlet (trace (snd (VideoRecorder.stop_recording Lab.video_stop v1)))
   = []).
Proof.
  intros a1 v1.
  destruct finalize_of_armed_session_fails as [Ha Hv].
  split.
  - destruct (Ha Lab.audio_settings Lab.audio_ok "S1" "out" None None
                Lab.audio_stop Lab.fresh_audio a1 eq_refl)
      as [Harmed Hstop]; [vm_compute; reflexivity |].
    rewrite Hstop. split; [exact Harmed | split; reflexivity].
  - destruct (Hv Lab.video_settings Lab.camera_ok "S1" "out" (Some 0) None
                Lab.video_stop Lab.fresh_video v1 eq_refl)
      as [Harmed Hstop]; [vm_compute; reflexivity |].
    rewrite Hstop. split; [exact Harmed | split; reflexivity].
Defined.

(** Once a video session records, [stop_recording] fails only when releasing
    the encoder raises; the capture loop's exit time is not consulted. *)
Lemma video_stop_succeeds_iff :
  forall env (o : obj VideoRecorder.t),
    VideoRecorder.recording (self o) = true ->
    (fst (VideoRecorder.stop_recording env o) = Val true <->
     (VideoRecorder.video_writer (self o) = None \/
      VideoRecorder.release_error env = None)).
Proof.
  intros env o Hrec. video_unfold. run. rewrite Hrec. run.
  repeat (inner_case; run); split; intros H;
    try discriminate; try reflexivity; auto;
    destruct H; congruence.
Qed.

Lemma positive_exit_time :
  forall d : Q, Qle_bool d 0 = false -> (0 <= d)%Q.
Proof.
  intros d Hd0. apply Qlt_le_weak, Qnot_le_lt. intros Hle.
  apply Qle_bool_iff in Hle. congruence.
Qed.

(** The state and the effects of a successful video [stop_recording]. *)
Lemma video_stop_success_shape :
  forall env (o o' : obj VideoRecorder.t),
    VideoRecorder.recording (self o) = true ->
    VideoRecorder.stop_recording env o = (Val true, o') ->
    VideoRecorder.thread_active (self o') = false /\
    VideoRecorder.recording (self o') = false /\
    Session.of_video (self o') = Session.Idle /\
    VideoRecorder.video_writer (self o') = None /\
    (VideoRecorder.show_preview (self o) = false ->
     VideoRecorder.video_capture (self o') = None) /\
    (VideoRecorder.show_preview (self o) = true ->
     VideoRecorder.video_capture (self o')
     = VideoRecorder.video_capture (self o)) /\
    (exists waits,
        Forall VideoRecorder.bounded_wait waits /\
        trace o'
        = (trace o ++ waits ++ VideoRecorder.releases (self o)
             ++ [EPush VideoOutlet
                   (MarkerStreams.video_stop_marker
                      (VideoRecorder.video_filename (self o))
                      (VideoRecorder.stop_now env));
                 ELog INFO
                   ("Stopped video recording: "
                    ++ Py.str_opt (VideoRecorder.video_filename (self o)))])%list
        /\
        match VideoRecorder.video_thread (self o) with
        | None => waits = []
        | Some tid =>
            exists waited,
              (0 <= waited)%Q /\
              (waited <= VideoRecorder.stop_timeout)%Q /\
              ((exists d,
                   VideoRecorder.loop_exit env = Some d /\
                   (d <= VideoRecorder.stop_timeout)%Q /\
                   waited = (if Qle_bool d 0 then 0%Q else d) /\
                   waits
                   = [ELog INFO "Waiting for video thread to complete...";
                      EThreadJoin tid VideoRecorder.stop_timeout waited])
               \/
               ((forall d,
                    VideoRecorder.loop_exit env = Some d ->
                    (VideoRecorder.stop_timeout < d)%Q) /\
                waited = VideoRecorder.stop_timeout /\
                waits
                = [ELog INFO "Waiting for video thread to complete...";
                   EThreadJoin tid VideoRecorder.stop_timeout waited;
                   ELog WARNING
                     ("Video thread did not terminate gracefully, "
                      ++ "forcing resources to close")]))
        end).
Proof.
  intros env o o' Hrec Hstop.
  assert (H55 : (0 <= VideoRecorder.stop_timeout)%Q /\
                (VideoRecorder.stop_timeout <= VideoRecorder.stop_timeout)%Q)
    by (split; [vm_compute; discriminate | apply Qle_refl]).
  revert Hstop. video_unfold. run. rewrite Hrec. run.
  repeat (inner_case; run);
    intros H; inversion H; subst; clear H;
    unfold VideoRecorder.releases, Session.of_video,
      MarkerStreams.send_video_stop_marker;
    run;
    repeat match goal with
           | |- _ /\ _ => split
           | H : ?x = _ |- context [?x] => rewrite H
           end;
    try reflexivity; try discriminate;
    try (intros; congruence);
    repeat match goal with
           | H : negb _ = true |- _ => apply negb_true_iff in H
           | H : negb _ = false |- _ => apply negb_false_iff in H
           end;
    try (intros; congruence);
    repeat match goal with
           | H : ?x = _ |- context [?x] => rewrite H
           end;
    try reflexivity.
  all: repeat rewrite <- app_assoc; cbn [app].
  all: match goal with
       | |- context [EThreadJoin ?t ?a ?b :: ELog WARNING ?m :: _] =>
           exists [ELog INFO "Waiting for video thread to complete...";
                   EThreadJoin t a b; ELog WARNING m]
       | |- context [EThreadJoin ?t ?a ?b] =>
           exists [ELog INFO "Waiting for video thread to complete...";
                   EThreadJoin t a b]
       | |- _ => exists []
       end.
  all: split;
    [ repeat (apply Forall_cons || apply Forall_nil);
      cbn [VideoRecorder.bounded_wait]; try exact I;
      (split; [reflexivity | split]);
      first [ apply Qle_refl
            | exact (proj1 H55)
            | apply Qle_bool_iff; assumption
            | apply positive_exit_time; assumption ]
    | split; [reflexivity |] ].
  all: try reflexivity.
  all: match goal with
       | |- exists waited, _ /\ _ /\ (_ \/ (_ /\ _ /\ ?waits = _)) =>
           match waits with
           | context [EThreadJoin _ _ ?w] => exists w
           end
       end.
  all: split;
    [ first [ apply Qle_refl
            | exact (proj1 H55)
            | apply positive_exit_time; assumption ] |].
  all: split;
    [ first [ apply Qle_refl
            | exact (proj1 H55)
            | apply Qle_bool_iff; assumption ] |].
  all: first
    [ left; eexists; split; [reflexivity |];
      split; [apply Qle_bool_iff; assumption |];
      split; [| reflexivity];
      match goal with H : Qle_bool _ 0 = _ |- _ => rewrite H end; reflexivity
    | right; split; [| split; reflexivity];
      intros d Hd; try discriminate; inversion Hd; subst;
      apply Qnot_le_lt; intros Hle; apply Qle_bool_iff in Hle; congruence ].
Qed.

(** C4: a successful [stop_recording] of a recording video session clears the
    two flags the capture loop polls, joins the loop's thread with the
    5-second timeout and therefore waits no longer than that, then releases
    the encoder and (unless the preview is shown) the camera, pushes the
    VIDEO_STOP marker for the session's file and leaves the session idle.
    Whether the loop returned in time plays no part in the result: the same
    call succeeds for every exit time of the loop, including none. *)
Theorem video_finalize_releases_within_timeout :
  forall env (o o' : obj VideoRecorder.t),
    VideoRecorder.recording (self o) = true ->
    VideoRecorder.stop_recording env o = (Val true, o') ->
    (VideoRecorder.thread_active (self o') = false /\
     VideoRecorder.recording (self o') = false /\
     Session.of_video (self o') = Session.Idle /\
     VideoRecorder.video_writer (self o') = None /\
     (VideoRecorder.show_preview (self o) = false ->
      VideoRecorder.video_capture (self o') = None) /\
     (VideoRecorder.show_preview (self o) = true ->
      VideoRecorder.video_capture (self o')
      = VideoRecorder.video_capture (self o)) /\
     (exists waits,
         Forall VideoRecorder.bounded_wait waits /\
         trace o'
         = (trace o ++ waits ++ VideoRecorder.releases (self o)
              ++ [EPush VideoOutlet
                    (MarkerStreams.video_stop_marker
                       (VideoRecorder.video_filename (self o))
                       (VideoRecorder.stop_now env));
                  ELog INFO
                    ("Stopped video recording: "
                     ++ Py.str_opt (VideoRecorder.video_filename (self o)))])%list
         /\
         match VideoRecorder.video_thread (self o) with
         | None => waits = []
         | Some tid =>
             exists waited,
               (0 <= waited)%Q /\
               (waited <= VideoRecorder.stop_timeout)%Q /\
               ((exists d,
                    VideoRecorder.loop_exit env = Some d /\
                    (d <= VideoRecorder.stop_timeout)%Q /\
                    waited = (if Qle_bool d 0 then 0%Q else d) /\
                    waits
                    = [ELog INFO "Waiting for video thread to complete...";
                       EThreadJoin tid VideoRecorder.stop_timeout waited])
                \/
                ((forall d,
                     VideoRecorder.loop_exit env = Some d ->
                     (VideoRecorder.stop_timeout < d)%Q) /\
                 waited = VideoRecorder.stop_timeout /\
                 waits
                 = [ELog INFO "Waiting for video thread to complete...";
                    EThreadJoin tid VideoRecorder.stop_timeout waited;
                    ELog WARNING
                      ("Video thread did not terminate gracefully, "
                       ++ "forcing resources to close")]))
         end))
    /\
    (VideoRecorder.stop_timeout == 5)%Q /\
    (forall exit_after,
        fst (VideoRecorder.stop_recording
               (VideoRecorder.StopEnv exit_after
                  (VideoRecorder.release_error env)
                  (VideoRecorder.stop_now env)) o)
        = Val true).
Proof.
  intros env o o' Hrec Hstop.
  split; [exact (video_stop_success_shape env o o' Hrec Hstop) |].
  split; [reflexivity |].
  intros exit_after.
  apply (video_stop_succeeds_iff _ o Hrec). cbn [VideoRecorder.release_error].
  apply (video_stop_succeeds_iff env o Hrec). rewrite Hstop. reflexivity.
Qed.

Lemma video_finalize_releases_within_timeout_witness :
  let started :=
    snd (VideoRecorder.start_pre_initialized Lab.video_begin "S1"
           (snd (VideoRecorder.start_recording Lab.video_settings Lab.camera_ok
                   "S1" "out" (Some 0) true None Lab.fresh_video))) in
  let stopped := VideoRecorder.stop_recording Lab.video_stop_stuck started in
  VideoRecorder.recording (self started) = true /\
  fst stopped = Val true /\
  Session.of_video (self (snd stopped)) = Session.Idle /\
  VideoRecorder.video_writer (self (snd stopped)) = None /\
  VideoRecorder.video_capture (self (snd stopped)) = None /\
  exists waited,
    (waited <= 5)%Q /\
    In (EThreadJoin 0 VideoRecorder.stop_timeout waited) (trace (snd stopped)).
Proof.
  intros started stopped.
  assert (Hrec : VideoRecorder.recording (self started) = true)
    by (vm_compute; reflexivity).
  assert (Hstop : VideoRecorder.stop_recording Lab.video_stop_stuck started
                  = (Val true, snd stopped)) by (vm_compute; reflexivity).
  assert (Hthread : VideoRecorder.video_thread (self started) = Some O)
    by (vm_compute; reflexivity).
  destruct (video_finalize_releases_within_timeout Lab.video_stop_stuck started
              (snd stopped) Hrec Hstop)
    as [[_ [_ [Hidle [Hw [Hc [_ [waits [_ [Htrace Hwait]]]]]]]]] _].
  split; [exact Hrec |].
  split; [vm_compute; reflexivity |].
  split; [exact Hidle |].
  split; [exact Hw |].
  split; [apply Hc; vm_compute; reflexivity |].
  rewrite Hthread in Hwait.
  destruct Hwait as [waited [_ [Hle Hcases]]].
  exists waited. split; [exact Hle |].
  rewrite Htrace. apply in_or_app. right. apply in_or_app. left.
  destruct Hcases as [[d [_ [_ [_ ->]]]] | [_ [_ ->]]];
    right; left; reflexivity.
Defined.

(** ** MarkerStreams *)

(** Splitting at a separator a field that lacks it, followed by the
    separator and more text. *)
Lemma split_field_then_rest :
  forall c x rest,
    Py.lacks c x = true ->
    Py.split c (x ++ String c rest) = x :: Py.split c rest.
Proof.
  intros c x rest. induction x as [| a x IH]; intros H.
  - simpl. rewrite Ascii.eqb_refl. reflexivity.
  - simpl in H. apply andb_true_iff in H. destruct H as [Ha Hx].
    apply negb_true_iff in Ha.
    simpl. rewrite Ha, (IH Hx). reflexivity.
Qed.

Lemma split_single_field :
  forall c x, Py.lacks c x = true -> Py.split c x = [x].
Proof.
  intros c x. induction x as [| a x IH]; intros H.
  - reflexivity.
  - simpl in H. apply andb_true_iff in H. destruct H as [Ha Hx].
    apply negb_true_iff in Ha.
    simpl. rewrite Ha, (IH Hx). reflexivity.
Qed.

(** Joining comma-free fields with commas and splitting at commas gives the
    fields back, in order. *)
Lemma split_concat_fields :
  forall fields,
    fields <> [] ->
    forallb (Py.lacks ",") fields = true ->
    Py.split "," (String.concat "," fields) = fields.
Proof.
  induction fields as [| x rest IH]; intros Hne H.
  - congruence.
  - simpl in H. apply andb_true_iff in H. destruct H as [Hx Hrest].
    destruct rest as [| y rest'].
    + simpl. apply split_single_field. exact Hx.
    + change (String.concat "," (x :: y :: rest'))
        with (x ++ String "," (String.concat "," (y :: rest'))).
      rewrite split_field_then_rest by exact Hx.
      rewrite IH; [reflexivity | discriminate | exact Hrest].
Qed.

(** C8: each of the four senders pushes, on its own outlet, the documented
    fields in the documented order joined by commas: AUDIO_START with subject
    id, filename, coarse timestamp, channels, sample rate and, when one is
    given, a trailing ISO timestamp; AUDIO_STOP with filename and coarse
    timestamp; VIDEO_START with subject id, filename, coarse timestamp, ISO
    timestamp and fps; VIDEO_STOP with filename and coarse timestamp.  When no
    field contains a comma, splitting the payload at commas returns exactly
    these fields. *)
Theorem marker_payload_field_order :
  forall subject_id filename timestamp channels sample_rate iso_timestamp
         video_iso fps trace,
    let audio_start :=
      MarkerFormat.audio_start subject_id (Py.str_opt filename) timestamp
        (Py.str_int_opt channels) (Py.str_int_opt sample_rate)
        (if Py.truthy iso_timestamp then iso_timestamp else None) in
    let audio_stop := MarkerFormat.audio_stop (Py.str_opt filename) timestamp in
    let video_start :=
      MarkerFormat.video_start subject_id (Py.str_opt filename) timestamp
        video_iso (Py.str_num_opt fps) in
    let video_stop := MarkerFormat.video_stop (Py.str_opt filename) timestamp in
    MarkerStreams.send_audio_start_marker subject_id filename timestamp
      channels sample_rate iso_timestamp trace
    = (trace ++ [EPush AudioOutlet (MarkerFormat.payload audio_start)])%list /\
    MarkerStreams.send_audio_stop_marker filename timestamp trace
    = (trace ++ [EPush AudioOutlet (MarkerFormat.payload audio_stop)])%list /\
    MarkerStreams.send_video_start_marker subject_id filename timestamp
      video_iso fps trace
    = (trace ++ [EPush VideoOutlet (MarkerFormat.payload video_start)])%list /\
    MarkerStreams.send_video_stop_marker filename timestamp trace
    = (trace ++ [EPush VideoOutlet (MarkerFormat.payload video_stop)])%list /\
    (forall fields,
        In fields [audio_start; audio_stop; video_start; video_stop] ->
        forallb (Py.lacks ",") fields = true ->
        Py.split "," (MarkerFormat.payload fields) = fields).
Proof.
  intros subject_id filename timestamp channels sample_rate iso_timestamp
         video_iso fps trace audio_start audio_stop video_start video_stop.
  split; [| split; [| split; [| split]]].
  - unfold MarkerStreams.send_audio_start_marker,
      MarkerStreams.audio_start_marker, audio_start, MarkerFormat.payload,
      MarkerFormat.audio_start.
    destruct (Py.truthy iso_timestamp) eqn:Hiso.
    + destruct iso_timestamp as [iso |]; [| discriminate]. reflexivity.
    + reflexivity.
  - reflexivity.
  - reflexivity.
  - reflexivity.
  - intros fields Hin Hfree.
    apply split_concat_fields; [| exact Hfree].
    simpl in Hin.
    destruct Hin as [H | [H | [H | [H | []]]]]; subst fields; discriminate.
Qed.

Lemma marker_payload_field_order_witness :
  MarkerStreams.send_audio_start_marker "S1"
    (Some "out/S1_audio_20240101_120000.wav") "20240101_120001" (Some 1)
    (Some 44100) (Some "2024-01-01T12:00:01.123456") []
  = [EPush AudioOutlet
       "AUDIO_START,S1,out/S1_audio_20240101_120000.wav,20240101_120001,1,44100,2024-01-01T12:00:01.123456"]
  /\
  Py.split ","
    "VIDEO_START,S1,out/S1_audio_20240101_120000.wav,20240101_120001,2024-01-01T12:00:01.123999,24"
  = ["VIDEO_START"; "S1"; "out/S1_audio_20240101_120000.wav"; "20240101_120001";
     "2024-01-01T12:00:01.123999"; "24"].
Proof.
  destruct (marker_payload_field_order "S1"
              (Some "out/S1_audio_20240101_120000.wav") "20240101_120001"
              (Some 1) (Some 44100) (Some "2024-01-01T12:00:01.123456")
              "2024-01-01T12:00:01.123999" (Some (Py.Int 24)) [])
    as [Hstart [_ [_ [_ Hsplit]]]].
  split.
  - exact Hstart.
  - apply (Hsplit
             (MarkerFormat.video_start "S1" "out/S1_audio_20240101_120000.wav"
                "20240101_120001" "2024-01-01T12:00:01.123999" "24")).
    + right. right. left. reflexivity.
    + reflexivity.
Defined.

(** ** RecorderCore *)

Ltac done_eqs :=
  repeat match goal with |- _ /\ _ => split end;
  first [assumption | reflexivity | symmetry; assumption].

(** The two pre-initialize calls of a joint start leave both [recording]
    flags as they were. *)
Lemma pre_initialize_both_keeps_recording :
  forall cfg env subject_id destination ai vi (o : obj RecorderCore.t),
    let armed :=
      RecorderCore.pre_initialize_both cfg env subject_id destination ai vi o in
    RecorderCore.recording_audio (self (snd armed))
    = RecorderCore.recording_audio (self o) /\
    RecorderCore.recording_video (self (snd armed))
    = RecorderCore.recording_video (self o).
Proof.
  intros cfg env subject_id destination ai vi o.
  unfold RecorderCore.pre_initialize_both, RecorderCore.on_audio,
    RecorderCore.on_video, RecorderCore.key, RecorderCore.recording_audio,
    RecorderCore.recording_video.
  run.
  repeat (inner_case; run);
    rewrite ?audio_arm_keeps_recording, ?video_arm_keeps_recording;
    split; reflexivity.
Qed.

(** [start_pre_initialized_audio] seen from the coordinator. *)
Lemma core_audio_begin :
  forall env subject_id (o : obj RecorderCore.t),
    let r := RecorderCore.start_pre_initialized_audio env subject_id o in
    RecorderCore.video_recorder (self (snd r))
    = RecorderCore.video_recorder (self o) /\
    (fst r = Val true -> RecorderCore.recording_audio (self (snd r)) = true) /\
    (fst r <> Val true ->
     RecorderCore.audio_recorder (self (snd r))
     = RecorderCore.audio_recorder (self o)).
Proof.
  intros env subject_id o.
  unfold RecorderCore.start_pre_initialized_audio, RecorderCore.on_audio,
    AudioRecorder.start_pre_initialized, RecorderCore.recording_audio.
  run.
  repeat (inner_case; run); repeat split; intros; try reflexivity; congruence.
Qed.

(** [start_pre_initialized_video] seen from the coordinator: it never
    raises. *)
Lemma core_video_begin :
  forall env subject_id (o : obj RecorderCore.t),
    let r := RecorderCore.start_pre_initialized_video env subject_id o in
    RecorderCore.audio_recorder (self (snd r))
    = RecorderCore.audio_recorder (self o) /\
    (fst r = Val true -> RecorderCore.recording_video (self (snd r)) = true) /\
    (fst r <> Val true ->
     RecorderCore.video_recorder (self (snd r))
     = RecorderCore.video_recorder (self o)) /\
    (exists b, fst r = Val b).
Proof.
  intros env subject_id o.
  unfold RecorderCore.start_pre_initialized_video, RecorderCore.on_video,
    RecorderCore.recording_video.
  video_unfold. run.
  repeat (inner_case; run); repeat split; intros; try reflexivity;
    try congruence; eexists; reflexivity.
Qed.

(** C1 (as the code has it): a joint start from two sessions that are not
    recording never raises; once the pre-initialize phase has run, it calls
    [start_pre_initialized] on audio and then on video whatever the two
    pre-initialize calls returned; it returns [True] exactly when both of
    these calls return [True]; and each session is recording afterwards
    exactly when its own call returned [True], so after a partial failure
    the session that started is left running. *)
Theorem joint_start_is_best_effort :
  forall cfg env subject_id destination ai vi (o o' : obj RecorderCore.t) final,
    RecorderCore.recording_audio (self o) = false ->
    RecorderCore.recording_video (self o) = false ->
    RecorderCore.start_both_recordings cfg env subject_id destination ai vi o
    = (final, o') ->
    let armed :=
      RecorderCore.pre_initialize_both cfg env subject_id destination ai vi o in
    let begin_audio :=
      RecorderCore.start_pre_initialized_audio (RecorderCore.audio_begin env)
        subject_id in
    let begin_video :=
      RecorderCore.start_pre_initialized_video (RecorderCore.video_begin env)
        subject_id in
    exists b,
      final = Val b /\
      (b = true <->
       exists arms o1 o2 o3,
         armed = (Val arms, o1) /\ begin_audio o1 = (Val true, o2) /\
         begin_video o2 = (Val true, o3)) /\
      (forall arms o1 o2 o3 a v,
          armed = (Val arms, o1) -> begin_audio o1 = (Val a, o2) ->
          begin_video o2 = (Val v, o3) ->
          b = a && v /\
          self o' = self o3 /\
          RecorderCore.recording_audio (self o') = a /\
          RecorderCore.recording_video (self o') = v) /\
      (RecorderCore.recording_audio (self o') = true ->
       exists arms o1 o2,
         armed = (Val arms, o1) /\ begin_audio o1 = (Val true, o2)) /\
      (RecorderCore.recording_video (self o') = true ->
       exists arms o1 a o2 o3,
         armed = (Val arms, o1) /\ begin_audio o1 = (Val a, o2) /\
         begin_video o2 = (Val true, o3)).
Proof.
  intros cfg env subject_id destination ai vi o o' final Ha Hv Hrun
         armed begin_audio begin_video.
  revert Hrun. unfold RecorderCore.start_both_recordings. run.
  rewrite Ha, Hv. run.
  fold armed. fold begin_audio. fold begin_video.
  destruct (pre_initialize_both_keeps_recording cfg env subject_id destination
              ai vi o) as [Ka Kv].
  fold armed in Ka, Kv. rewrite Ha in Ka. rewrite Hv in Kv.
  clearbody armed.
  destruct armed as [r1 o1]. cbn [fst snd] in Ka, Kv.
  destruct r1 as [arms | e1]; run.
  2: { intros H; inversion H; subst; clear H. exists false. cbn [self].
       split; [reflexivity |].
       split; [split; [discriminate | intros [? [? [? [? [H _]]]]]; discriminate] |].
       split; [intros; discriminate |].
       split; intros H; congruence. }
  destruct (core_audio_begin (RecorderCore.audio_begin env) subject_id o1)
    as [Av [At Af]].
  fold begin_audio in Av, At, Af.
  destruct (begin_audio o1) as [ra o2] eqn:E2. cbn [fst snd] in Av, At, Af.
  destruct ra as [a | e2]; run.
  2: { intros H; inversion H; subst; clear H. exists false. cbn [self].
       assert (Hne : @Raised bool e2 <> Val true) by discriminate.
       specialize (Af Hne).
       unfold RecorderCore.recording_audio, RecorderCore.recording_video in *.
       rewrite Af, Av.
       split; [reflexivity |].
       split; [split; [discriminate
                      | intros [? [? [? [? [H1 [H2 _]]]]]];
                        inversion H1; subst; congruence] |].
       split; [intros ? ? ? ? ? ? H1 H2; inversion H1; subst; congruence |].
       split; intros H; congruence. }
  destruct (core_video_begin (RecorderCore.video_begin env) subject_id o2)
    as [Va [Vt [Vf [bv Vb]]]].
  fold begin_video in Va, Vt, Vf, Vb.
  destruct (begin_video o2) as [rv o3] eqn:E3. cbn [fst snd] in Va, Vt, Vf, Vb.
  subst rv.
  assert (Hra : RecorderCore.recording_audio (self o3) = a).
  { unfold RecorderCore.recording_audio in *. rewrite Va.
    destruct a; [apply At; reflexivity |].
    rewrite Af by discriminate. exact Ka. }
  assert (Hrv : RecorderCore.recording_video (self o3) = bv).
  { unfold RecorderCore.recording_video in *.
    destruct bv; [apply Vt; reflexivity |].
    rewrite Vf by discriminate. rewrite Av. exact Kv. }
  assert (Hsame : forall arms' o1' o2' o3' a' v',
             (Val arms, o1) = (Val arms', o1') ->
             begin_audio o1' = (Val a', o2') ->
             begin_video o2' = (Val v', o3') ->
             a' = a /\ v' = bv /\ o3' = o3).
  { intros arms' o1' o2' o3' a' v' H1 H2 H3.
    inversion H1; subst. rewrite E2 in H2. inversion H2; subst.
    rewrite E3 in H3. inversion H3; subst. auto. }
  destruct a, bv; run;
    intros H; injection H as Hfinal Ho'; subst final o'; cbn [self];
    [exists true | exists false | exists false | exists false].
  - split; [reflexivity |].
    split; [split; [intros _; exists arms, o1, o2, o3; done_eqs | reflexivity] |].
    split; [intros ? ? ? ? ? ? H1 H2 H3;
            destruct (Hsame _ _ _ _ _ _ H1 H2 H3) as [? [? ?]]; subst;
            done_eqs |].
    split; [intros _; exists arms, o1, o2; done_eqs
           | intros _; exists arms, o1, true, o2, o3; done_eqs].
  - split; [reflexivity |].
    split; [split; [discriminate
                   | intros [? [? [? [? [H1 [H2 H3]]]]]];
                     destruct (Hsame _ _ _ _ _ _ H1 H2 H3) as [? [? ?]];
                     discriminate] |].
    split; [intros ? ? ? ? ? ? H1 H2 H3;
            destruct (Hsame _ _ _ _ _ _ H1 H2 H3) as [? [? ?]]; subst;
            done_eqs |].
    split; [intros _; exists arms, o1, o2; done_eqs | congruence].
  - split; [reflexivity |].
    split; [split; [discriminate
                   | intros [? [? [? [? [H1 [H2 H3]]]]]];
                     destruct (Hsame _ _ _ _ _ _ H1 H2 H3) as [? [? ?]];
                     discriminate] |].
    split; [intros ? ? ? ? ? ? H1 H2 H3;
            destruct (Hsame _ _ _ _ _ _ H1 H2 H3) as [? [? ?]]; subst;
            done_eqs |].
    split; [congruence | intros _; exists arms, o1, false, o2, o3; done_eqs].
  - split; [reflexivity |].
    split; [split; [discriminate
                   | intros [? [? [? [? [H1 [H2 H3]]]]]];
                     destruct (Hsame _ _ _ _ _ _ H1 H2 H3) as [? [? ?]];
                     discriminate] |].
    split; [intros ? ? ? ? ? ? H1 H2 H3;
            destruct (Hsame _ _ _ _ _ _ H1 H2 H3) as [? [? ?]]; subst;
            done_eqs |].
    split; congruence.
Qed.

Lemma joint_start_is_best_effort_witness :
  let final :=
    RecorderCore.start_both_recordings Lab.config Lab.both_ok "S1" "out" None
      None Lab.fresh_core in
  RecorderCore.recording_audio (self Lab.fresh_core) = false /\
  RecorderCore.recording_video (self Lab.fresh_core) = false /\
  exists b,
    fst final = Val b /\
    (RecorderCore.recording_audio (self (snd final)) = true ->
     exists arms o1 o2,
       RecorderCore.pre_initialize_both Lab.config Lab.both_ok "S1" "out" None
         None Lab.fresh_core = (Val arms, o1) /\
       RecorderCore.start_pre_initialized_audio Lab.audio_begin "S1" o1
       = (Val true, o2)).
Proof.
  intros final.
  split; [reflexivity |]. split; [reflexivity |].
  destruct (joint_start_is_best_effort Lab.config Lab.both_ok "S1" "out" None
              None Lab.fresh_core (snd final) (fst final) eq_refl eq_refl
              (surjective_pairing final))
    as [b [Hb [_ [_ [Haudio _]]]]].
  exists b. split; [exact Hb | exact Haudio].
Defined.

(** C1, as stated, fails: with no matching microphone the audio
    pre-initialize call returns [False] and the video one [True]; the joint
    start still sets the video session streaming (thread started,
    VIDEO_START pushed) and then reports failure. *)
Lemma joint_start_streams_after_failed_arm :
  let armed :=
    RecorderCore.pre_initialize_both Lab.config Lab.both_no_microphone "S1"
      "out" None None Lab.fresh_core in
  let final :=
    RecorderCore.start_both_recordings Lab.config Lab.both_no_microphone "S1"
      "out" None None Lab.fresh_core in
  RecorderCore.recording_audio (self Lab.fresh_core) = false /\
  RecorderCore.recording_video (self Lab.fresh_core) = false /\
  fst armed = Val (false, true) /\
  fst final = Val false /\
  RecorderCore.recording_audio (self (snd final)) = false /\
  RecorderCore.recording_video (self (snd final)) = true /\
  pushed VideoOutlet (trace (snd final))
  = ["VIDEO_START,S1,out/S1_video_20240101_120000.mp4,20240101_120001,2024-01-01T12:00:01.123999,24"].
Proof.
  vm_compute. repeat split; reflexivity.
Qed.

Lemma string_append_assoc :
  forall a b c : string, ((a ++ b) ++ c)%string = (a ++ b ++ c)%string.
Proof.
  induction a as [| x a IH]; intros b c; simpl; [| rewrite IH]; reflexivity.
Qed.

(** [os.path.join] keeps its last component whole. *)
Lemma path_join_keeps_name :
  forall dir name, exists prefix, Py.path_join dir name = (prefix ++ name)%string.
Proof.
  intros dir name. unfold Py.path_join.
  destruct (Py.starts_with_slash name).
  - exists "". reflexivity.
  - destruct dir as [| c dir'].
    + exists "". reflexivity.
    + destruct (Py.ends_with_slash (String c dir')).
      * exists (String c dir'). reflexivity.
      * exists (String c dir' ++ "/")%string.
        symmetry. apply string_append_assoc.
Qed.

Lemma append_nonempty :
  forall a b : string, b <> "" -> (a ++ b)%string <> "".
Proof.
  intros a b Hb. destruct a; simpl; [exact Hb | discriminate].
Qed.

(** The synchronized filenames are never empty, hence truthy. *)
Lemma synchronized_name_truthy :
  forall dir subject_id suffix timestamp ext,
    Py.truthy
      (Some (Py.path_join dir
               (subject_id ++ suffix ++ "_" ++ timestamp ++ ext)))
    = true.
Proof.
  intros dir subject_id suffix timestamp ext.
  destruct (path_join_keeps_name dir
              (subject_id ++ suffix ++ "_" ++ timestamp ++ ext))
    as [prefix Hp].
  rewrite Hp.
  assert (Hne : (prefix ++ subject_id ++ suffix ++ "_" ++ timestamp ++ ext)%string
                <> "").
  { do 3 apply append_nonempty. simpl. discriminate. }
  destruct (prefix ++ subject_id ++ suffix ++ "_" ++ timestamp ++ ext)%string;
    [congruence | reflexivity].
Qed.

(** Stopping either session never changes a filename. *)
Lemma audio_stop_keeps_filename :
  forall env (o : obj AudioRecorder.t),
    AudioRecorder.audio_filename
      (self (snd (AudioRecorder.stop_recording env o)))
    = AudioRecorder.audio_filename (self o).
Proof.
  intros env o.
  unfold AudioRecorder.stop_recording, AudioRecorder.write_wav. run.
  repeat (inner_case; run); first [reflexivity | congruence].
Qed.

Lemma video_stop_keeps_filename :
  forall env (o : obj VideoRecorder.t),
    VideoRecorder.video_filename
      (self (snd (VideoRecorder.stop_recording env o)))
    = VideoRecorder.video_filename (self o).
Proof.
  intros env o. video_unfold. run.
  repeat (inner_case; run); first [reflexivity | congruence].
Qed.

Lemma stop_keeps_filenames :
  forall c (o : obj RecorderCore.t),
    AudioRecorder.audio_filename
      (RecorderCore.audio_recorder (self (snd (Run.stop c o))))
    = AudioRecorder.audio_filename (RecorderCore.audio_recorder (self o)) /\
    VideoRecorder.video_filename
      (RecorderCore.video_recorder (self (snd (Run.stop c o))))
    = VideoRecorder.video_filename (RecorderCore.video_recorder (self o)).
Proof.
  intros c o.
  destruct c as [env | env | aenv venv];
    unfold Run.stop, RecorderCore.stop_both_recordings,
      RecorderCore.stop_audio_recording, RecorderCore.stop_video_recording,
      RecorderCore.on_audio, RecorderCore.on_video; run.
  - rewrite audio_stop_keeps_filename. split; reflexivity.
  - rewrite video_stop_keeps_filename. split; reflexivity.
  - repeat (inner_case; run);
      rewrite ?audio_stop_keeps_filename, ?video_stop_keeps_filename;
      split; reflexivity.
Qed.

Lemma stops_keep_filenames :
  forall calls (o : obj RecorderCore.t),
    AudioRecorder.audio_filename
      (RecorderCore.audio_recorder (self (Run.stops calls o)))
    = AudioRecorder.audio_filename (RecorderCore.audio_recorder (self o)) /\
    VideoRecorder.video_filename
      (RecorderCore.video_recorder (self (Run.stops calls o)))
    = VideoRecorder.video_filename (RecorderCore.video_recorder (self o)).
Proof.
  induction calls as [| c rest IH]; intros o; simpl.
  - split; reflexivity.
  - destruct (IH (snd (Run.stop c o))) as [Ha Hv].
    destruct (stop_keeps_filenames c o) as [Ha' Hv'].
    split; congruence.
Qed.

(** Setting a pre-initialized session streaming never changes a filename. *)
Lemma begin_keeps_filenames :
  forall aenv venv subject_id (o : obj RecorderCore.t),
    (let r := RecorderCore.start_pre_initialized_audio aenv subject_id o in
     AudioRecorder.audio_filename (RecorderCore.audio_recorder (self (snd r)))
     = AudioRecorder.audio_filename (RecorderCore.audio_recorder (self o)) /\
     VideoRecorder.video_filename (RecorderCore.video_recorder (self (snd r)))
     = VideoRecorder.video_filename (RecorderCore.video_recorder (self o))) /\
    (let r := RecorderCore.start_pre_initialized_video venv subject_id o in
     AudioRecorder.audio_filename (RecorderCore.audio_recorder (self (snd r)))
     = AudioRecorder.audio_filename (RecorderCore.audio_recorder (self o)) /\
     VideoRecorder.video_filename (RecorderCore.video_recorder (self (snd r)))
     = VideoRecorder.video_filename (RecorderCore.video_recorder (self o))).
Proof.
  intros aenv venv subject_id o.
  unfold RecorderCore.start_pre_initialized_audio,
    RecorderCore.start_pre_initialized_video, RecorderCore.on_audio,
    RecorderCore.on_video, AudioRecorder.start_pre_initialized.
  video_unfold. run.
  split; repeat (inner_case; run); split; reflexivity.
Qed.

(** A joint start that returns [True] went through its three phases. *)
Lemma start_both_true_phases :
  forall cfg env subject_id destination ai vi (o o' : obj RecorderCore.t),
    RecorderCore.start_both_recordings cfg env subject_id destination ai vi o
    = (Val true, o') ->
    exists arms o1 o2 o3,
      RecorderCore.pre_initialize_both cfg env subject_id destination ai vi o
      = (Val arms, o1) /\
      RecorderCore.start_pre_initialized_audio (RecorderCore.audio_begin env)
        subject_id o1 = (Val true, o2) /\
      RecorderCore.start_pre_initialized_video (RecorderCore.video_begin env)
        subject_id o2 = (Val true, o3) /\
      self o' = self o3.
Proof.
  intros cfg env subject_id destination ai vi o o'.
  unfold RecorderCore.start_both_recordings. run.
  destruct (RecorderCore.recording_audio (self o)
            || RecorderCore.recording_video (self o)); run;
    [discriminate |].
  destruct (RecorderCore.pre_initialize_both cfg env subject_id destination ai
              vi o) as [[arms | e1] o1] eqn:E1; run; [| discriminate].
  destruct (RecorderCore.start_pre_initialized_audio
              (RecorderCore.audio_begin env) subject_id o1)
    as [[a | e2] o2] eqn:E2; run; [| discriminate].
  destruct (RecorderCore.start_pre_initialized_video
              (RecorderCore.video_begin env) subject_id o2)
    as [[v | e3] o3] eqn:E3; run; [| discriminate].
  destruct a, v; run; intros H; inversion H; subst; clear H.
  exists arms, o1, o2, o3. done_eqs.
Qed.

(** When both pre-initialize calls of a joint start succeed, each session
    holds the filename the coordinator derived for it. *)
Lemma pre_initialize_both_names :
  forall cfg env subject_id destination ai vi (o o1 : obj RecorderCore.t),
    RecorderCore.pre_initialize_both cfg env subject_id destination ai vi o
    = (Val (true, true), o1) ->
    exists audio_suffix video_suffix,
      RecorderCore.audio_filename_suffix cfg = Some audio_suffix /\
      RecorderCore.video_filename_suffix cfg = Some video_suffix /\
      AudioRecorder.audio_filename (RecorderCore.audio_recorder (self o1))
      = Some (RecorderCore.audio_filename_for destination subject_id
                audio_suffix (RecorderCore.common_now env)) /\
      VideoRecorder.video_filename (RecorderCore.video_recorder (self o1))
      = Some (RecorderCore.video_filename_for destination subject_id
                video_suffix (RecorderCore.common_now env)).
Proof.
  intros cfg env subject_id destination ai vi o o1.
  unfold RecorderCore.pre_initialize_both, RecorderCore.key,
    RecorderCore.on_audio, RecorderCore.on_video.
  run.
  destruct (RecorderCore.makedirs_error env); run; [discriminate |].
  destruct (RecorderCore.audio_filename_suffix cfg) as [asfx |]; run;
    [| discriminate].
  destruct (RecorderCore.video_filename_suffix cfg) as [vsfx |]; run;
    [| discriminate].
  match goal with
  | |- context [AudioRecorder.start_recording ?c ?e ?s ?d ?i true ?f ?x] =>
      destruct (AudioRecorder.start_recording c e s d i true f x)
        as [[a | ea] oa] eqn:Ea
  end; run; [| discriminate].
  match goal with
  | |- context [VideoRecorder.start_recording ?c ?e ?s ?d ?i true ?f ?x] =>
      destruct (VideoRecorder.start_recording c e s d i true f x)
        as [[v | ev] ov] eqn:Ev
  end; run; [| discriminate].
  intros H. inversion H; subst; clear H. cbn [self RecorderCore.audio_recorder
    RecorderCore.video_recorder].
  exists asfx, vsfx.
  destruct (audio_arm_success _ _ _ _ _ _ _ _ Ea) as [_ [_ Hfa]].
  destruct (video_arm_success _ _ _ _ _ _ _ _ Ev) as [_ [_ [_ Hfv]]].
  unfold RecorderCore.audio_filename_for, RecorderCore.video_filename_for in *.
  rewrite synchronized_name_truthy in Hfa, Hfv.
  repeat split; assumption.
Qed.

(** X22: after a successful joint start whose two pre-initialize calls
    succeeded, the audio session's filename and the video session's filename
    are the ones the coordinator derived: each is a directory prefix followed
    by the subject id, the modality's suffix, an underscore, the one common
    timestamp and the extension.  Both therefore embed the same subject id
    and the same coarse timestamp, and no sequence of stop calls on either
    session changes them. *)
Theorem synchronized_filenames_share_subject_and_timestamp :
  forall cfg env subject_id destination ai vi (o o1 o' : obj RecorderCore.t),
    RecorderCore.pre_initialize_both cfg env subject_id destination ai vi o
    = (Val (true, true), o1) ->
    RecorderCore.start_both_recordings cfg env subject_id destination ai vi o
    = (Val true, o') ->
    exists audio_suffix video_suffix audio_dir video_dir,
      RecorderCore.audio_filename_suffix cfg = Some audio_suffix /\
      RecorderCore.video_filename_suffix cfg = Some video_suffix /\
      forall calls,
        AudioRecorder.audio_filename
          (RecorderCore.audio_recorder (self (Run.stops calls o')))
        = Some (audio_dir ++ subject_id ++ audio_suffix ++ "_"
                  ++ RecorderCore.common_now env ++ ".wav")%string /\
        VideoRecorder.video_filename
          (RecorderCore.video_recorder (self (Run.stops calls o')))
        = Some (video_dir ++ subject_id ++ video_suffix ++ "_"
                  ++ RecorderCore.common_now env ++ ".mp4")%string.
Proof.
  intros cfg env subject_id destination ai vi o o1 o' Harm Hstart.
  destruct (start_both_true_phases _ _ _ _ _ _ _ _ Hstart)
    as [arms [o1' [o2 [o3 [E1 [E2 [E3 Hself]]]]]]].
  rewrite Harm in E1. inversion E1; subst arms o1'; clear E1.
  destruct (pre_initialize_both_names _ _ _ _ _ _ _ _ Harm)
    as [asfx [vsfx [Hasfx [Hvsfx [Hfa Hfv]]]]].
  destruct (begin_keeps_filenames (RecorderCore.audio_begin env)
              (RecorderCore.video_begin env) subject_id o1) as [[Aa Av] _].
  destruct (begin_keeps_filenames (RecorderCore.audio_begin env)
              (RecorderCore.video_begin env) subject_id o2) as [_ [Va Vv]].
  rewrite E2 in Aa, Av. rewrite E3 in Va, Vv. cbn [snd] in Aa, Av, Va, Vv.
  unfold RecorderCore.audio_filename_for in Hfa.
  unfold RecorderCore.video_filename_for in Hfv.
  destruct (path_join_keeps_name destination
              (subject_id ++ asfx ++ "_" ++ RecorderCore.common_now env
                 ++ ".wav")) as [adir Hadir].
  destruct (path_join_keeps_name destination
              (subject_id ++ vsfx ++ "_" ++ RecorderCore.common_now env
                 ++ ".mp4")) as [vdir Hvdir].
  exists asfx, vsfx, adir, vdir.
  split; [exact Hasfx |]. split; [exact Hvsfx |].
  intros calls.
  destruct (stops_keep_filenames calls o') as [Sa Sv].
  rewrite Sa, Sv, Hself, Va, Vv, Aa, Av, Hfa, Hfv, Hadir, Hvdir.
  split; reflexivity.
Qed.

Lemma synchronized_filenames_share_subject_and_timestamp_witness :
  let armed :=
    RecorderCore.pre_initialize_both Lab.config Lab.both_ok "S1" "out" None
      None Lab.fresh_core in
  let started :=
    RecorderCore.start_both_recordings Lab.config Lab.both_ok "S1" "out" None
      None Lab.fresh_core in
  armed = (Val (true, true), snd armed) /\
  started = (Val true, snd started) /\
  exists audio_dir video_dir,
    forall calls,
      AudioRecorder.audio_filename
        (RecorderCore.audio_recorder (self (Run.stops calls (snd started))))
      = Some (audio_dir ++ "S1" ++ "_audio" ++ "_" ++ "20240101_120000"
                ++ ".wav")%string /\
      VideoRecorder.video_filename
        (RecorderCore.video_recorder (self (Run.stops calls (snd started))))
      = Some (video_dir ++ "S1" ++ "_video" ++ "_" ++ "20240101_120000"
                ++ ".mp4")%string.
Proof.
  intros armed started.
  assert (Harm : armed = (Val (true, true), snd armed))
    by (vm_compute; reflexivity).
  assert (Hstart : started = (Val true, snd started))
    by (vm_compute; reflexivity).
  split; [exact Harm |]. split; [exact Hstart |].
  destruct (synchronized_filenames_share_subject_and_timestamp Lab.config
              Lab.both_ok "S1" "out" None None Lab.fresh_core (snd armed)
              (snd started) Harm Hstart)
    as [asfx [vsfx [adir [vdir [Ha [Hv Hnames]]]]]].
  inversion Ha; subst asfx. inversion Hv; subst vsfx.
  exists adir, vdir. exact Hnames.
Defined.

(** ** Where the code departs from the design document *)

(** [VideoRecorder.start_pre_initialized] tests only that a capture object is
    present; the [recording] flag is not consulted. *)
Lemma video_begin_tests_handle_only :
  forall env subject_id (o : obj VideoRecorder.t),
    fst (VideoRecorder.start_pre_initialized env subject_id o) = Val true <->
    VideoRecorder.video_capture (self o) <> None.
Proof.
  intros env subject_id o. video_unfold. run.
  destruct (VideoRecorder.video_capture (self o)); run;
    split; intros H; try reflexivity; try discriminate; congruence.
Qed.

(** C7 (defect): a joint start can return [True] although the video arm
    failed, and the two sessions then do not share the derived names.  With
    a camera that cannot be opened, [VideoRecorder.start_recording] returns
    [False] before it stores the filename but keeps the capture object, so
    [start_pre_initialized] succeeds all the same.  On a fresh coordinator
    the video session then has no filename at all and VIDEO_START names
    [None]; after an earlier run it still has that run's filename, so the
    audio file carries the new timestamp and the video session the old
    one. *)
Theorem joint_start_succeeds_without_video_file :
  let armed :=
    RecorderCore.pre_initialize_both Lab.config Lab.both_no_camera "S1" "out"
      None None Lab.fresh_core in
  let final :=
    RecorderCore.start_both_recordings Lab.config Lab.both_no_camera "S1"
      "out" None None Lab.fresh_core in
  let first_run :=
    snd (RecorderCore.stop_both_recordings Lab.audio_stop Lab.video_stop
           (snd (RecorderCore.start_both_recordings Lab.config Lab.both_ok
                   "S1" "out" None None Lab.fresh_core))) in
  let second :=
    RecorderCore.start_both_recordings Lab.config Lab.both_no_camera_later
      "S1" "out" None None first_run in
  (fst armed = Val (true, false) /\
   fst final = Val true /\
   RecorderCore.recording_video (self (snd final)) = true /\
   AudioRecorder.audio_filename (RecorderCore.audio_recorder (self (snd final)))
   = Some "out/S1_audio_20240101_120000.wav" /\
   VideoRecorder.video_filename (RecorderCore.video_recorder (self (snd final)))
   = None /\
   pushed VideoOutlet (trace (snd final))
   = ["VIDEO_START,S1,None,20240101_120001,2024-01-01T12:00:01.123999,None"])
  /\
  (RecorderCore.recording_audio (self first_run) = false /\
   RecorderCore.recording_video (self first_run) = false /\
   fst second = Val true /\
   AudioRecorder.audio_filename
     (RecorderCore.audio_recorder (self (snd second)))
   = Some "out/S1_audio_20240102_090000.wav" /\
   VideoRecorder.video_filename
     (RecorderCore.video_recorder (self (snd second)))
   = Some "out/S1_video_20240101_120000.mp4" /\
   pushed VideoOutlet (trace (snd second))
   = (pushed VideoOutlet (trace first_run)
        ++ ["VIDEO_START,S1,out/S1_video_20240101_120000.mp4,20240102_090001,2024-01-02T09:00:01.100500,24"])%list).
Proof.
  vm_compute. repeat split; reflexivity.
Qed.

(** C2 (defect): on a video session that was armed once,
    [start_pre_initialized] succeeds twice in a row with no stop in between;
    the second call is made in the Recording state, starts a second capture
    thread and pushes a second VIDEO_START.  The audio path behaves alike
    when the driver accepts the second [start_stream]. *)
Theorem begin_streaming_twice_succeeds :
  let armed :=
    snd (VideoRecorder.start_recording Lab.video_settings Lab.camera_ok "S1"
           "out" (Some 0) true None Lab.fresh_video) in
  let first := VideoRecorder.start_pre_initialized Lab.video_begin "S1" armed in
  let second :=
    VideoRecorder.start_pre_initialized Lab.video_begin_again "S1" (snd first) in
  let audio_armed :=
    snd (AudioRecorder.start_recording Lab.audio_settings Lab.audio_ok "S1"
           "out" None true None Lab.fresh_audio) in
  let audio_first :=
    AudioRecorder.start_pre_initialized Lab.audio_begin "S1" audio_armed in
  let audio_second :=
    AudioRecorder.start_pre_initialized Lab.audio_begin "S1" (snd audio_first) in
  Session.of_video (self armed) = Session.Armed /\
  fst first = Val true /\
  Session.of_video (self (snd first)) = Session.Recording /\
  fst second = Val true /\
  VideoRecorder.next_tid (trace (snd second)) = 2%nat /\
  pushed VideoOutlet (trace (snd second))
  = ["VIDEO_START,S1,out/S1_video_20240101_120000.mp4,20240101_120001,2024-01-01T12:00:01.123999,24";
     "VIDEO_START,S1,out/S1_video_20240101_120000.mp4,20240101_120002,2024-01-01T12:00:02.000500,24"]
  /\
  fst audio_first = Val true /\
  Session.of_audio (self (snd audio_first)) = Session.Recording /\
  fst audio_second = Val true /\
  List.length (pushed AudioOutlet (trace (snd audio_second))) = 2%nat.
Proof.
  vm_compute. repeat split; reflexivity.
Qed.

(** C3 (defect): a video session that is recording into one file accepts a
    pre-initialize call with another filename; the later VIDEO_STOP carries
    the new filename, for which no VIDEO_START was ever pushed. *)
Theorem video_stop_marker_without_start_marker :
  let recording :=
    VideoRecorder.start_recording Lab.video_settings Lab.camera_ok "S1" "out"
      (Some 0) false None Lab.fresh_video in
  let rearmed :=
    VideoRecorder.start_recording Lab.video_settings Lab.camera_ok "S2" "out"
      (Some 0) true (Some "out/S2_video_20240102_090000.mp4") (snd recording) in
  let stopped := VideoRecorder.stop_recording Lab.video_stop (snd rearmed) in
  fst recording = Val true /\
  fst rearmed = Val true /\
  VideoRecorder.video_filename (self (snd rearmed))
  = Some "out/S2_video_20240102_090000.mp4" /\
  fst stopped = Val true /\
  pushed VideoOutlet (trace (snd stopped))
  = ["VIDEO_START,S1,out/S1_video_20240101_120000.mp4,20240101_120000,2024-01-01T12:00:00.500000,24";
     "VIDEO_STOP,out/S2_video_20240102_090000.mp4,20240101_120501"].
Proof.
  vm_compute. repeat split; reflexivity.
Qed.

(** C6 (defect): three failing calls that do not leave an idle session with
    its device resources released.  (1) An audio arm with a device index
    outside the device table raises from the device-info query, outside the
    handler: the new PyAudio instance is never terminated.  (2) An audio
    [start_pre_initialized] whose [start_stream] raises has no handler: the
    stream stays open and the session stays armed.  (3) A video arm whose
    camera cannot be opened returns [False] but keeps the unopened capture
    object, so a following [start_pre_initialized] succeeds. *)
Theorem failed_start_keeps_resources :
  let bad_index :=
    AudioRecorder.start_recording Lab.audio_settings Lab.audio_ok "S1" "out"
      (Some 7) true None Lab.fresh_audio in
  let armed :=
    snd (AudioRecorder.start_recording Lab.audio_settings Lab.audio_ok "S1"
           "out" None true None Lab.fresh_audio) in
  let refused :=
    AudioRecorder.start_pre_initialized Lab.audio_begin_refused "S1" armed in
  let no_camera :=
    VideoRecorder.start_recording Lab.video_settings Lab.camera_closed "S1"
      "out" (Some 0) true None Lab.fresh_video in
  let after_no_camera :=
    VideoRecorder.start_pre_initialized Lab.video_begin "S1" (snd no_camera) in
  (fst bad_index = Raised (Exn "OSError" "Invalid device info") /\
   AudioRecorder.audio_p (self (snd bad_index))
   = Some (AudioRecorder.PyAudio false) /\
   trace (snd bad_index) = []) /\
  (fst refused = Raised (Exn "OSError" "Unanticipated host error") /\
   AudioRecorder.audio_stream (self (snd refused))
   = Some (AudioRecorder.Stream false false) /\
   AudioRecorder.audio_p (self (snd refused))
   = Some (AudioRecorder.PyAudio false) /\
   Session.of_audio (self (snd refused)) = Session.Armed) /\
  (fst no_camera = Val false /\
   VideoRecorder.video_capture (self (snd no_camera))
   = Some (VideoRecorder.Capture false) /\
   fst after_no_camera = Val true /\
   VideoRecorder.recording (self (snd after_no_camera)) = true).
Proof.
  vm_compute. repeat split; reflexivity.
Qed.
(** * Further properties *)

(** ** Device lookup and enumeration *)

Lemma prefix_spec :
  forall a b, String.prefix a b = true <-> exists rest, b = (a ++ rest)%string.
Proof.
  induction a as [| x a IH]; intros b.
  - split; [intros _; exists b; reflexivity | intros _; destruct b; reflexivity].
  - destruct b as [| y b]; simpl.
    + split; [discriminate | intros [rest H]; discriminate].
    + destruct (Ascii.ascii_dec x y) as [-> | Hne].
      * rewrite IH. split; intros [rest H]; exists rest.
        -- rewrite H. reflexivity.
        -- inversion H. reflexivity.
      * split; [discriminate | intros [rest H]; inversion H; congruence].
Qed.

Lemma contains_nil :
  forall sub, Py.contains sub "" = if String.prefix sub "" then true else false.
Proof. reflexivity. Qed.

Lemma contains_cons :
  forall sub c s,
    Py.contains sub (String c s)
    = if String.prefix sub (String c s) then true else Py.contains sub s.
Proof. reflexivity. Qed.

(** [Py.contains] is Python's substring test. *)
Lemma contains_spec :
  forall sub s,
    Py.contains sub s = true <->
    exists before after, s = (before ++ sub ++ after)%string.
Proof.
  intros sub s. induction s as [| c s IH].
  - rewrite contains_nil. destruct (String.prefix sub "") eqn:Hp.
    + apply prefix_spec in Hp. destruct Hp as [rest H].
      split; [intros _; exists "", rest; exact H | reflexivity].
    + split; [discriminate |].
      intros [before [after H]].
      destruct before; [| discriminate].
      simpl in H. assert (Hp' : String.prefix sub "" = true)
        by (apply prefix_spec; exists after; exact H).
      congruence.
  - rewrite contains_cons. destruct (String.prefix sub (String c s)) eqn:Hp.
    + apply prefix_spec in Hp. destruct Hp as [rest H].
      split; [intros _; exists "", rest; exact H | reflexivity].
    + rewrite IH. split.
      * intros [before [after H]]. exists (String c before), after.
        simpl. rewrite H. reflexivity.
      * intros [before [after H]].
        destruct before as [| b before].
        -- simpl in H. assert (Hp' : String.prefix sub (String c s) = true)
             by (apply prefix_spec; exists after; exact H).
           congruence.
        -- simpl in H. inversion H. exists before, after. reflexivity.
Qed.

(** The search loop of [find_device] returns the first matching index. *)
Lemma first_match_spec :
  forall device_name host_api devs k,
    match AudioRecorder.first_match device_name host_api devs k with
    | Some i =>
        k <= i /\
        (exists dev,
            nth_error devs (Z.to_nat (i - k)) = Some dev /\
            AudioDevices.matches device_name host_api dev = true) /\
        (forall j dev,
            k <= j < i ->
            nth_error devs (Z.to_nat (j - k)) = Some dev ->
            AudioDevices.matches device_name host_api dev = false)
    | None =>
        forall dev, In dev devs ->
                    AudioDevices.matches device_name host_api dev = false
    end.
Proof.
  intros device_name host_api devs.
  induction devs as [| d rest IH]; intros k; simpl.
  - intros dev [].
  - fold (AudioDevices.matches device_name host_api d).
    destruct (AudioDevices.matches device_name host_api d) eqn:Hd.
    + split; [lia |]. split.
      * exists d. rewrite Z.sub_diag. split; [reflexivity | exact Hd].
      * intros j dev Hj. lia.
    + specialize (IH (k + 1)).
      destruct (AudioRecorder.first_match device_name host_api rest (k + 1))
        as [i |].
      * destruct IH as [Hle [[dev [Hnth Hm]] Hfirst]].
        split; [lia |]. split.
        -- exists dev. split; [| exact Hm].
           replace (Z.to_nat (i - k)) with (S (Z.to_nat (i - (k + 1)))) by lia.
           exact Hnth.
        -- intros j dev' Hj Hnth'.
           destruct (Z.eq_dec j k) as [-> | Hjk].
           ++ rewrite Z.sub_diag in Hnth'. simpl in Hnth'.
              inversion Hnth'; subst. exact Hd.
           ++ apply (Hfirst j dev'); [lia |].
              replace (Z.to_nat (j - k)) with (S (Z.to_nat (j - (k + 1))))
                in Hnth' by lia.
              exact Hnth'.
      * intros dev [<- | Hin]; [exact Hd | apply IH; exact Hin].
Qed.

Lemma mem_Z_spec :
  forall x l, AudioRecorder.mem_Z x l = true <-> In x l.
Proof.
  intros x l. unfold AudioRecorder.mem_Z. rewrite existsb_exists. split.
  - intros [y [Hin Heq]]. apply Z.eqb_eq in Heq. subst. exact Hin.
  - intros Hin. exists x. split; [exact Hin | apply Z.eqb_refl].
Qed.

(** X1: [find_device] either finds nothing, in which case no device of the
    table passes the test, PortAudio is terminated and the object is
    untouched but for the error log; or it returns a live PyAudio instance
    and the lowest index whose device has the wanted text in its name, an
    accepted host API and at least one input channel. *)
Theorem find_device_returns_first_match :
  forall devs device_name host_api (o : obj AudioRecorder.t),
    let r := AudioRecorder.find_device devs device_name host_api o in
    (fst r = Val (None, None) /\
     (forall dev, In dev devs ->
                  AudioDevices.matches device_name host_api dev = false) /\
     self (snd r) = self o /\
     trace (snd r)
     = (trace o
          ++ [ELog ERROR
                ("Device '" ++ device_name
                   ++ "' not found. Available devices: "
                   ++ AudioRecorder.repr_names (map AudioRecorder.name devs));
              EPaTerminate])%list)
    \/
    (exists i dev before after,
        fst r = Val (Some (AudioRecorder.PyAudio false), Some i) /\
        snd r = o /\
        0 <= i /\
        nth_error devs (Z.to_nat i) = Some dev /\
        AudioRecorder.name dev = (before ++ device_name ++ after)%string /\
        In (AudioRecorder.hostApi dev) host_api /\
        0 < AudioRecorder.maxInputChannels dev /\
        forall j dev',
          0 <= j < i ->
          nth_error devs (Z.to_nat j) = Some dev' ->
          AudioDevices.matches device_name host_api dev' = false).
Proof.
  intros devs device_name host_api o r. subst r.
  unfold AudioRecorder.find_device.
  pose proof (first_match_spec device_name host_api devs 0) as Hspec.
  destruct (AudioRecorder.first_match device_name host_api devs 0) as [i |].
  - right. destruct Hspec as [Hle [[dev [Hnth Hm]] Hfirst]].
    rewrite Z.sub_0_r in Hnth.
    unfold AudioDevices.matches in Hm.
    apply andb_true_iff in Hm. destruct Hm as [Hm Hch].
    apply andb_true_iff in Hm. destruct Hm as [Hname Hapi].
    apply contains_spec in Hname. destruct Hname as [before [after Hname]].
    exists i, dev, before, after. run.
    split; [reflexivity |]. split; [reflexivity |].
    split; [exact Hle |]. split; [exact Hnth |]. split; [exact Hname |].
    split; [apply mem_Z_spec; exact Hapi |].
    split; [apply Z.ltb_lt; exact Hch |].
    intros j dev' Hj Hnth'. apply (Hfirst j dev' Hj).
    rewrite Z.sub_0_r. exact Hnth'.
  - left. run. repeat split; try reflexivity. exact Hspec.
    rewrite <- app_assoc. reflexivity.
Qed.

Lemma listing_spec :
  forall devs k e,
    In e (AudioDevices.listing devs k) <->
    exists dev,
      k <= AudioDevices.index e /\
      nth_error devs (Z.to_nat (AudioDevices.index e - k)) = Some dev /\
      0 < AudioRecorder.maxInputChannels dev /\
      e = AudioDevices.Entry (AudioDevices.index e) (AudioRecorder.name dev)
            (AudioRecorder.maxInputChannels dev)
            (Py.int_of (AudioRecorder.defaultSampleRate dev))
            (AudioRecorder.hostApi dev).
Proof.
  induction devs as [| d rest IH]; intros k e; simpl.
  - split; [intros [] | intros [dev [_ [H _]]]].
    destruct (Z.to_nat (AudioDevices.index e - k)); discriminate.
  - assert (Hrest :
      In e (AudioDevices.listing rest (k + 1)) <->
      exists dev,
        k < AudioDevices.index e /\
        nth_error (d :: rest) (Z.to_nat (AudioDevices.index e - k)) = Some dev /\
        0 < AudioRecorder.maxInputChannels dev /\
        e = AudioDevices.Entry (AudioDevices.index e) (AudioRecorder.name dev)
              (AudioRecorder.maxInputChannels dev)
              (Py.int_of (AudioRecorder.defaultSampleRate dev))
              (AudioRecorder.hostApi dev)).
    { rewrite IH. split; intros [dev [Hk [Hnth H]]]; exists dev.
      - split; [lia |]. split; [| exact H].
        replace (Z.to_nat (AudioDevices.index e - k))
          with (S (Z.to_nat (AudioDevices.index e - (k + 1)))) by lia.
        exact Hnth.
      - split; [lia |]. split; [| exact H].
        replace (Z.to_nat (AudioDevices.index e - k))
          with (S (Z.to_nat (AudioDevices.index e - (k + 1)))) in Hnth by lia.
        exact Hnth. }
    destruct (0 <? AudioRecorder.maxInputChannels d) eqn:Hd.
    + simpl. rewrite Hrest. split.
      * intros [He | [dev [Hk H]]].
        -- exists d. subst e. simpl. rewrite Z.sub_diag. simpl.
           apply Z.ltb_lt in Hd. repeat split; try reflexivity; lia.
        -- exists dev. split; [lia | exact H].
      * intros [dev [Hk [Hnth [Hch He]]]].
        destruct (Z.eq_dec (AudioDevices.index e) k) as [Heq | Hne].
        -- left. rewrite Heq, Z.sub_diag in Hnth. simpl in Hnth.
           inversion Hnth; subst dev. rewrite He, Heq. reflexivity.
        -- right. exists dev. split; [lia |]. auto.
    + rewrite Hrest. split.
      * intros [dev [Hk H]]. exists dev. split; [lia | exact H].
      * intros [dev [Hk [Hnth [Hch He]]]].
        destruct (Z.eq_dec (AudioDevices.index e) k) as [Heq | Hne].
        -- rewrite Heq, Z.sub_diag in Hnth. simpl in Hnth.
           inversion Hnth; subst dev. apply Z.ltb_ge in Hd. lia.
        -- exists dev. split; [lia |]. auto.
Qed.

(** X2: [get_available_devices] lists exactly the devices of the table that
    have an input channel, each under its own index with its name, channel
    count, truncated default sample rate and host API; it changes nothing in
    the recorder; and whatever index [find_device] picks is in the list. *)
Theorem available_devices_are_the_input_devices :
  forall devs (o : obj AudioRecorder.t),
    exists entries,
      AudioDevices.get_available_devices devs o
      = (Val entries, Obj (self o) (trace o ++ [EPaTerminate])) /\
      (forall e,
          In e entries <->
          exists dev,
            0 <= AudioDevices.index e /\
            nth_error devs (Z.to_nat (AudioDevices.index e)) = Some dev /\
            0 < AudioRecorder.maxInputChannels dev /\
            e = AudioDevices.Entry (AudioDevices.index e)
                  (AudioRecorder.name dev)
                  (AudioRecorder.maxInputChannels dev)
                  (Py.int_of (AudioRecorder.defaultSampleRate dev))
                  (AudioRecorder.hostApi dev)) /\
      (forall device_name host_api i,
          AudioRecorder.first_match device_name host_api devs 0 = Some i ->
          exists e, In e entries /\ AudioDevices.index e = i).
Proof.
  intros devs o. exists (AudioDevices.listing devs 0).
  split; [reflexivity |]. split.
  - intros e. rewrite listing_spec. rewrite Z.sub_0_r. reflexivity.
  - intros device_name host_api i Hi.
    pose proof (first_match_spec device_name host_api devs 0) as Hspec.
    rewrite Hi in Hspec. destruct Hspec as [Hle [[dev [Hnth Hm]] _]].
    unfold AudioDevices.matches in Hm.
    apply andb_true_iff in Hm. destruct Hm as [_ Hch]. apply Z.ltb_lt in Hch.
    exists (AudioDevices.Entry i (AudioRecorder.name dev)
              (AudioRecorder.maxInputChannels dev)
              (Py.int_of (AudioRecorder.defaultSampleRate dev))
              (AudioRecorder.hostApi dev)).
    split; [| reflexivity].
    apply listing_spec. exists dev. simpl.
    split; [exact Hle |]. split; [exact Hnth |]. split; [exact Hch | reflexivity].
Qed.

(** ** Audio sessions *)

(** X3: the stream callback appends each incoming buffer, in arrival order,
    while the session records and drops it otherwise; every other attribute
    of the recorder stays as it was, and the callback has no outside
    effect. *)
Theorem callback_buffers_while_recording :
  forall (buffers : list string) (o : obj AudioRecorder.t),
    let o' := AudioCalls.run (map AudioCalls.Callback buffers) o in
    self o'
    = (if AudioRecorder.recording (self o)
       then AudioRecorder.Make true
              (AudioRecorder.audio_stream (self o))
              (AudioRecorder.audio_p (self o))
              (AudioRecorder.audio_frames (self o) ++ buffers)%list
              (AudioRecorder.audio_filename (self o))
              (AudioRecorder.actual_channels (self o))
              (AudioRecorder.actual_sample_rate (self o))
              (AudioRecorder.actual_sample_width (self o))
       else self o) /\
    trace o' = trace o.
Proof.
  induction buffers as [| b rest IH]; intros o o'; subst o'.
  - destruct o as [[r s p f n c sr w] tr]. simpl.
    destruct r; rewrite ?app_nil_r; split; reflexivity.
  - cbn [map AudioCalls.run].
    specialize (IH (AudioCalls.after (AudioCalls.Callback b) o)).
    cbv zeta in IH. destruct IH as [Hs Ht]. rewrite Hs, Ht.
    unfold AudioCalls.after, AudioRecorder.audio_callback. run.
    destruct o as [[r s p f n c sr w] tr]. cbn.
    destruct r; cbn; rewrite <- ?app_assoc; split; reflexivity.
Qed.

(** X4: [AudioRecorder.stop_recording] never raises and always leaves the
    session not recording.  When it returns [True] the session was
    recording, the stream is stopped and closed, PortAudio is terminated,
    the WAV file is written under the session's filename with the
    negotiated channels, width and rate and all buffered frames, and
    AUDIO_STOP for that file is the last sample pushed.  When it returns
    [False] nothing is pushed. *)
Theorem audio_stop_is_final :
  forall env (o : obj AudioRecorder.t),
    let r := AudioRecorder.stop_recording env o in
    AudioRecorder.recording (self (snd r)) = false /\
    (exists b, fst r = Val b) /\
    (fst r = Val true ->
     AudioRecorder.recording (self o) = true /\
     Session.of_audio (self (snd r)) = Session.Idle /\
     AudioRecorder.audio_stream (self (snd r))
     = Some (AudioRecorder.Stream false true) /\
     AudioRecorder.audio_p (self (snd r)) = Some (AudioRecorder.PyAudio true) /\
     exists path channels width rate,
       AudioRecorder.audio_filename (self o) = Some path /\
       AudioRecorder.actual_channels (self o) = Some channels /\
       AudioRecorder.actual_sample_width (self o) = Some width /\
       AudioRecorder.actual_sample_rate (self o) = Some rate /\
       trace (snd r)
       = (trace o
            ++ [EStreamStop; EStreamClose; EPaTerminate;
                EWaveWrite path channels width rate
                  (List.length (AudioRecorder.audio_frames (self o)));
                EPush AudioOutlet
                  (MarkerStreams.audio_stop_marker (Some path)
                     (AudioRecorder.stop_now env));
                ELog INFO ("Stopped audio recording: " ++ path)])%list) /\
    (fst r = Val false ->
     pushed AudioOutlet (trace (snd r)) = pushed AudioOutlet (trace o)).
Proof.
  intros env o r. subst r.
  unfold AudioRecorder.stop_recording, AudioRecorder.write_wav,
    MarkerStreams.send_audio_stop_marker, Session.of_audio.
  run.
  assert (Hpush : forall tr evs,
             pushed AudioOutlet evs = [] ->
             pushed AudioOutlet (tr ++ evs) = pushed AudioOutlet tr).
  { intros tr evs Hevs. induction tr as [| e tr IH]; simpl.
    - exact Hevs.
    - destruct e; try exact IH. destruct o0; [rewrite IH |]; auto. }
  destruct (AudioRecorder.recording (self o)) eqn:Hrec; run.
  2: { rewrite Hrec. split; [reflexivity |]. split; [eexists; reflexivity |].
       split; [discriminate |]. intros _. apply Hpush. reflexivity. }
  repeat (inner_case; run);
    (split; [reflexivity |]); (split; [eexists; reflexivity |]);
    (split; [try discriminate | try discriminate]);
    try (intros _; repeat rewrite <- app_assoc; apply Hpush; reflexivity).
  intros _. repeat split; try reflexivity.
  do 4 eexists. repeat split; try reflexivity.
  repeat rewrite <- app_assoc. reflexivity.
Qed.

Ltac audio_unfold :=
  unfold AudioRecorder.start_recording, AudioRecorder.find_device,
    AudioRecorder.get_device_info_by_index, AudioRecorder.getattr_pyaudio,
    AudioRecorder.format_map_get,
    AudioRecorder.terminate_if_any, AudioRecorder.start_pre_initialized.

Lemma pushed_app :
  forall out tr tr',
    pushed out (tr ++ tr') = (pushed out tr ++ pushed out tr')%list.
Proof.
  intros out tr tr'. induction tr as [| e tr IH]; simpl; [reflexivity |].
  destruct e; try exact IH.
  destruct out, o; simpl; rewrite ?IH; reflexivity.
Qed.

Ltac pushed_norm :=
  unfold MarkerStreams.send_audio_start_marker,
    MarkerStreams.send_audio_stop_marker;
  repeat rewrite pushed_app; cbn [pushed]; repeat rewrite app_nil_r.

(** X5: starting in one step and starting in two steps come to the same.
    When a direct start succeeds, an arm with the same arguments,
    configuration, device table and clock whose own [PyAudio.open] and
    [os.makedirs] do not raise succeeds too, and once
    [start_pre_initialized] has set the stream going the recorder has
    exactly the attributes of the direct start.
    Either way one AUDIO_START is pushed, for the same file, channels and
    rate; the two-step one carries the clock reading of its own call and
    the ISO timestamp. *)
Theorem direct_start_is_arm_then_begin :
  forall cfg env arm_open_error arm_makedirs_error arm_now_marker benv
         subject_id destination device_index filename
         (o : obj AudioRecorder.t),
    let arm_env :=
      AudioRecorder.StartEnv (AudioRecorder.devices env)
        (AudioRecorder.module_attrs env) arm_open_error arm_makedirs_error
        (AudioRecorder.now_filename env) arm_now_marker in
    let direct :=
      AudioRecorder.start_recording cfg env subject_id destination
        device_index false filename o in
    let armed :=
      AudioRecorder.start_recording cfg arm_env subject_id destination
        device_index true filename o in
    let begun :=
      AudioRecorder.start_pre_initialized benv subject_id (snd armed) in
    fst direct = Val true ->
    arm_open_error = None ->
    arm_makedirs_error = None ->
    AudioRecorder.start_stream_error benv = None ->
    fst armed = Val true /\
    fst begun = Val true /\
    self (snd begun) = self (snd direct) /\
    pushed AudioOutlet (trace (snd direct))
    = (pushed AudioOutlet (trace o)
         ++ [MarkerStreams.audio_start_marker subject_id
               (AudioRecorder.audio_filename (self (snd direct)))
               (AudioRecorder.now_marker env)
               (AudioRecorder.actual_channels (self (snd direct)))
               (AudioRecorder.actual_sample_rate (self (snd direct)))
               None])%list /\
    pushed AudioOutlet (trace (snd begun))
    = (pushed AudioOutlet (trace o)
         ++ [MarkerStreams.audio_start_marker subject_id
               (AudioRecorder.audio_filename (self (snd direct)))
               (AudioRecorder.begin_now benv)
               (AudioRecorder.actual_channels (self (snd direct)))
               (AudioRecorder.actual_sample_rate (self (snd direct)))
               (Some (AudioRecorder.begin_iso benv))])%list.
Proof.
  intros cfg env arm_open_error arm_makedirs_error arm_now_marker benv
         subject_id destination device_index filename o.
  cbv zeta. audio_unfold. run.
  cbn [AudioRecorder.devices AudioRecorder.module_attrs
       AudioRecorder.open_error AudioRecorder.makedirs_error
       AudioRecorder.now_filename AudioRecorder.now_marker].
  intros Hdirect Harm Hdir Hb. revert Hdirect. rewrite Harm, Hdir.
  destruct (AudioRecorder.recording (self o)) eqn:Hrec; run;
    [discriminate |].
  repeat (inner_case; run); intros Hdirect; try discriminate;
    rewrite ?Hb; run;
    (split; [reflexivity |]); (split; [reflexivity |]);
    (split; [destruct o as [[] ?]; reflexivity |]);
    split; pushed_norm; reflexivity.
Qed.

Lemma direct_start_is_arm_then_begin_witness :
  let direct :=
    AudioRecorder.start_recording Lab.audio_settings Lab.audio_ok "S1" "out"
      None false None Lab.fresh_audio in
  let begun :=
    AudioRecorder.start_pre_initialized Lab.audio_begin "S1"
      (snd (AudioRecorder.start_recording Lab.audio_settings Lab.audio_ok "S1"
              "out" None true None Lab.fresh_audio)) in
  fst direct = Val true /\
  AudioRecorder.start_stream_error Lab.audio_begin = None /\
  fst begun = Val true /\ self (snd begun) = self (snd direct).
Proof.
  intros direct begun.
  assert (H : fst direct = Val true) by (vm_compute; reflexivity).
  split; [exact H |]. split; [reflexivity |].
  destruct (direct_start_is_arm_then_begin Lab.audio_settings Lab.audio_ok
              None None "20240101_120000" Lab.audio_begin "S1" "out" None None
              Lab.fresh_audio H eq_refl eq_refl eq_refl) as [_ [Hb [Hs _]]].
  split; [exact Hb | exact Hs].
Defined.

(** X6: after a successful [start_recording] the channel count in use never
    exceeds what the chosen device offers; with device defaults it is at
    most 2 and the rate is the device's default rate truncated to an
    integer, otherwise the count is at most the configured one (1 when
    nothing is configured) and the rate is the configured one (44100 when
    nothing is configured). *)
Theorem negotiated_parameters_fit_the_device :
  forall cfg env subject_id destination device_index pre_initialize filename
         (o o' : obj AudioRecorder.t),
    AudioRecorder.start_recording cfg env subject_id destination device_index
      pre_initialize filename o = (Val true, o') ->
    exists i dev channels rate,
      (device_index = Some i \/
       device_index = None /\
       AudioRecorder.first_match
         (AudioRecorder.default (AudioRecorder.device_name cfg) "Default")
         (AudioRecorder.default (AudioRecorder.host_api cfg) [0; 1; 2; 3])
         (AudioRecorder.devices env) 0 = Some i) /\
      nth_error (AudioRecorder.devices env) (Z.to_nat i) = Some dev /\
      AudioRecorder.actual_channels (self o') = Some channels /\
      AudioRecorder.actual_sample_rate (self o') = Some rate /\
      channels <= AudioRecorder.maxInputChannels dev /\
      (if AudioRecorder.default (AudioRecorder.use_device_defaults cfg) false
       then channels <= 2 /\
            rate = Py.int_of (AudioRecorder.defaultSampleRate dev)
       else channels
            <= AudioRecorder.default (AudioRecorder.channels cfg)
                 (AudioRecorder.fb_get (AudioRecorder.fallback cfg)
                    AudioRecorder.fb_channels 1) /\
            rate
            = AudioRecorder.default (AudioRecorder.sample_rate cfg)
                (AudioRecorder.fb_get (AudioRecorder.fallback cfg)
                   AudioRecorder.fb_sample_rate 44100)).
Proof.
  intros cfg env subject_id destination device_index pre_initialize filename
         o o'.
  assert (Hmin1 : forall a b, Py.min_int a b <= a)
    by (intros a b; unfold Py.min_int; destruct (Z.ltb_spec b a); lia).
  assert (Hmin2 : forall a b, Py.min_int a b <= b)
    by (intros a b; unfold Py.min_int; destruct (Z.ltb_spec b a); lia).
  audio_unfold. run.
  destruct (AudioRecorder.recording (self o)) eqn:Hrec; run; [discriminate |].
  destruct (AudioRecorder.default (AudioRecorder.use_device_defaults cfg) false)
    eqn:Hdef;
    repeat (inner_case; run); intros H; inversion H; subst; clear H; run;
    do 4 eexists;
    (split; [first [left; reflexivity | right; split; reflexivity] |]);
    (split; [eassumption |]);
    (split; [reflexivity |]); (split; [reflexivity |]);
    repeat split; auto.
Qed.

Lemma negotiated_parameters_fit_the_device_witness :
  let started :=
    AudioRecorder.start_recording Lab.audio_settings Lab.audio_ok "S1" "out"
      None true None Lab.fresh_audio in
  started = (Val true, snd started) /\
  AudioRecorder.actual_channels (self (snd started)) = Some 1 /\
  exists dev channels,
    AudioRecorder.actual_channels (self (snd started)) = Some channels /\
    channels <= AudioRecorder.maxInputChannels dev.
Proof.
  intros started.
  assert (H : started = (Val true, snd started)) by (vm_compute; reflexivity).
  split; [exact H |]. split; [vm_compute; reflexivity |].
  unfold started in H.
  destruct (negotiated_parameters_fit_the_device _ _ _ _ _ _ _ _ _ H)
    as [i [dev [channels [rate [_ [_ [Hc [_ [Hle _]]]]]]]]].
  exists dev, channels. split; assumption.
Defined.

Lemma audio_invariant_step :
  forall c o, audio_invariant o -> audio_invariant (AudioCalls.after c o).
Proof.
  intros c o [Hord Hlast].
  destruct c as [cfg env subject_id destination device_index pre_initialize
                   filename | env subject_id | env | in_data];
    unfold AudioCalls.after, audio_invariant.
  - audio_unfold. run.
    destruct (AudioRecorder.recording (self o)) eqn:Hrec; run.
    + pushed_norm. rewrite Hrec. split; [exact Hord | exact Hlast].
    + repeat (inner_case; run); pushed_norm; rewrite ?Hrec;
        (split;
         [ first [exact Hord | apply AudioCalls.ordered_start; exact Hord]
         | intros Hr; first [discriminate Hr | do 6 eexists; reflexivity] ]).
  - audio_unfold. run.
    destruct (AudioRecorder.recording (self o)) eqn:Hrec;
      repeat (inner_case; run); pushed_norm; rewrite ?Hrec;
        (split;
         [ first [exact Hord | apply AudioCalls.ordered_start; exact Hord]
         | intros Hr;
           first [discriminate Hr | exact (Hlast Hr) | exact (Hlast Hrec)
                 | do 6 eexists; reflexivity] ]).
  - unfold AudioRecorder.stop_recording, AudioRecorder.write_wav. run.
    destruct (AudioRecorder.recording (self o)) eqn:Hrec; run.
    2: { pushed_norm. rewrite Hrec. split; [exact Hord | discriminate]. }
    destruct (Hlast eq_refl)
      as [samples [sid [ts [ch [sr [iso Hpushed]]]]]].
    repeat (inner_case; run); pushed_norm;
      (split; [| discriminate]);
      first [ exact Hord
            | rewrite Hpushed; apply AudioCalls.ordered_stop;
              rewrite <- Hpushed; exact Hord ].
  - unfold AudioRecorder.audio_callback. run.
    destruct (AudioRecorder.recording (self o)) eqn:Hrec; run; rewrite ?Hrec;
      split; [exact Hord | exact Hlast | exact Hord | discriminate].
Qed.

(** X7: whatever calls are made on an audio recorder, in whatever order and
    with whatever outcome, every AUDIO_STOP on its outlet directly follows
    an AUDIO_START that names the same file. *)
Theorem audio_stop_follows_its_start :
  forall calls,
    AudioCalls.well_ordered
      (pushed AudioOutlet
         (trace (AudioCalls.run calls (Obj AudioRecorder.init [])))).
Proof.
  intros calls.
  assert (H : forall o, audio_invariant o ->
                        audio_invariant (AudioCalls.run calls o)).
  { induction calls as [| c rest IH]; intros o Ho; simpl; [exact Ho |].
    apply IH. apply audio_invariant_step. exact Ho. }
  apply (H (Obj AudioRecorder.init [])).
  split; [constructor | discriminate].
Qed.

(** ** Video sessions *)

Lemma num_ltb_lt :
  forall a b, Py.num_ltb a b = true -> (Py.num_val a < Py.num_val b)%Q.
Proof.
  intros a b H. unfold Py.num_ltb in H. apply negb_true_iff in H.
  apply Qnot_le_lt. intros Hle. apply Qle_bool_iff in Hle. congruence.
Qed.

(** X8: after a successful video [start_recording] the frame rate in use is
    the rate the camera reports when that is positive and below the
    configured one, and the configured rate otherwise; it never exceeds the
    configured rate. *)
Theorem negotiated_fps_never_exceeds_request :
  forall cfg env subject_id destination device_index pre_initialize filename
         (o o' : obj VideoRecorder.t),
    VideoRecorder.start_recording cfg env subject_id destination device_index
      pre_initialize filename o = (Val true, o') ->
    exists requested used,
      VideoRecorder.fps cfg = Some requested /\
      VideoRecorder.actual_fps (self o') = Some used /\
      used
      = (if Py.num_ltb (Py.Int 0) (VideoRecorder.reported_fps env)
            && Py.num_ltb (VideoRecorder.reported_fps env) requested
         then VideoRecorder.reported_fps env else requested) /\
      (Py.num_val used <= Py.num_val requested)%Q.
Proof.
  intros cfg env subject_id destination device_index pre_initialize filename
         o o'.
  video_unfold. run.
  repeat (first [rewrite warm_up_run | inner_case]; run);
    intros H; inversion H; subst; clear H; run;
    do 2 eexists;
    (split; [reflexivity |]); (split; [reflexivity |]);
    match goal with
    | H : _ && _ = true |- _ =>
        rewrite H; split; [reflexivity |];
        apply andb_true_iff in H; destruct H as [_ H];
        apply Qlt_le_weak, num_ltb_lt; exact H
    | H : _ && _ = false |- _ =>
        rewrite H; split; [reflexivity | apply Qle_refl]
    end.
Qed.

Lemma negotiated_fps_never_exceeds_request_witness :
  let started :=
    VideoRecorder.start_recording Lab.video_settings Lab.camera_ok "S1" "out"
      (Some 0) true None Lab.fresh_video in
  started = (Val true, snd started) /\
  exists used,
    VideoRecorder.actual_fps (self (snd started)) = Some used /\
    (Py.num_val used <= 24)%Q.
Proof.
  intros started.
  assert (H : started = (Val true, snd started)) by (vm_compute; reflexivity).
  split; [exact H |]. unfold started in H.
  destruct (negotiated_fps_never_exceeds_request _ _ _ _ _ _ _ _ _ H)
    as [requested [used [Hreq [Hused [_ Hle]]]]].
  exists used. split; [exact Hused |].
  inversion Hreq; subst requested. exact Hle.
Defined.

Lemma warm_up_success_spec :
  forall n reads,
    VideoRecorder.warm_up_success n reads = true <->
    exists k, (k < n)%nat /\ nth_error reads k = Some true.
Proof.
  induction n as [| n IH]; intros reads; simpl.
  - split; [discriminate | intros [k [Hk _]]; lia].
  - destruct reads as [| [|] rest].
    + rewrite IH. split; intros [k [Hk Hnth]];
        destruct k; simpl in Hnth; discriminate.
    + split; [intros _; exists O; split; [lia | reflexivity] | reflexivity].
    + rewrite IH. split.
      * intros [k [Hk Hnth]]. exists (S k). split; [lia | exact Hnth].
      * intros [k [Hk Hnth]]. destruct k as [| k]; [discriminate |].
        exists k. split; [lia | exact Hnth].
Qed.

Lemma next_tid_app :
  forall tr tr',
    VideoRecorder.next_tid (tr ++ tr')
    = (VideoRecorder.next_tid tr + VideoRecorder.next_tid tr')%nat.
Proof.
  intros tr tr'. induction tr as [| e tr IH]; simpl; [reflexivity |].
  destruct e; simpl; rewrite ?IH; reflexivity.
Qed.

Lemma next_tid_warm_up :
  forall n reads pre_initialize,
    VideoRecorder.next_tid (VideoRecorder.warm_up_events n reads pre_initialize)
    = O.
Proof.
  induction n as [| n IH]; intros reads pre_initialize; simpl; [reflexivity |].
  destruct reads as [| [|] rest]; simpl; rewrite ?IH; try reflexivity.
  destruct pre_initialize; reflexivity.
Qed.

Lemma warm_up_events_exact :
  forall n reads pre_initialize,
    exists misses,
      (misses <= n)%nat /\
      VideoRecorder.warm_up_events n reads pre_initialize
      = (repeat (ESleep (1 # 10)) misses
           ++ (if VideoRecorder.warm_up_success n reads && negb pre_initialize
               then [EFrameWrite] else []))%list /\
      (forall j, (j < misses)%nat -> nth_error reads j <> Some true) /\
      (VideoRecorder.warm_up_success n reads = true ->
       (misses < n)%nat /\ nth_error reads misses = Some true) /\
      (VideoRecorder.warm_up_success n reads = false -> misses = n).
Proof.
  induction n as [| n IH]; intros reads pre_initialize.
  - exists O. simpl. repeat split; try reflexivity; try lia; discriminate.
  - destruct reads as [| [|] rest]; cbn [VideoRecorder.warm_up_events
                                          VideoRecorder.warm_up_success].
    + destruct (IH [] pre_initialize) as [m [Hle [Hev [Hno [Hyes Hfail]]]]].
      exists (S m). split; [lia |]. split; [rewrite Hev; reflexivity |].
      split; [intros j _; destruct j; discriminate |].
      split.
      * intros H. destruct (Hyes H) as [_ Hnth].
        destruct m; discriminate.
      * intros H. rewrite (Hfail H). reflexivity.
    + exists O. split; [lia |].
      split; [destruct pre_initialize; reflexivity |].
      split; [intros j Hj; lia |].
      split; [intros _; split; [lia | reflexivity] | discriminate].
    + destruct (IH rest pre_initialize) as [m [Hle [Hev [Hno [Hyes Hfail]]]]].
      exists (S m). split; [lia |]. split; [rewrite Hev; reflexivity |].
      split.
      * intros j Hj. destruct j as [| j]; [discriminate |].
        apply Hno. lia.
      * split.
        -- intros H. destruct (Hyes H) as [Hlt Hnth].
           split; [lia | exact Hnth].
        -- intros H. rewrite (Hfail H). reflexivity.
Qed.

(** X9: the warm-up of a video start reads at most ten times.  Each read
    that delivers no frame is followed by a sleep of a tenth of a second;
    the first frame ends the warm-up and is written only on a direct start;
    nothing else happens.  It succeeds exactly when one of the first ten
    reads delivers a frame.  Its outcome is only logged: the result of
    [start_recording] and the attributes it leaves are the same whatever
    the camera delivers during warm-up. *)
Theorem warm_up_is_bounded_and_never_aborts :
  forall cfg env reads subject_id destination device_index pre_initialize
         filename (o : obj VideoRecorder.t),
    (exists got misses,
        VideoRecorder.warm_up 10 reads pre_initialize o
        = (Val got,
           Obj (self o)
             (trace o ++ repeat (ESleep (1 # 10)) misses
                ++ (if got && negb pre_initialize then [EFrameWrite] else []))%list)
        /\
        (misses <= 10)%nat /\
        (forall j, (j < misses)%nat -> nth_error reads j <> Some true) /\
        (got = true ->
         (misses < 10)%nat /\ nth_error reads misses = Some true) /\
        (got = false -> misses = 10%nat) /\
        (got = true <->
         exists k, (k < 10)%nat /\ nth_error reads k = Some true)) /\
    let other :=
      VideoRecorder.StartEnv (VideoRecorder.makedirs_error env)
        (VideoRecorder.camera_opens env) (VideoRecorder.reported_fps env)
        (VideoRecorder.writer_error env) reads
        (VideoRecorder.now_filename env) (VideoRecorder.now_start_time env)
        (VideoRecorder.now_exact env) (VideoRecorder.now_marker env) in
    let r :=
      VideoRecorder.start_recording cfg env subject_id destination
        device_index pre_initialize filename o in
    let r' :=
      VideoRecorder.start_recording cfg other subject_id destination
        device_index pre_initialize filename o in
    fst r = fst r' /\ self (snd r) = self (snd r').
Proof.
  intros cfg env reads subject_id destination device_index pre_initialize
         filename o.
  split.
  - destruct (warm_up_events_exact 10 reads pre_initialize)
      as [misses [Hle [Hev [Hno [Hyes Hfail]]]]].
    exists (VideoRecorder.warm_up_success 10 reads), misses.
    split; [rewrite warm_up_run, Hev; reflexivity |].
    split; [exact Hle |]. split; [exact Hno |].
    split; [exact Hyes |]. split; [exact Hfail |].
    apply warm_up_success_spec.
  - cbv zeta. video_unfold. run.
    cbn [VideoRecorder.makedirs_error VideoRecorder.camera_opens
         VideoRecorder.reported_fps VideoRecorder.writer_error
         VideoRecorder.warmup_reads VideoRecorder.now_filename
         VideoRecorder.now_start_time VideoRecorder.now_exact
         VideoRecorder.now_marker].
    repeat (first [rewrite !warm_up_run | inner_case]; run);
      (split; [reflexivity |]);
      repeat rewrite next_tid_app; rewrite ?next_tid_warm_up;
      cbn [VideoRecorder.next_tid]; rewrite ?Nat.add_0_r; reflexivity.
Qed.

Lemma audio_stop_never_raises :
  forall env (o : obj AudioRecorder.t),
    exists b, fst (AudioRecorder.stop_recording env o) = Val b.
Proof.
  intros. unfold AudioRecorder.stop_recording, AudioRecorder.write_wav. run.
  repeat (inner_case; run); eexists; reflexivity.
Qed.

Lemma video_stop_never_raises :
  forall env (o : obj VideoRecorder.t),
    exists b, fst (VideoRecorder.stop_recording env o) = Val b.
Proof.
  intros. video_unfold. run.
  repeat (inner_case; run); eexists; reflexivity.
Qed.

(** X10: no exception escapes the video recorder's [start_recording],
    [start_pre_initialized], [stop_recording] and [stop_preview], nor the
    coordinator's joint start and stop: a missing configuration key, a
    failing [os.makedirs] or a raising OpenCV call comes back as [False]. *)
Theorem no_exception_escapes :
  (forall cfg env subject_id destination device_index pre_initialize filename
          (o : obj VideoRecorder.t),
      exists b,
        fst (VideoRecorder.start_recording cfg env subject_id destination
               device_index pre_initialize filename o) = Val b) /\
  (forall env subject_id (o : obj VideoRecorder.t),
      exists b,
        fst (VideoRecorder.start_pre_initialized env subject_id o) = Val b) /\
  (forall env (o : obj VideoRecorder.t),
      exists b, fst (VideoRecorder.stop_recording env o) = Val b) /\
  (forall env (o : obj VideoRecorder.t),
      fst (VideoRecorder.stop_preview env o) = Val true) /\
  (forall cfg env subject_id destination ai vi (o : obj RecorderCore.t),
      exists b,
        fst (RecorderCore.start_both_recordings cfg env subject_id
               destination ai vi o) = Val b) /\
  (forall aenv venv (o : obj RecorderCore.t),
      exists b, fst (RecorderCore.stop_both_recordings aenv venv o) = Val b).
Proof.
  split; [| split; [| split; [| split; [| split]]]].
  - intros. video_unfold. run.
    repeat (first [rewrite warm_up_run | inner_case]; run);
      eexists; reflexivity.
  - intros. video_unfold. run.
    repeat (inner_case; run); eexists; reflexivity.
  - intros. video_unfold. run.
    repeat (inner_case; run); eexists; reflexivity.
  - intros. unfold VideoRecorder.stop_preview. video_unfold. run.
    repeat (inner_case; run); reflexivity.
  - intros. unfold RecorderCore.start_both_recordings. run.
    repeat (inner_case; run); eexists; reflexivity.
  - intros.
    unfold RecorderCore.stop_both_recordings,
      RecorderCore.stop_audio_recording, RecorderCore.stop_video_recording,
      RecorderCore.on_audio, RecorderCore.on_video.
    run.
    repeat (first
              [ match goal with
                | |- context [fst (AudioRecorder.stop_recording ?e ?x)] =>
                    let b := fresh "b" in
                    let Hb := fresh "Hb" in
                    destruct (audio_stop_never_raises e x) as [b Hb];
                    rewrite Hb
                | |- context [fst (VideoRecorder.stop_recording ?e ?x)] =>
                    let b := fresh "b" in
                    let Hb := fresh "Hb" in
                    destruct (video_stop_never_raises e x) as [b Hb];
                    rewrite Hb
                end
              | inner_case ]; run);
      eexists; reflexivity.
Qed.

Ltac pushes :=
  unfold MarkerStreams.send_audio_start_marker,
    MarkerStreams.send_audio_stop_marker,
    MarkerStreams.send_video_start_marker,
    MarkerStreams.send_video_stop_marker;
  repeat rewrite pushed_app; cbn [pushed app]; repeat rewrite app_nil_r.

(** X11: [VideoRecorder.stop_recording] always leaves the session not
    recording and pushes VIDEO_STOP exactly when it returns [True].  When it
    returns [False] after a recording, releasing the encoder raised: the
    loop flags are cleared, but the encoder and the camera are still held
    and nothing is pushed. *)
Theorem video_stop_marker_iff_success :
  forall env (o : obj VideoRecorder.t),
    let r := VideoRecorder.stop_recording env o in
    VideoRecorder.recording (self (snd r)) = false /\
    (fst r = Val true ->
     pushed VideoOutlet (trace (snd r))
     = (pushed VideoOutlet (trace o)
          ++ [MarkerStreams.video_stop_marker
                (VideoRecorder.video_filename (self o))
                (VideoRecorder.stop_now env)])%list) /\
    (fst r = Val false ->
     pushed VideoOutlet (trace (snd r)) = pushed VideoOutlet (trace o) /\
     VideoRecorder.video_writer (self (snd r))
     = VideoRecorder.video_writer (self o) /\
     VideoRecorder.video_capture (self (snd r))
     = VideoRecorder.video_capture (self o) /\
     (VideoRecorder.recording (self o) = true ->
      VideoRecorder.thread_active (self (snd r)) = false /\
      VideoRecorder.video_writer (self o) <> None /\
      VideoRecorder.release_error env <> None)).
Proof.
  intros env o r. subst r.
  video_unfold. run.
  destruct (VideoRecorder.recording (self o)) eqn:Hrec; run.
  2: { rewrite Hrec. split; [reflexivity |]. split; [discriminate |].
       intros _. pushes.
       repeat split; try reflexivity; discriminate. }
  repeat (inner_case; run);
    (split; [reflexivity |]);
    (split; [intros H; try discriminate H | intros H; try discriminate H]);
    pushes; try reflexivity;
    repeat split; try reflexivity; try congruence.
Qed.

Lemma camera_releases_app :
  forall tr tr',
    camera_releases (tr ++ tr')
    = (camera_releases tr + camera_releases tr')%nat.
Proof.
  intros tr tr'. induction tr as [| e tr IH]; simpl; [reflexivity |].
  destruct e; simpl; rewrite ?IH; reflexivity.
Qed.

Lemma camera_opens_app :
  forall tr tr',
    camera_opens (tr ++ tr') = (camera_opens tr + camera_opens tr')%nat.
Proof.
  intros tr tr'. induction tr as [| e tr IH]; simpl; [reflexivity |].
  destruct e; simpl; rewrite ?IH; reflexivity.
Qed.

(** X12: starting the preview on a recorder that already holds a capture
    object (armed or recording) reuses it: the camera is not opened again,
    the object is kept, the preview flags are set and the call returns
    [True].  Starting it again while it is active does nothing. *)
Theorem preview_reuses_the_open_camera :
  forall cfg env c (o : obj VideoRecorder.t),
    VideoRecorder.video_capture (self o) = Some c ->
    VideoRecorder.preview_active (self o) = false ->
    let r := VideoRecorder.start_preview cfg env o in
    fst r = Val true /\
    VideoRecorder.video_capture (self (snd r)) = Some c /\
    VideoRecorder.show_preview (self (snd r)) = true /\
    VideoRecorder.preview_active (self (snd r)) = true /\
    VideoRecorder.recording (self (snd r)) = VideoRecorder.recording (self o) /\
    camera_opens (trace (snd r)) = camera_opens (trace o) /\
    VideoRecorder.start_preview cfg env (snd r) = (Val true, snd r).
Proof.
  intros cfg env c o Hcap Hact r. subst r.
  unfold VideoRecorder.start_preview. video_unfold. run.
  rewrite Hact, Hcap. run.
  repeat split; try reflexivity.
  - exact Hcap.
  - repeat rewrite camera_opens_app. cbn [camera_opens]. lia.
Qed.

Lemma preview_reuses_the_open_camera_witness :
  let armed :=
    snd (VideoRecorder.start_recording Lab.video_settings Lab.camera_ok "S1"
           "out" (Some 0) true None Lab.fresh_video) in
  let r :=
    VideoRecorder.start_preview Lab.video_settings
      (VideoRecorder.PreviewEnv true true None) armed in
  VideoRecorder.video_capture (self armed) = Some (VideoRecorder.Capture true) /\
  VideoRecorder.preview_active (self armed) = false /\
  fst r = Val true /\
  camera_opens (trace (snd r)) = camera_opens (trace armed).
Proof.
  intros armed r.
  assert (Hc : VideoRecorder.video_capture (self armed)
               = Some (VideoRecorder.Capture true)) by (vm_compute; reflexivity).
  assert (Ha : VideoRecorder.preview_active (self armed) = false)
    by (vm_compute; reflexivity).
  destruct (preview_reuses_the_open_camera Lab.video_settings
              (VideoRecorder.PreviewEnv true true None) _ armed Hc Ha)
    as [H1 [_ [_ [_ [_ [H6 _]]]]]].
  repeat split; assumption.
Defined.

(** X13: when a recording and the preview share the camera, stopping them in
    either order releases the camera exactly once: the call that comes
    first keeps the capture object for the other, the call that comes last
    releases it and clears the attribute. *)
Theorem shared_camera_is_released_once :
  forall senv penv c (o : obj VideoRecorder.t),
    VideoRecorder.recording (self o) = true ->
    VideoRecorder.preview_active (self o) = true ->
    VideoRecorder.show_preview (self o) = true ->
    VideoRecorder.video_capture (self o) = Some c ->
    VideoRecorder.release_error senv = None ->
    let first_rec := VideoRecorder.stop_recording senv o in
    let then_prev := VideoRecorder.stop_preview penv (snd first_rec) in
    let first_prev := VideoRecorder.stop_preview penv o in
    let then_rec := VideoRecorder.stop_recording senv (snd first_prev) in
    (fst first_rec = Val true /\
     VideoRecorder.video_capture (self (snd first_rec)) = Some c /\
     fst then_prev = Val true /\
     VideoRecorder.video_capture (self (snd then_prev)) = None /\
     camera_releases (trace (snd then_prev))
     = S (camera_releases (trace o))) /\
    (fst first_prev = Val true /\
     VideoRecorder.video_capture (self (snd first_prev)) = Some c /\
     fst then_rec = Val true /\
     VideoRecorder.video_capture (self (snd then_rec)) = None /\
     camera_releases (trace (snd then_rec))
     = S (camera_releases (trace o))).
Proof.
  intros senv penv c o Hrec Hact Hshow Hcap Herr.
  cbv zeta. unfold VideoRecorder.stop_preview. video_unfold. run.
  rewrite Hrec, Hact, Hshow, Hcap, Herr. run.
  split;
    repeat (first [ rewrite Hrec | rewrite Hact | rewrite Hshow | rewrite Hcap
                  | rewrite Herr | inner_case ]; run);
    repeat split; try reflexivity;
    unfold MarkerStreams.send_video_stop_marker;
    repeat rewrite camera_releases_app; cbn [camera_releases]; lia.
Qed.

Lemma shared_camera_is_released_once_witness :
  let o :=
    snd (VideoRecorder.start_preview Lab.video_settings
           (VideoRecorder.PreviewEnv true true None)
           (snd (VideoRecorder.start_recording Lab.video_settings
                   Lab.camera_ok "S1" "out" (Some 0) false None
                   Lab.fresh_video))) in
  let penv := VideoRecorder.PreviewEnv true true (Some (1 # 5)) in
  VideoRecorder.recording (self o) = true /\
  VideoRecorder.preview_active (self o) = true /\
  VideoRecorder.video_capture
    (self (snd (VideoRecorder.stop_preview penv
                  (snd (VideoRecorder.stop_recording Lab.video_stop o)))))
  = None /\
  VideoRecorder.video_capture
    (self (snd (VideoRecorder.stop_recording Lab.video_stop
                  (snd (VideoRecorder.stop_preview penv o)))))
  = None.
Proof.
  intros o penv.
  assert (H1 : VideoRecorder.recording (self o) = true)
    by (vm_compute; reflexivity).
  assert (H2 : VideoRecorder.preview_active (self o) = true)
    by (vm_compute; reflexivity).
  assert (H3 : VideoRecorder.show_preview (self o) = true)
    by (vm_compute; reflexivity).
  assert (H4 : VideoRecorder.video_capture (self o)
               = Some (VideoRecorder.Capture true))
    by (vm_compute; reflexivity).
  destruct (shared_camera_is_released_once Lab.video_stop penv _ o H1 H2 H3 H4
              eq_refl)
    as [[_ [_ [_ [Ha _]]]] [_ [_ [_ [Hb _]]]]].
  repeat split; assumption.
Defined.

(** ** The coordinator *)

(** X14: a joint start while either session records is refused before
    anything is touched: no directory is made, no device is armed, nothing
    is pushed; the call returns [False] and logs one warning. *)
Theorem joint_start_refused_while_recording :
  forall cfg env subject_id destination ai vi (o : obj RecorderCore.t),
    RecorderCore.recording_audio (self o) = true \/
    RecorderCore.recording_video (self o) = true ->
    RecorderCore.start_both_recordings cfg env subject_id destination ai vi o
    = (Val false,
       Obj (self o) (trace o ++ [ELog WARNING "Recording already in progress"])).
Proof.
  intros cfg env subject_id destination ai vi o H.
  unfold RecorderCore.start_both_recordings. run.
  assert (Hor : RecorderCore.recording_audio (self o)
                || RecorderCore.recording_video (self o) = true)
    by (apply orb_true_iff; exact H).
  rewrite Hor. reflexivity.
Qed.

Lemma joint_start_refused_while_recording_witness :
  let started :=
    snd (RecorderCore.start_both_recordings Lab.config Lab.both_ok "S1" "out"
           None None Lab.fresh_core) in
  RecorderCore.recording_audio (self started) = true /\
  RecorderCore.start_both_recordings Lab.config Lab.both_ok "S2" "out" None
    None started
  = (Val false,
     Obj (self started)
       (trace started ++ [ELog WARNING "Recording already in progress"])).
Proof.
  intros started.
  assert (H : RecorderCore.recording_audio (self started) = true)
    by (vm_compute; reflexivity).
  split; [exact H |].
  apply joint_start_refused_while_recording. left. exact H.
Defined.

Lemma audio_stop_clears_recording :
  forall env (o : obj AudioRecorder.t),
    AudioRecorder.recording (self (snd (AudioRecorder.stop_recording env o)))
    = false.
Proof.
  intros env o.
  unfold AudioRecorder.stop_recording, AudioRecorder.write_wav. run.
  destruct (AudioRecorder.recording (self o)) eqn:Hrec; run;
    [| exact Hrec].
  repeat (inner_case; run); reflexivity.
Qed.

Lemma video_stop_clears_recording :
  forall env (o : obj VideoRecorder.t),
    VideoRecorder.recording (self (snd (VideoRecorder.stop_recording env o)))
    = false.
Proof.
  intros env o. video_unfold. run.
  destruct (VideoRecorder.recording (self o)) eqn:Hrec; run;
    [| exact Hrec].
  repeat (inner_case; run); reflexivity.
Qed.

(** X15: [stop_both_recordings] stops the audio session if and only if it
    records, then the video session if and only if it records, also after
    a failed audio stop; a session that does not record is left exactly as
    it is and gets no call; the result is [True] exactly when every stop
    that was made returned [True]; afterwards neither session records. *)
Theorem joint_stop_attempts_every_recording_session :
  forall aenv venv (o : obj RecorderCore.t),
    let audio_on := RecorderCore.recording_audio (self o) in
    let video_on := RecorderCore.recording_video (self o) in
    let a :=
      AudioRecorder.stop_recording aenv
        (Obj (RecorderCore.audio_recorder (self o)) (trace o)) in
    let mid := if audio_on then trace (snd a) else trace o in
    let v :=
      VideoRecorder.stop_recording venv
        (Obj (RecorderCore.video_recorder (self o)) mid) in
    let r := RecorderCore.stop_both_recordings aenv venv o in
    fst r
    = Val ((if audio_on then succeeded (fst a) else true)
           && (if video_on then succeeded (fst v) else true)) /\
    RecorderCore.audio_recorder (self (snd r))
    = (if audio_on then self (snd a)
       else RecorderCore.audio_recorder (self o)) /\
    RecorderCore.video_recorder (self (snd r))
    = (if video_on then self (snd v)
       else RecorderCore.video_recorder (self o)) /\
    trace (snd r) = (if video_on then trace (snd v) else mid) /\
    RecorderCore.recording_audio (self (snd r)) = false /\
    RecorderCore.recording_video (self (snd r)) = false.
Proof.
  intros aenv venv o. cbv zeta.
  unfold RecorderCore.stop_both_recordings,
    RecorderCore.stop_audio_recording, RecorderCore.stop_video_recording,
    RecorderCore.on_audio, RecorderCore.on_video,
    RecorderCore.recording_audio, RecorderCore.recording_video.
  run.
  pose proof (audio_stop_clears_recording aenv
                (Obj (RecorderCore.audio_recorder (self o)) (trace o)))
    as Ha0.
  destruct (audio_stop_never_raises aenv
              (Obj (RecorderCore.audio_recorder (self o)) (trace o)))
    as [ba Hba].
  destruct (AudioRecorder.recording (RecorderCore.audio_recorder (self o)))
    eqn:Haon; run.
  - rewrite Hba. run.
    match goal with
    | |- context [VideoRecorder.stop_recording venv ?x] =>
        destruct (video_stop_never_raises venv x) as [bv Hbv];
        pose proof (video_stop_clears_recording venv x) as Hv0
    end.
    destruct (VideoRecorder.recording (RecorderCore.video_recorder (self o)))
      eqn:Hvon; run.
    + rewrite Hbv. run. destruct ba, bv; repeat split; auto.
    + destruct ba; repeat split; auto.
  - match goal with
    | |- context [VideoRecorder.stop_recording venv ?x] =>
        destruct (video_stop_never_raises venv x) as [bv Hbv];
        pose proof (video_stop_clears_recording venv x) as Hv0
    end.
    destruct (VideoRecorder.recording (RecorderCore.video_recorder (self o)))
      eqn:Hvon; run.
    + rewrite Hbv. run. destruct bv; repeat split; auto.
    + repeat split; auto.
Qed.

Lemma all_pushed_app :
  forall tr tr', all_pushed (tr ++ tr') = (all_pushed tr ++ all_pushed tr')%list.
Proof.
  intros tr tr'. induction tr as [| e tr IH]; simpl; [reflexivity |].
  destruct e; simpl; rewrite ?IH; reflexivity.
Qed.

Lemma warm_up_pushes_nothing :
  forall n reads pre_initialize,
    all_pushed (VideoRecorder.warm_up_events n reads pre_initialize) = [].
Proof.
  induction n as [| n IH]; intros reads pre_initialize; simpl; [reflexivity |].
  destruct reads as [| [|] rest]; simpl; rewrite ?IH; try reflexivity.
  destruct pre_initialize; reflexivity.
Qed.

Ltac all_pushes :=
  unfold MarkerStreams.send_audio_start_marker,
    MarkerStreams.send_audio_stop_marker,
    MarkerStreams.send_video_start_marker,
    MarkerStreams.send_video_stop_marker;
  repeat rewrite all_pushed_app; rewrite ?warm_up_pushes_nothing;
  cbn [all_pushed app]; repeat rewrite app_nil_r.

Lemma audio_arm_pushes_nothing :
  forall cfg env subject_id destination device_index filename
         (o : obj AudioRecorder.t),
    all_pushed
      (trace (snd (AudioRecorder.start_recording cfg env subject_id
                     destination device_index true filename o)))
    = all_pushed (trace o).
Proof.
  intros. audio_unfold. run.
  repeat (inner_case; run); all_pushes; reflexivity.
Qed.

Lemma video_arm_pushes_nothing :
  forall cfg env subject_id destination device_index filename
         (o : obj VideoRecorder.t),
    all_pushed
      (trace (snd (VideoRecorder.start_recording cfg env subject_id
                     destination device_index true filename o)))
    = all_pushed (trace o).
Proof.
  intros. video_unfold. run.
  repeat (first [rewrite warm_up_run | inner_case]; run);
    all_pushes; reflexivity.
Qed.

Lemma pre_initialize_both_pushes_nothing :
  forall cfg env subject_id destination ai vi (o : obj RecorderCore.t),
    all_pushed
      (trace (snd (RecorderCore.pre_initialize_both cfg env subject_id
                     destination ai vi o)))
    = all_pushed (trace o).
Proof.
  intros.
  unfold RecorderCore.pre_initialize_both, RecorderCore.key,
    RecorderCore.on_audio, RecorderCore.on_video.
  run.
  repeat (inner_case; run);
    repeat (first [ rewrite video_arm_pushes_nothing
                  | rewrite audio_arm_pushes_nothing ]; cbn [trace self]);
    all_pushes; reflexivity.
Qed.

(** What a successful [start_pre_initialized_audio] adds, seen from the
    coordinator. *)
Lemma core_audio_begin_push :
  forall env subject_id (o o' : obj RecorderCore.t),
    RecorderCore.start_pre_initialized_audio env subject_id o = (Val true, o') ->
    let a := RecorderCore.audio_recorder (self o) in
    all_pushed (trace o')
    = (all_pushed (trace o)
         ++ [(AudioOutlet,
              MarkerStreams.audio_start_marker subject_id
                (AudioRecorder.audio_filename a)
                (AudioRecorder.begin_now env)
                (AudioRecorder.actual_channels a)
                (AudioRecorder.actual_sample_rate a)
                (Some (AudioRecorder.begin_iso env)))])%list /\
    AudioRecorder.audio_filename (RecorderCore.audio_recorder (self o'))
    = AudioRecorder.audio_filename a /\
    AudioRecorder.actual_channels (RecorderCore.audio_recorder (self o'))
    = AudioRecorder.actual_channels a /\
    AudioRecorder.actual_sample_rate (RecorderCore.audio_recorder (self o'))
    = AudioRecorder.actual_sample_rate a /\
    RecorderCore.video_recorder (self o') = RecorderCore.video_recorder (self o) /\
    RecorderCore.recording_audio (self o') = true.
Proof.
  intros env subject_id o o'.
  unfold RecorderCore.start_pre_initialized_audio, RecorderCore.on_audio,
    RecorderCore.recording_audio.
  audio_unfold. run.
  repeat (inner_case; run); intros H; inversion H; subst; clear H; run;
    all_pushes; repeat split; reflexivity.
Qed.

Lemma core_video_begin_push :
  forall env subject_id (o o' : obj RecorderCore.t),
    RecorderCore.start_pre_initialized_video env subject_id o = (Val true, o') ->
    let v := RecorderCore.video_recorder (self o) in
    all_pushed (trace o')
    = (all_pushed (trace o)
         ++ [(VideoOutlet,
              MarkerStreams.video_start_marker subject_id
                (VideoRecorder.video_filename v)
                (VideoRecorder.begin_now env) (VideoRecorder.begin_iso env)
                (VideoRecorder.actual_fps v))])%list /\
    VideoRecorder.video_filename (RecorderCore.video_recorder (self o'))
    = VideoRecorder.video_filename v /\
    VideoRecorder.actual_fps (RecorderCore.video_recorder (self o'))
    = VideoRecorder.actual_fps v /\
    RecorderCore.audio_recorder (self o') = RecorderCore.audio_recorder (self o) /\
    RecorderCore.recording_video (self o') = true.
Proof.
  intros env subject_id o o'.
  unfold RecorderCore.start_pre_initialized_video, RecorderCore.on_video,
    RecorderCore.recording_video.
  video_unfold. run.
  repeat (inner_case; run); intros H; inversion H; subst; clear H; run;
    all_pushes; repeat split; reflexivity.
Qed.

(** A joint start that returns [True]: its phases, and what it leaves. *)
Lemma start_both_true_trace :
  forall cfg env subject_id destination ai vi (o o' : obj RecorderCore.t),
    RecorderCore.start_both_recordings cfg env subject_id destination ai vi o
    = (Val true, o') ->
    exists o2 o3,
      RecorderCore.start_pre_initialized_audio (RecorderCore.audio_begin env)
        subject_id
        (snd (RecorderCore.pre_initialize_both cfg env subject_id destination
                ai vi o)) = (Val true, o2) /\
      RecorderCore.start_pre_initialized_video (RecorderCore.video_begin env)
        subject_id o2 = (Val true, o3) /\
      self o' = self o3 /\
      all_pushed (trace o') = all_pushed (trace o3).
Proof.
  intros cfg env subject_id destination ai vi o o'.
  unfold RecorderCore.start_both_recordings. run.
  destruct (RecorderCore.recording_audio (self o)
            || RecorderCore.recording_video (self o)); run;
    [discriminate |].
  destruct (RecorderCore.pre_initialize_both cfg env subject_id destination ai
              vi o) as [[arms | e1] o1] eqn:E1; run; [| discriminate].
  destruct (RecorderCore.start_pre_initialized_audio
              (RecorderCore.audio_begin env) subject_id o1)
    as [[a | e2] o2] eqn:E2; run; [| discriminate].
  destruct (RecorderCore.start_pre_initialized_video
              (RecorderCore.video_begin env) subject_id o2)
    as [[v | e3] o3] eqn:E3; run; [| discriminate].
  destruct a, v; run; intros H; inversion H; subst; clear H.
  exists o2, o3. cbn [self trace]. all_pushes. done_eqs.
Qed.

(** A joint stop of two recording sessions that returns [True]. *)
Lemma stop_both_true_pushes :
  forall aenv venv (o o' : obj RecorderCore.t),
    RecorderCore.recording_audio (self o) = true ->
    RecorderCore.recording_video (self o) = true ->
    RecorderCore.stop_both_recordings aenv venv o = (Val true, o') ->
    all_pushed (trace o')
    = (all_pushed (trace o)
         ++ [(AudioOutlet,
              MarkerStreams.audio_stop_marker
                (AudioRecorder.audio_filename
                   (RecorderCore.audio_recorder (self o)))
                (AudioRecorder.stop_now aenv));
             (VideoOutlet,
              MarkerStreams.video_stop_marker
                (VideoRecorder.video_filename
                   (RecorderCore.video_recorder (self o)))
                (VideoRecorder.stop_now venv))])%list.
Proof.
  intros aenv venv o o'.
  unfold RecorderCore.stop_both_recordings,
    RecorderCore.stop_audio_recording, RecorderCore.stop_video_recording,
    RecorderCore.on_audio, RecorderCore.on_video,
    RecorderCore.recording_audio, RecorderCore.recording_video,
    AudioRecorder.stop_recording, AudioRecorder.write_wav.
  video_unfold. run.
  intros Ha Hv.
  repeat (first [rewrite Ha | rewrite Hv | inner_case]; run);
    intros H; inversion H; subst; clear H; run;
    all_pushes; repeat rewrite <- app_assoc; first [reflexivity | congruence].
Qed.

(** X16: a joint start that returns [True] followed by a joint stop that
    returns [True] pushes exactly four samples, in this order: AUDIO_START,
    VIDEO_START, AUDIO_STOP, VIDEO_STOP.  The two audio samples name the
    audio session's file and the two video samples the video session's
    file; the start samples carry the subject id, the clock readings of
    their own [start_pre_initialized] call and the negotiated channels,
    rate and fps. *)
Theorem joint_run_pushes_four_markers_in_order :
  forall cfg env aenv venv subject_id destination ai vi
         (o o1 o2 : obj RecorderCore.t),
    RecorderCore.start_both_recordings cfg env subject_id destination ai vi o
    = (Val true, o1) ->
    RecorderCore.stop_both_recordings aenv venv o1 = (Val true, o2) ->
    let a := RecorderCore.audio_recorder (self o1) in
    let v := RecorderCore.video_recorder (self o1) in
    all_pushed (trace o2)
    = (all_pushed (trace o)
         ++ [(AudioOutlet,
              MarkerStreams.audio_start_marker subject_id
                (AudioRecorder.audio_filename a)
                (AudioRecorder.begin_now (RecorderCore.audio_begin env))
                (AudioRecorder.actual_channels a)
                (AudioRecorder.actual_sample_rate a)
                (Some (AudioRecorder.begin_iso (RecorderCore.audio_begin env))));
             (VideoOutlet,
              MarkerStreams.video_start_marker subject_id
                (VideoRecorder.video_filename v)
                (VideoRecorder.begin_now (RecorderCore.video_begin env))
                (VideoRecorder.begin_iso (RecorderCore.video_begin env))
                (VideoRecorder.actual_fps v));
             (AudioOutlet,
              MarkerStreams.audio_stop_marker (AudioRecorder.audio_filename a)
                (AudioRecorder.stop_now aenv));
             (VideoOutlet,
              MarkerStreams.video_stop_marker (VideoRecorder.video_filename v)
                (VideoRecorder.stop_now venv))])%list.
Proof.
  intros cfg env aenv venv subject_id destination ai vi o o1 o2 Hstart Hstop.
  destruct (start_both_true_trace _ _ _ _ _ _ _ _ Hstart)
    as [p2 [p3 [E2 [E3 [Hself Hpush]]]]].
  pose proof (pre_initialize_both_pushes_nothing cfg env subject_id destination
                ai vi o) as P1.
  destruct (core_audio_begin_push _ _ _ _ E2) as [A1 [A2 [Ach [Asr [A3 A4]]]]].
  destruct (core_video_begin_push _ _ _ _ E3) as [V1 [V2 [Vfps [V3 V4]]]].
  assert (Hra : RecorderCore.recording_audio (self o1) = true).
  { rewrite Hself. unfold RecorderCore.recording_audio in *. rewrite V3.
    exact A4. }
  assert (Hrv : RecorderCore.recording_video (self o1) = true)
    by (rewrite Hself; exact V4).
  rewrite (stop_both_true_pushes _ _ _ _ Hra Hrv Hstop).
  cbv zeta in *. rewrite Hpush, V1, A1, P1, Hself.
  rewrite V2, Vfps, V3, A2, Ach, Asr.
  repeat rewrite <- app_assoc. reflexivity.
Qed.

Lemma joint_run_pushes_four_markers_in_order_witness :
  let started :=
    RecorderCore.start_both_recordings Lab.config Lab.both_ok "S1" "out" None
      None Lab.fresh_core in
  let stopped :=
    RecorderCore.stop_both_recordings Lab.audio_stop Lab.video_stop
      (snd started) in
  started = (Val true, snd started) /\
  stopped = (Val true, snd stopped) /\
  all_pushed (trace (snd stopped))
  = [(AudioOutlet,
      "AUDIO_START,S1,out/S1_audio_20240101_120000.wav,20240101_120001,1,44100,2024-01-01T12:00:01.123456");
     (VideoOutlet,
      "VIDEO_START,S1,out/S1_video_20240101_120000.mp4,20240101_120001,2024-01-01T12:00:01.123999,24");
     (AudioOutlet,
      "AUDIO_STOP,out/S1_audio_20240101_120000.wav,20240101_120500");
     (VideoOutlet,
      "VIDEO_STOP,out/S1_video_20240101_120000.mp4,20240101_120501")].
Proof.
  intros started stopped.
  assert (H1 : started = (Val true, snd started)) by (vm_compute; reflexivity).
  assert (H2 : stopped = (Val true, snd stopped)) by (vm_compute; reflexivity).
  split; [exact H1 |]. split; [exact H2 |].
  unfold stopped in *. unfold started in *.
  rewrite (joint_run_pushes_four_markers_in_order _ _ _ _ _ _ _ _ _ _ _ H1 H2).
  vm_compute. reflexivity.
Defined.

(** ** The capture loop *)




(** The equations of the loop, one per case of the source. *)
Lemma loop_frame_normal :
  forall st ft count p e sp rest,
    CaptureLoop.loop st ft CaptureLoop.Normal count
      (CaptureLoop.Frame p e sp :: rest)
    = (fst (fst (CaptureLoop.loop st ft CaptureLoop.Normal (count + 1) rest)),
       snd (fst (CaptureLoop.loop st ft CaptureLoop.Normal (count + 1) rest)),
       ((if st then [CaptureLoop.Overlay count false] else [])
        ++ [CaptureLoop.Write count]
        ++ (if sp then [CaptureLoop.Preview] else [])
        ++ CaptureLoop.progress (count + 1) e
        ++ CaptureLoop.pace ft p
        ++ snd (CaptureLoop.loop st ft CaptureLoop.Normal (count + 1) rest))%list).
Proof.
  intros. simpl.
  destruct (CaptureLoop.loop st ft CaptureLoop.Normal (count + 1) rest)
    as [[n why] evs].
  reflexivity.
Qed.

Lemma loop_miss_normal :
  forall st ft count rest,
    CaptureLoop.loop st ft CaptureLoop.Normal count (CaptureLoop.Miss :: rest)
    = (fst (fst (CaptureLoop.loop st ft
                   (CaptureLoop.Recovery CaptureLoop.max_attempts) count rest)),
       snd (fst (CaptureLoop.loop st ft
                   (CaptureLoop.Recovery CaptureLoop.max_attempts) count rest)),
       CaptureLoop.Log WARNING CaptureLoop.Recovering
       :: CaptureLoop.Sleep (1 # 100)
       :: snd (CaptureLoop.loop st ft
                 (CaptureLoop.Recovery CaptureLoop.max_attempts) count rest)).
Proof.
  intros. simpl.
  destruct (CaptureLoop.loop st ft
              (CaptureLoop.Recovery CaptureLoop.max_attempts) count rest)
    as [[n why] evs].
  reflexivity.
Qed.

Lemma loop_frame_recovery :
  forall st ft k count p e sp rest,
    CaptureLoop.loop st ft (CaptureLoop.Recovery (S k)) count
      (CaptureLoop.Frame p e sp :: rest)
    = (fst (fst (CaptureLoop.loop st ft CaptureLoop.Normal (count + 1) rest)),
       snd (fst (CaptureLoop.loop st ft CaptureLoop.Normal (count + 1) rest)),
       ((if st then [CaptureLoop.Overlay count true] else [])
        ++ [CaptureLoop.Write count]
        ++ snd (CaptureLoop.loop st ft CaptureLoop.Normal (count + 1) rest))%list).
Proof.
  intros. simpl.
  destruct (CaptureLoop.loop st ft CaptureLoop.Normal (count + 1) rest)
    as [[n why] evs].
  reflexivity.
Qed.

Lemma loop_miss_recovery :
  forall st ft k count rest,
    CaptureLoop.loop st ft (CaptureLoop.Recovery (S k)) count
      (CaptureLoop.Miss :: rest)
    = (fst (fst (CaptureLoop.loop st ft (CaptureLoop.Recovery k) count rest)),
       snd (fst (CaptureLoop.loop st ft (CaptureLoop.Recovery k) count rest)),
       CaptureLoop.Sleep (1 # 100)
       :: snd (CaptureLoop.loop st ft (CaptureLoop.Recovery k) count rest)).
Proof.
  intros. simpl.
  destruct (CaptureLoop.loop st ft (CaptureLoop.Recovery k) count rest)
    as [[n why] evs].
  reflexivity.
Qed.











Lemma slept_app :
  forall a b,
    CaptureLoop.slept (a ++ b)
    = (CaptureLoop.slept a ++ CaptureLoop.slept b)%list.
Proof.
  intros a b. induction a as [| e a IH]; simpl; [reflexivity |].
  destruct e; simpl; rewrite ?IH; reflexivity.
Qed.

Lemma slept_pace :
  forall ft p,
    CaptureLoop.slept (CaptureLoop.pace ft p) = []
    \/ (CaptureLoop.slept (CaptureLoop.pace ft p) = [((ft - p) / 1000)%Q]
        /\ (0 < (ft - p) / 1000)%Q).
Proof.
  intros ft p. unfold CaptureLoop.pace.
  destruct (Qle_bool (ft - p) 0) eqn:E; simpl; [left; reflexivity |].
  rewrite E. right. split; [reflexivity |].
  apply Qlt_shift_div_l; [reflexivity |].
  rewrite Qmult_0_l. apply Qnot_le_lt. intros H.
  apply Qle_bool_iff in H. congruence.
Qed.

Lemma nap_later :
  forall ft r reads s, CaptureLoop.nap ft reads s -> CaptureLoop.nap ft (r :: reads) s.
Proof.
  intros ft r reads s [Hpos [H | [p [e [sp [Hin H]]]]]]; split; auto.
  right. exists p, e, sp. split; [right; exact Hin | exact H].
Qed.

(** X19: the capture loop never calls [time.sleep] with a zero or negative
    duration: every pause is either the 10 ms recovery pause or the strictly
    positive rest of the frame interval after a frame of the run. *)
Theorem capture_loop_sleeps_are_positive :
  forall show_timestamp frame_time_ms reads m frame_count,
    Forall (CaptureLoop.nap frame_time_ms reads)
      (CaptureLoop.slept
         (snd (CaptureLoop.loop show_timestamp frame_time_ms m frame_count
                 reads))).
Proof.
  intros st ft reads.
  induction reads as [| r rest IH]; intros m count.
  - destruct m as [| [| k]]; simpl; apply Forall_nil.
  - assert (Hrest : forall m' c',
               Forall (CaptureLoop.nap ft (r :: rest))
                 (CaptureLoop.slept
                    (snd (CaptureLoop.loop st ft m' c' rest)))).
    { intros m' c'. eapply Forall_impl; [| apply IH].
      intros s. apply nap_later. }
    assert (Hpause : CaptureLoop.nap ft (r :: rest) (1 # 100)).
    { split; [reflexivity | left; reflexivity]. }
    destruct m as [| [| k]]; [| simpl; apply Forall_nil |];
      destruct r as [p e sp | | e]; try (simpl; apply Forall_nil).
    + rewrite loop_frame_normal. cbn [snd].
      repeat rewrite slept_app.
      replace (CaptureLoop.slept
                 (if st then [CaptureLoop.Overlay count false] else []))
        with (@nil Q) by (destruct st; reflexivity).
      replace (CaptureLoop.slept
                 (if sp then [CaptureLoop.Preview] else []))
        with (@nil Q) by (destruct sp; reflexivity).
      replace (CaptureLoop.slept (CaptureLoop.progress (count + 1) e))
        with (@nil Q)
        by (unfold CaptureLoop.progress;
            destruct ((count + 1) mod 100 =? 0); reflexivity).
      cbn [CaptureLoop.slept app].
      destruct (slept_pace ft p) as [H | [H Hpos]]; rewrite H; cbn [app].
      * apply Hrest.
      * apply Forall_cons; [| apply Hrest].
        split; [exact Hpos |]. right. exists p, e, sp.
        split; [left; reflexivity | reflexivity].
    + rewrite loop_miss_normal. cbn [snd CaptureLoop.slept].
      apply Forall_cons; [exact Hpause | apply Hrest].
    + rewrite loop_frame_recovery. cbn [snd].
      repeat rewrite slept_app.
      replace (CaptureLoop.slept
                 (if st then [CaptureLoop.Overlay count true] else []))
        with (@nil Q) by (destruct st; reflexivity).
      cbn [CaptureLoop.slept app]. apply Hrest.
    + rewrite loop_miss_recovery. cbn [snd CaptureLoop.slept].
      apply Forall_cons; [exact Hpause | apply Hrest].
Qed.

(** ** The capture thread and the session that starts it *)

Lemma positive_rate_is_not_zero :
  forall a, Py.num_ltb (Py.Int 0) a = true -> Qeq_bool (Py.num_val a) 0 = false.
Proof.
  intros a H. apply num_ltb_lt in H.
  destruct (Qeq_bool (Py.num_val a) 0) eqn:E; [| reflexivity].
  apply Qeq_bool_iff in E. rewrite E in H. exfalso. revert H. apply Qlt_irrefl.
Qed.

(** X20: after a video [start_recording] that returned [True] with a
    non-zero configured frame rate, the rate left in [actual_fps] is one the
    capture thread can divide by: whatever the camera delivers, the thread
    gets past [1000.0 / target_fps] and runs its loop. *)
Theorem capture_thread_runs_after_successful_start :
  forall cfg env subject_id destination device_index pre_initialize filename
         (o o' : obj VideoRecorder.t) requested,
    VideoRecorder.start_recording cfg env subject_id destination device_index
      pre_initialize filename o = (Val true, o') ->
    VideoRecorder.fps cfg = Some requested ->
    Qeq_bool (Py.num_val requested) 0 = false ->
    forall show_timestamp reads,
    exists outcome,
      CaptureLoop.recording_thread show_timestamp
        (VideoRecorder.actual_fps (self o')) reads = Val outcome.
Proof.
  intros cfg env subject_id destination device_index pre_initialize filename
         o o' requested.
  video_unfold. run.
  repeat (first [rewrite warm_up_run | inner_case]; run);
    intros H; inversion H; subst; clear H; run;
    intros Hreq Hnz st reads; inversion Hreq; subst;
    unfold CaptureLoop.recording_thread;
    match goal with
    | H : _ && _ = true |- _ =>
        apply andb_true_iff in H; destruct H as [H _];
        rewrite (positive_rate_is_not_zero _ H)
    | H : _ && _ = false |- _ => rewrite Hnz
    end;
    eexists; reflexivity.
Qed.

Lemma capture_thread_runs_after_successful_start_witness :
  let started :=
    VideoRecorder.start_recording Lab.video_settings Lab.camera_ok "S1" "out"
      (Some 0) true None Lab.fresh_video in
  started = (Val true, snd started) /\
  exists outcome,
    CaptureLoop.recording_thread false
      (VideoRecorder.actual_fps (self (snd started)))
      [CaptureLoop.Frame 5 (1 # 30) false; CaptureLoop.Miss]
    = Val outcome.
Proof.
  intros started.
  assert (H : started = (Val true, snd started)) by (vm_compute; reflexivity).
  split; [exact H |]. unfold started in H.
  exact (capture_thread_runs_after_successful_start _ _ _ _ _ _ _ _ _
           (Py.Int 24) H eq_refl eq_refl false
           [CaptureLoop.Frame 5 (1 # 30) false; CaptureLoop.Miss]).
Defined.

Lemma preview_opens_without_negotiating :
  forall cfg penv (o p : obj VideoRecorder.t),
    VideoRecorder.video_capture (self o) = None ->
    VideoRecorder.preview_active (self o) = false ->
    VideoRecorder.start_preview cfg penv o = (Val true, p) ->
    VideoRecorder.video_capture (self p) <> None /\
    VideoRecorder.actual_fps (self p) = VideoRecorder.actual_fps (self o) /\
    VideoRecorder.video_filename (self p)
    = VideoRecorder.video_filename (self o).
Proof.
  intros cfg penv o p Hcap Hact.
  unfold VideoRecorder.start_preview. video_unfold. run.
  rewrite Hact, Hcap. run.
  repeat (inner_case; run);
    intros H; inversion H; subst; clear H; run;
    repeat split; try reflexivity; discriminate.
Qed.

(** X21: a recorder whose camera was opened by the preview alone, never by
    [start_recording], still passes the test of [start_pre_initialized]: the
    call returns [True], sets the [recording] flag and pushes a VIDEO_START
    marker, but no frame rate was ever negotiated, so the capture thread it
    starts raises at [1000.0 / target_fps] before its first read. *)
Theorem begin_after_preview_alone_starts_a_dead_thread :
  forall cfg penv benv subject_id (o p : obj VideoRecorder.t),
    VideoRecorder.video_capture (self o) = None ->
    VideoRecorder.actual_fps (self o) = None ->
    VideoRecorder.preview_active (self o) = false ->
    VideoRecorder.start_preview cfg penv o = (Val true, p) ->
    let begun := VideoRecorder.start_pre_initialized benv subject_id p in
    fst begun = Val true /\
    VideoRecorder.recording (self (snd begun)) = true /\
    pushed VideoOutlet (trace (snd begun))
    = (pushed VideoOutlet (trace p)
       ++ [MarkerStreams.video_start_marker subject_id
             (VideoRecorder.video_filename (self o))
             (VideoRecorder.begin_now benv) (VideoRecorder.begin_iso benv)
             None])%list /\
    forall show_timestamp reads,
    exists e,
      CaptureLoop.recording_thread show_timestamp
        (VideoRecorder.actual_fps (self (snd begun))) reads = Raised e.
Proof.
  intros cfg penv benv subject_id o p Hcap Hfps Hact Hprev begun.
  destruct (preview_opens_without_negotiating _ _ _ _ Hcap Hact Hprev)
    as [Hc [Hf Hn]].
  subst begun. video_unfold. run.
  destruct (VideoRecorder.video_capture (self p)) as [c |]; [| congruence].
  run. rewrite Hf, Hfps, Hn.
  split; [reflexivity |]. split; [reflexivity |].
  split; [pushes; reflexivity |].
  intros st reads. eexists. reflexivity.
Qed.

Lemma begin_after_preview_alone_starts_a_dead_thread_witness :
  let previewed :=
    VideoRecorder.start_preview Lab.video_settings
      (VideoRecorder.PreviewEnv true true None) Lab.fresh_video in
  let begun :=
    VideoRecorder.start_pre_initialized Lab.video_begin "S1" (snd previewed) in
  fst previewed = Val true /\
  fst begun = Val true /\
  exists e,
    CaptureLoop.recording_thread false
      (VideoRecorder.actual_fps (self (snd begun)))
      [CaptureLoop.Frame 5 (1 # 30) false] = Raised e.
Proof.
  intros previewed begun.
  assert (H : previewed = (Val true, snd previewed))
    by (vm_compute; reflexivity).
  split; [vm_compute; reflexivity |]. unfold previewed in H.
  destruct (begin_after_preview_alone_starts_a_dead_thread
              Lab.video_settings (VideoRecorder.PreviewEnv true true None)
              Lab.video_begin "S1" Lab.fresh_video _ eq_refl eq_refl eq_refl H)
    as [H1 [_ [_ H4]]].
  split; [exact H1 |].
  exact (H4 false [CaptureLoop.Frame 5 (1 # 30) false]).
Defined.
